(** * Authentication core of the secure-user-auth backend

    A shallow embedding of the Express/Mongoose authentication code
    (configuration validation, the user model and its pre-save hooks, the
    [protect] and [authorize] middleware, the error handler and the
    authentication controllers), followed by the properties established
    about it.

    Conventions.
    - Instants are [Z], in milliseconds since the epoch, as [Date.now()]
      and [Date.prototype.getTime] return them.
    - JavaScript strings are [string]; [undefined]/[null] is [None].
    - [Date.now()], fresh random bytes and fresh object ids are inputs of
      the operation that consumes them.
    - [next(err)] and [res.status(c).json(b)] are the two ways a handler
      ends; they are the constructors of [Outcome].
    - Logging is write-only towards an external collaborator and is not
      part of the model. *)

From Stdlib Require Import String Ascii List ZArith Bool Lia DecimalString.
Import ListNotations.
Local Open Scope string_scope.
Local Open Scope Z_scope.

(* ================================================================== *)
(** * Part I: the model                                                *)
(* ================================================================== *)

(** ** JavaScript helpers *)
Module JS.

(** Truthiness of a string value: the empty string is falsy. *)
Definition truthy (s : string) : bool := negb (String.eqb s "").

(** Truthiness of a possibly-undefined string. *)
Definition truthy_opt (v : option string) : bool :=
  match v with
  | Some s => truthy s
  | None => false
  end.

(** [v || d] on a possibly-undefined string. *)
Definition or_default (v : option string) (d : string) : string :=
  match v with
  | Some s => if truthy s then s else d
  | None => d
  end.

(** [a === b] where [a] may be undefined and [b] is a string literal. *)
Definition strict_eq (a : option string) (b : string) : bool :=
  match a with
  | Some s => String.eqb s b
  | None => false
  end.

(** [s.startsWith(p)]. *)
Definition startsWith (s p : string) : bool := String.prefix p s.

(** [s.split(sep)] for a one-character separator: the pieces between
    consecutive separators, empty pieces included. *)
Fixpoint split_acc (sep : ascii) (s : string) (cur : string) : list string :=
  match s with
  | EmptyString => [cur]
  | String c rest =>
      if Ascii.eqb c sep
      then cur :: split_acc sep rest ""
      else split_acc sep rest (cur ++ String c "")
  end.

Definition split (sep : ascii) (s : string) : list string :=
  split_acc sep s "".

(** [parseInt(x / 1000, 10)] for an integral number of milliseconds [x]
    in the range of a [Date] (|x| <= 8.64e15): the quotient is printed in
    positional notation and its integer part is read back, which
    truncates towards zero. *)
Definition parseInt_div1000 (x : Z) : Z := Z.quot x 1000.

End JS.

(** ** src/config/config.js *)
Module Config.

(** [process.env] after [dotenv.config]: variable name to value. *)
Definition ProcessEnv := list (string * string).

Fixpoint getenv (env : ProcessEnv) (k : string) : option string :=
  match env with
  | [] => None
  | (k', v) :: rest => if String.eqb k' k then Some v else getenv rest k
  end.

Record JwtConfig := mkJwtConfig { secret : string; expiresIn : string }.

Record Config := mkConfig { nodeEnv : string; jwt : JwtConfig }.

Definition development_secret : string :=
  "development_secret_key_change_in_production".

(** The [config] object (the fields the authentication core reads). *)
Definition config (env : ProcessEnv) : Config :=
  {| nodeEnv := JS.or_default (getenv env "NODE_ENV") "development";
     jwt := {| secret := JS.or_default (getenv env "JWT_SECRET") development_secret;
               expiresIn := JS.or_default (getenv env "JWT_EXPIRE") "24h" |} |}.

(** How [validateConfig] ends: it throws, or returns after having
    written the listed warnings to the console. *)
Inductive Validation :=
| Throws (message : string)
| Returns (warnings : list string).

Definition requiredEnvVars : list string := ["JWT_SECRET"].

(** The [for (const envVar of requiredEnvVars)] loop: the first missing
    variable under production throws. *)
Fixpoint check_required (env : ProcessEnv) (vars : list string) : option string :=
  match vars with
  | [] => None
  | envVar :: rest =>
      if negb (JS.truthy_opt (getenv env envVar))
         && String.eqb (nodeEnv (config env)) "production"
      then Some ("Environment variable " ++ envVar ++ " is required in production mode")
      else check_required env rest
  end.

Definition validateConfig (env : ProcessEnv) : Validation :=
  match check_required env requiredEnvVars with
  | Some message => Throws message
  | None =>
      if negb (JS.strict_eq (getenv env "NODE_ENV") "production")
         && JS.strict_eq (getenv env "JWT_SECRET") development_secret
      then Returns ["Warning: Using default JWT secret. This is insecure and should be changed."]
      else Returns []
  end.

End Config.

(** ** Errors and the two ways a handler ends *)
Module Http.

(** A thrown or forwarded error object, with the properties the error
    handler reads.  [err_errors] holds the messages of the values of
    [err.errors]; [err_keyValue] the keys of [err.keyValue]. *)
Record Err := mkErr {
  err_name : string;
  err_statusCode : option Z;
  err_message : string;
  err_code : option Z;
  err_errors : list string;
  err_keyValue : list string;
  err_stack : string
}.

(** The header line of [err.stack]; the frames below it are not
    modelled. *)
Definition stack_of (name message : string) : string :=
  name ++ ": " ++ message.

(** [new ApiError(statusCode, message)]: [name] is the class name. *)
Definition ApiError (statusCode : Z) (message : string) : Err :=
  {| err_name := "ApiError";
     err_statusCode := Some statusCode;
     err_message := message;
     err_code := None;
     err_errors := [];
     err_keyValue := [];
     err_stack := stack_of "ApiError" message |}.

(** An error raised by a library, known by its name and message. *)
Definition LibraryError (name message : string) : Err :=
  {| err_name := name;
     err_statusCode := None;
     err_message := message;
     err_code := None;
     err_errors := [];
     err_keyValue := [];
     err_stack := stack_of name message |}.

(** Mongoose's [ValidationError] for the listed validator messages. *)
Definition ValidationError (messages : list string) : Err :=
  {| err_name := "ValidationError";
     err_statusCode := None;
     err_message := "User validation failed";
     err_code := None;
     err_errors := messages;
     err_keyValue := [];
     err_stack := stack_of "ValidationError" "User validation failed" |}.

(** The driver's duplicate-key error (E11000) on the given field. *)
Definition DuplicateKeyError (field : string) : Err :=
  {| err_name := "MongoServerError";
     err_statusCode := None;
     err_message := "E11000 duplicate key error";
     err_code := Some 11000;
     err_errors := [];
     err_keyValue := [field];
     err_stack := stack_of "MongoServerError" "E11000 duplicate key error" |}.

(** Fallible steps: a value, or a thrown error. *)
Inductive Result (A : Type) :=
| Ok (a : A)
| Throw (e : Err).
Arguments Ok {A} a.
Arguments Throw {A} e.

Definition bind {A B : Type} (r : Result A) (k : A -> Result B) : Result B :=
  match r with
  | Ok a => k a
  | Throw e => Throw e
  end.

(** The user object returned in a JSON body. *)
Record UserView := mkUserView {
  view_id : nat;
  view_name : string;
  view_email : string;
  view_role : option string
}.

(** The [data] of the success bodies the authentication handlers send. *)
Inductive Body :=
| AuthBody (user : UserView) (token : string)
| TokenBody (message : string) (token : string)
| ResetTokenBody (message : string) (resetToken : string).

(** A handler ends with [next(err)] or with
    [res.status(status).json({ success: true, ... })]. *)
Inductive Outcome :=
| Next (e : Err)
| Json (status : Z) (body : Body).

End Http.

Notation "x <- r ;; k" := (Http.bind r (fun x => k))
  (at level 61, r at next level, right associativity).

(** ** middleware/errorHandler.js *)
Module ErrorHandler.
Import Http.

(** [errorDetails]: an array of messages or one string. *)
Inductive Details :=
| DetailList (messages : list string)
| DetailText (text : string).

(** What [res.status(statusCode).json({ success: false, error })]
    sends: [error.details] and [error.stack] are present only when
    spread in. *)
Record ErrorResponse := mkErrorResponse {
  status : Z;
  success : bool;
  message : string;
  details : option Details;
  stack : option string
}.

(** [err.statusCode || 500]. *)
Definition statusCode_or_500 (e : Err) : Z :=
  match err_statusCode e with
  | Some 0 => 500
  | Some c => c
  | None => 500
  end.

(** [err.message || 'Internal Server Error']. *)
Definition message_or_default (e : Err) : string :=
  if JS.truthy (err_message e) then err_message e else "Internal Server Error".

Definition errorHandler (cfg : Config.Config) (err : Err) : ErrorResponse :=
  let send (statusCode : Z) (message : string) (errorDetails : option Details) :=
    {| status := statusCode;
       success := false;
       message := message;
       details := errorDetails;
       stack := if String.eqb (Config.nodeEnv cfg) "development"
                then Some (err_stack err) else None |} in
  if String.eqb (err_name err) "ValidationError" then
    send 400 "Validation Error" (Some (DetailList (err_errors err)))
  else if String.eqb (err_name err) "CastError" then
    send 400 "Resource not found" None
  else if match err_code err with Some c => Z.eqb c 11000 | None => false end then
    send 409 "Duplicate field value entered"
         (Some (DetailText (hd "undefined" (err_keyValue err) ++ " already exists")))
  else if String.eqb (err_name err) "JsonWebTokenError" then
    send 401 "Invalid token" None
  else if String.eqb (err_name err) "TokenExpiredError" then
    send 401 "Token expired" None
  else
    send (statusCode_or_500 err) (message_or_default err) None.

End ErrorHandler.

(** ** Libraries the code calls into

    Node's [crypto], [bcryptjs], [jsonwebtoken] and the regular-expression
    engine are not part of the repository: the model is parametric in
    them.  Random bytes are an explicit [entropy] argument; the clock read
    by [jwt.sign] and [jwt.verify] is an explicit instant. *)

(** The claims [jwt.verify] hands back. *)
Record JwtClaims := mkJwtClaims {
  claim_id : nat;
  claim_role : option string;
  claim_iat : Z;
  claim_exp : Z
}.

(** [jwt.verify(token, secret)] returns the decoded claims or throws an
    error with a name. *)
Inductive Verified :=
| Decoded (claims : JwtClaims)
| VerifyThrew (name : string).

Class Externals := {
  (** [crypto.createHash('sha256').update(data).digest('hex')] *)
  sha256_hex : string -> string;
  (** [bcrypt.genSalt(rounds)], from the random bytes it draws *)
  bcrypt_genSalt : nat -> string -> string;
  (** [bcrypt.hash(password, salt)] *)
  bcrypt_hash : string -> string -> string;
  (** [bcrypt.compare(candidate, digest)] *)
  bcrypt_compare : string -> string -> bool;
  (** [jwt.sign({ id, role }, secret, { expiresIn })] at an instant *)
  jwt_sign : nat -> option string -> string -> string -> Z -> string;
  (** [jwt.verify(token, secret)] at an instant *)
  jwt_verify : string -> string -> Z -> Verified;
  (** the [match] regular expression of the [email] path *)
  email_regex : string -> bool
}.

(** The contract of bcrypt that the password properties rest on: a digest
    verifies the password it was computed from, and it embeds its salt. *)
Class BcryptContract (E : Externals) : Prop := {
  compare_hash : forall password salt,
    bcrypt_compare password (bcrypt_hash password salt) = true;
  hash_embeds_salt : forall password salt1 salt2,
    bcrypt_hash password salt1 = bcrypt_hash password salt2 -> salt1 = salt2;
  genSalt_injective : forall rounds entropy1 entropy2,
    bcrypt_genSalt rounds entropy1 = bcrypt_genSalt rounds entropy2 ->
    entropy1 = entropy2
}.

(** jsonwebtoken stamps [iat] with [Math.floor(Date.now() / 1000)]. *)
Definition issuedAt (now : Z) : Z := now / 1000.

(** ** models/userModel.js *)
Module UserModel.
Import Http.

(** A user document.  [password] is [None] in a document loaded without
    the password path ([select: false]); [role] is [None] when the path
    holds no value. *)
Record User := mkUser {
  _id : nat;
  name : string;
  email : string;
  password : option string;
  role : option string;
  isActive : bool;
  lastLogin : option Z;
  passwordResetToken : option string;
  passwordResetExpires : option Z;
  passwordChangedAt : option Z
}.

(** Field assignments. *)
Definition with_password (u : User) (p : option string) : User :=
  mkUser (_id u) (name u) (email u) p (role u) (isActive u) (lastLogin u)
         (passwordResetToken u) (passwordResetExpires u) (passwordChangedAt u).

Definition with_lastLogin (u : User) (t : option Z) : User :=
  mkUser (_id u) (name u) (email u) (password u) (role u) (isActive u) t
         (passwordResetToken u) (passwordResetExpires u) (passwordChangedAt u).

Definition with_passwordResetToken (u : User) (d : option string) : User :=
  mkUser (_id u) (name u) (email u) (password u) (role u) (isActive u) (lastLogin u)
         d (passwordResetExpires u) (passwordChangedAt u).

Definition with_passwordResetExpires (u : User) (t : option Z) : User :=
  mkUser (_id u) (name u) (email u) (password u) (role u) (isActive u) (lastLogin u)
         (passwordResetToken u) t (passwordChangedAt u).

Definition with_passwordChangedAt (u : User) (t : option Z) : User :=
  mkUser (_id u) (name u) (email u) (password u) (role u) (isActive u) (lastLogin u)
         (passwordResetToken u) (passwordResetExpires u) t.

(** A hydrated document: its fields, whether it has never been saved,
    and whether the [password] path is marked modified. *)
Record Document := mkDocument {
  this : User;
  isNew : bool;
  isModified_password : bool
}.

Definition opt_string_eqb (a b : option string) : bool :=
  match a, b with
  | Some x, Some y => String.eqb x y
  | None, None => true
  | _, _ => false
  end.

(** [doc.password = p]: the path is marked modified when the value
    changes. *)
Definition set_password (d : Document) (p : option string) : Document :=
  {| this := with_password (this d) p;
     isNew := isNew d;
     isModified_password :=
       isModified_password d || negb (opt_string_eqb (password (this d)) p) |}.

(** An assignment to a path other than [password]. *)
Definition assign (f : User -> User) (d : Document) : Document :=
  {| this := f (this d); isNew := isNew d; isModified_password := isModified_password d |}.

(** *** Schema setters and validators *)

Definition is_space (c : ascii) : bool :=
  let n := nat_of_ascii c in
  (Nat.leb 9 n && Nat.leb n 13) || Nat.eqb n 32.

Fixpoint drop_spaces (l : list ascii) : list ascii :=
  match l with
  | c :: rest => if is_space c then drop_spaces rest else l
  | [] => []
  end.

(** [trim: true] (on the ASCII white space). *)
Definition trim (s : string) : string :=
  string_of_list_ascii
    (rev (drop_spaces (rev (drop_spaces (list_ascii_of_string s))))).

Definition lower (c : ascii) : ascii :=
  let n := nat_of_ascii c in
  if Nat.leb 65 n && Nat.leb n 90 then ascii_of_nat (n + 32) else c.

(** [lowercase: true] (on the ASCII letters). *)
Definition lowercase (s : string) : string :=
  string_of_list_ascii (map lower (list_ascii_of_string s)).

(** The setters of the [email] path; Mongoose applies them to values
    assigned to the path and to query filters on it. *)
Definition cast_email (s : string) : string := trim (lowercase s).

Definition check (ok : bool) (message : string) : list string :=
  if ok then [] else [message].

Definition validate_name (v : option string) : list string :=
  match v with
  | Some s =>
      if JS.truthy s
      then check (Nat.leb (String.length s) 50) "Name cannot be more than 50 characters"
      else ["Please provide a name"]
  | None => ["Please provide a name"]
  end.

Definition validate_email {E : Externals} (v : option string) : list string :=
  match v with
  | Some s =>
      if JS.truthy s
      then check (email_regex s) "Please provide a valid email"
      else ["Please provide an email"]
  | None => ["Please provide an email"]
  end.

Definition validate_password (v : option string) : list string :=
  match v with
  | Some s =>
      if JS.truthy s
      then check (Nat.leb 8 (String.length s)) "Password must be at least 8 characters"
      else ["Please provide a password"]
  | None => ["Please provide a password"]
  end.

Definition validate_role (v : option string) : list string :=
  match v with
  | Some s =>
      check (String.eqb s "user" || String.eqb s "admin")
            ("`" ++ s ++ "` is not a valid enum value for path `role`.")
  | None => []
  end.

(** Validation before saving a loaded document.  Of its paths the
    handlers below modify only [password] among the validated ones; an
    unselected, unmodified [password] is skipped; the other paths passed
    their validators when the document was stored. *)
Definition validate (d : Document) : Result Document :=
  let errors :=
    if isModified_password d then validate_password (password (this d)) else [] in
  match errors with
  | [] => Ok d
  | _ => Throw (ValidationError errors)
  end.

(** *** Pre-save hooks *)

(** First hook: hash the password when it has been modified, with a
    salt of cost factor 12.  [bcrypt.hash] rejects an undefined
    password. *)
Definition hashPassword_hook {E : Externals} (entropy : string) (d : Document)
  : Result Document :=
  if negb (isModified_password d) then Ok d
  else
    match password (this d) with
    | Some plaintext =>
        let salt := bcrypt_genSalt 12 entropy in
        Ok (assign (fun u => with_password u (Some (bcrypt_hash plaintext salt))) d)
    | None => Throw (LibraryError "Error" "Illegal arguments: undefined, string")
    end.

(** Second hook: stamp [passwordChangedAt] one second before now, unless
    the password is unmodified or the document is new. *)
Definition passwordChangedAt_hook (now : Z) (d : Document) : Document :=
  if negb (isModified_password d) || isNew d then d
  else assign (fun u => with_passwordChangedAt u (Some (now - 1000))) d.

(** *** Methods *)

(** [bcrypt.compare] rejects an undefined digest. *)
Definition matchPassword {E : Externals} (u : User) (candidatePassword : string)
  : Result bool :=
  match password u with
  | Some digest => Ok (bcrypt_compare candidatePassword digest)
  | None => Throw (LibraryError "Error" "Illegal arguments: string, undefined")
  end.

Definition generateAuthToken {E : Externals} (cfg : Config.Config) (now : Z) (u : User)
  : string :=
  jwt_sign (_id u) (role u)
           (Config.secret (Config.jwt cfg)) (Config.expiresIn (Config.jwt cfg)) now.

(** A [Date] is truthy whatever its value. *)
Definition passwordChangedAfter (u : User) (JWTTimestamp : Z) : bool :=
  match passwordChangedAt u with
  | Some changedAt =>
      let changedTimestamp := JS.parseInt_div1000 changedAt in
      JWTTimestamp <? changedTimestamp
  | None => false
  end.

(** [resetToken] is [crypto.randomBytes(32).toString('hex')]. *)
Definition generatePasswordResetToken {E : Externals}
    (resetToken : string) (now : Z) (d : Document) : Document * string :=
  let d1 := assign (fun u => with_passwordResetToken u (Some (sha256_hex resetToken))) d in
  let d2 := assign (fun u => with_passwordResetExpires u (Some (now + 10 * 60 * 1000))) d1 in
  (d2, resetToken).

End UserModel.

(** ** The users collection and the model's static operations *)
Module Collection.
Import Http UserModel.

(** The stored documents, in insertion order. *)
Definition Store := list User.

(** A query result becomes a document; the [password] path is left out
    unless it is selected. *)
Definition hydrate (selectPassword : bool) (u : User) : Document :=
  {| this := if selectPassword then u else with_password u None;
     isNew := false;
     isModified_password := false |}.

(** [User.findOne(filter)]: the first stored document that matches. *)
Definition findOne (filter : User -> bool) (selectPassword : bool) (s : Store)
  : option Document :=
  option_map (hydrate selectPassword) (find filter s).

Definition findById (id : nat) (selectPassword : bool) (s : Store) : option Document :=
  findOne (fun u => Nat.eqb (_id u) id) selectPassword s.

(** The filter [{ email }]. *)
Definition by_email (e : string) (u : User) : bool :=
  String.eqb (email u) (cast_email e).

(** [updateOne({ _id: id }, ...)]: the first document with that id. *)
Fixpoint updateOne (id : nat) (f : User -> User) (s : Store) : Store :=
  match s with
  | [] => []
  | u :: rest => if Nat.eqb (_id u) id then f u :: rest else u :: updateOne id f rest
  end.

(** Writing a loaded document back: the stored password is kept unless
    the path is modified. *)
Definition write (d : Document) (s : Store) : Store :=
  updateOne (_id (this d))
    (fun stored =>
       if isModified_password d then this d
       else with_password (this d) (password stored))
    s.

(** [doc.save({ validateBeforeSave })] on a loaded document: validation,
    the two pre-save hooks in the order they are registered, then the
    write.  [entropy] feeds [bcrypt.genSalt] and [now] is the clock read
    by the second hook. *)
Definition save {E : Externals}
    (validateBeforeSave : bool) (entropy : string) (now : Z)
    (d : Document) (s : Store) : Result (Store * Document) :=
  d0 <- (if validateBeforeSave then validate d else Ok d) ;;
  d1 <- hashPassword_hook entropy d0 ;;
  let d2 := passwordChangedAt_hook now d1 in
  Ok (write d2 s, d2).

(** The object handed to [User.create]; a property that is not listed
    is [None]. *)
Record NewUser := mkNewUser {
  new_name : string;
  new_email : string;
  new_password : string;
  new_role : option string
}.

(** [User.create(fields)]: schema setters and defaults, validation of
    every path, the pre-save hooks, then the insertion, which the unique
    index on [email] may refuse.  [newId] is the fresh object id. *)
Definition create {E : Externals}
    (newId : nat) (entropy : string) (now : Z) (fields : NewUser) (s : Store)
  : Result (Store * User) :=
  let n := trim (new_name fields) in
  let e := cast_email (new_email fields) in
  let r := match new_role fields with Some r => Some r | None => Some "user" end in
  let d := {| this := mkUser newId n e (Some (new_password fields)) r true
                             None None None None;
              isNew := true;
              isModified_password := true |} in
  let errors := (validate_name (Some n) ++ validate_email (Some e)
                 ++ validate_password (password (this d)) ++ validate_role r)%list in
  match errors with
  | _ :: _ => Throw (ValidationError errors)
  | [] =>
      d1 <- hashPassword_hook entropy d ;;
      let d2 := passwordChangedAt_hook now d1 in
      if existsb (fun u => String.eqb (email u) e) s
      then Throw (DuplicateKeyError "email")
      else Ok ((s ++ [this d2])%list, this d2)
  end.

End Collection.

(** ** middleware/authMiddleware.js *)
Module AuthMiddleware.
Import Http UserModel Collection.

(** The request as the middleware sees it: the [Authorization] header
    and the [user] property attached so far. *)
Record Request := mkRequest {
  authorization : option string;
  user : option User
}.

(** A middleware calls [next()] with the request as it now is, or
    [next(err)]. *)
Inductive Passed :=
| NextOk (req : Request)
| NextErr (e : Err).

(** The [token] variable after the header has been inspected. *)
Definition bearer_token (req : Request) : option string :=
  match authorization req with
  | Some header =>
      if JS.truthy header && JS.startsWith header "Bearer"
      then nth_error (JS.split " " header) 1
      else None
  | None => None
  end.

(** The inner [try] guards [jwt.verify]; the lookup that follows it
    is taken not to throw. *)
Definition protect {E : Externals}
    (cfg : Config.Config) (s : Store) (now : Z) (req : Request) : Passed :=
  match bearer_token req with
  | None => NextErr (ApiError 401 "Not authorized, no token provided")
  | Some token =>
      if negb (JS.truthy token)
      then NextErr (ApiError 401 "Not authorized, no token provided")
      else
        match jwt_verify token (Config.secret (Config.jwt cfg)) now with
        | Decoded decoded =>
            match findById (claim_id decoded) false s with
            | None => NextErr (ApiError 401 "User not found")
            | Some d =>
                if negb (isActive (this d))
                then NextErr (ApiError 401 "User account is deactivated")
                else NextOk {| authorization := authorization req;
                               user := Some (this d) |}
            end
        | VerifyThrew name =>
            if String.eqb name "JsonWebTokenError"
            then NextErr (ApiError 401 "Invalid token")
            else if String.eqb name "TokenExpiredError"
            then NextErr (ApiError 401 "Token expired")
            else NextErr (ApiError 401 "Not authorized")
        end
  end.

(** [roles.includes(role)]. *)
Definition includes (roles : list string) (r : string) : bool :=
  existsb (String.eqb r) roles.

Definition authorize (roles : list string) (req : Request) : Passed :=
  match user req with
  | None => NextErr (ApiError 403 "User role not defined")
  | Some u =>
      match role u with
      | None => NextErr (ApiError 403 "User role not defined")
      | Some r =>
          if negb (JS.truthy r)
          then NextErr (ApiError 403 "User role not defined")
          else if negb (includes roles r)
          then NextErr (ApiError 403
                 ("Role " ++ r ++ " is not authorized to access this resource"))
          else NextOk req
      end
  end.

End AuthMiddleware.

(** ** controllers/authController.js

    A handler takes the collection, the request data it destructures and
    the values it draws from the environment (object id, random bytes,
    clock readings), and returns the collection and how it ended.  Request
    bodies have passed the route's validation layer: a field that a
    handler does not test for presence is a string. *)
Module AuthController.
Import Http UserModel Collection.

(** [req.body] of the registration route; [body_role] stands for a
    [role] property a client may add. *)
Record RegisterBody := mkRegisterBody {
  body_name : string;
  body_email : string;
  body_password : string;
  body_role : option string
}.

Definition view (u : User) : UserView :=
  {| view_id := _id u; view_name := name u; view_email := email u; view_role := role u |}.

Definition register {E : Externals} (cfg : Config.Config)
    (newId : nat) (entropy : string) (now tsign : Z)
    (body : RegisterBody) (s : Store) : Store * Outcome :=
  let name := body_name body in
  let email := body_email body in
  let password := body_password body in
  match findOne (by_email email) false s with
  | Some _ => (s, Next (ApiError 409 "User with this email already exists"))
  | None =>
      match create newId entropy now
                   {| new_name := name; new_email := email;
                      new_password := password; new_role := None |} s with
      | Throw error => (s, Next error)
      | Ok (s', user) =>
          let token := generateAuthToken cfg tsign user in
          (s', Json 201 (AuthBody (view user) token))
      end
  end.

Definition login {E : Externals} (cfg : Config.Config)
    (now tsign : Z) (email password : option string) (s : Store)
  : Store * Outcome :=
  match email, password with
  | Some email, Some password =>
      if negb (JS.truthy email) || negb (JS.truthy password)
      then (s, Next (ApiError 400 "Please provide email and password"))
      else
        match findOne (by_email email) true s with
        | None => (s, Next (ApiError 401 "Invalid credentials"))
        | Some user =>
            match matchPassword (this user) password with
            | Throw error => (s, Next error)
            | Ok false => (s, Next (ApiError 401 "Invalid credentials"))
            | Ok true =>
                if negb (isActive (this user))
                then (s, Next (ApiError 401 "Your account has been deactivated"))
                else
                  let user := assign (fun u => with_lastLogin u (Some now)) user in
                  (* the password path is unmodified: no salt is drawn *)
                  match save false "" now user s with
                  | Throw error => (s, Next error)
                  | Ok (s', user) =>
                      let token := generateAuthToken cfg tsign (this user) in
                      (s', Json 200 (AuthBody (view (this user)) token))
                  end
            end
        end
  | _, _ => (s, Next (ApiError 400 "Please provide email and password"))
  end.

Definition forgotPassword {E : Externals}
    (resetBytes : string) (now : Z) (email : string) (s : Store)
  : Store * Outcome :=
  match findOne (by_email email) false s with
  | None => (s, Next (ApiError 404 "No user found with that email"))
  | Some user =>
      let (user, resetToken) := generatePasswordResetToken resetBytes now user in
      match save false "" now user s with
      | Throw error => (s, Next error)
      | Ok (s', _) =>
          (s', Json 200 (ResetTokenBody "Password reset token generated" resetToken))
      end
  end.

(** The filter [{ passwordResetToken: hashedToken,
    passwordResetExpires: { $gt: now } }]. *)
Definition by_reset_token (hashedToken : string) (now : Z) (u : User) : bool :=
  opt_string_eqb (passwordResetToken u) (Some hashedToken)
  && match passwordResetExpires u with
     | Some expires => now <? expires
     | None => false
     end.

(** [now] is the clock read in the query, [tsave] the one read by the
    pre-save hook and [tsign] the one read by [jwt.sign]. *)
Definition resetPassword {E : Externals} (cfg : Config.Config)
    (entropy : string) (now tsave tsign : Z)
    (resettoken : string) (password : string) (s : Store)
  : Store * Outcome :=
  let hashedToken := sha256_hex resettoken in
  match findOne (by_reset_token hashedToken now) false s with
  | None => (s, Next (ApiError 400 "Invalid or expired token"))
  | Some user =>
      let user := set_password user (Some password) in
      let user := assign (fun u => with_passwordResetToken u None) user in
      let user := assign (fun u => with_passwordResetExpires u None) user in
      match save true entropy tsave user s with
      | Throw error => (s, Next error)
      | Ok (s', user) =>
          let token := generateAuthToken cfg tsign (this user) in
          (s', Json 200 (TokenBody "Password reset successful" token))
      end
  end.

(** [reqUserId] is [req.user.id]; a document deleted since [protect]
    ran makes [user.matchPassword] a property access on [null]. *)
Definition updatePassword {E : Externals} (cfg : Config.Config)
    (entropy : string) (tsave tsign : Z)
    (reqUserId : nat) (currentPassword newPassword : string) (s : Store)
  : Store * Outcome :=
  match findById reqUserId true s with
  | None =>
      (s, Next (LibraryError "TypeError"
                  "Cannot read properties of null (reading 'matchPassword')"))
  | Some user =>
      match matchPassword (this user) currentPassword with
      | Throw error => (s, Next error)
      | Ok false => (s, Next (ApiError 401 "Current password is incorrect"))
      | Ok true =>
          let user := set_password user (Some newPassword) in
          match save true entropy tsave user s with
          | Throw error => (s, Next error)
          | Ok (s', user) =>
              let token := generateAuthToken cfg tsign (this user) in
              (s', Json 200 (TokenBody "Password updated successfully" token))
          end
      end
  end.

End AuthController.

(** ** An executable stand-in for the libraries

    Used to run the model on concrete requests.  Digests and tokens are
    transparent encodings: the stand-in honours the interfaces (a digest
    verifies its password and embeds its salt, a token verifies under the
    secret that signed it until it expires), not their secrecy. *)
Module Fixture.

Definition show (z : Z) : string := DecimalString.NilZero.string_of_int (Z.to_int z).

Definition read (s : string) : option Z :=
  option_map Z.of_int (DecimalString.NilZero.int_of_string s).

Definition lifetime (expiresIn : string) : Z :=
  if String.eqb expiresIn "24h" then 86400 else 3600.

Definition sign (id : nat) (role : option string) (secret expiresIn : string) (now : Z)
  : string :=
  String.concat "."
    [secret; show (Z.of_nat id); JS.or_default role "";
     show (issuedAt now); show (issuedAt now + lifetime expiresIn)].

Definition verify (token secret : string) (now : Z) : Verified :=
  match JS.split "." token with
  | [signer; id; role; iat; exp] =>
      match read id, read iat, read exp with
      | Some id, Some iat, Some exp =>
          if negb (String.eqb signer secret) then VerifyThrew "JsonWebTokenError"
          else if exp <=? issuedAt now then VerifyThrew "TokenExpiredError"
          else Decoded {| claim_id := Z.to_nat id;
                          claim_role := if JS.truthy role then Some role else None;
                          claim_iat := iat;
                          claim_exp := exp |}
      | _, _, _ => VerifyThrew "JsonWebTokenError"
      end
  | _ => VerifyThrew "JsonWebTokenError"
  end.

#[export] Instance externals : Externals :=
  {| sha256_hex := fun data => "sha256:" ++ data;
     bcrypt_genSalt := fun rounds entropy => "2a$12$" ++ entropy;
     bcrypt_hash := fun password salt => password ++ "$" ++ salt;
     bcrypt_compare := fun candidate digest =>
                         String.prefix (candidate ++ "$") digest;
     jwt_sign := sign;
     jwt_verify := verify;
     email_regex := fun s => existsb (Ascii.eqb "@") (list_ascii_of_string s) |}.

Definition cfg : Config.Config := Config.config [].

End Fixture.

(** ** A run of the handlers on the stand-in

    Ann registers (sending a [role] the handler does not read), logs in,
    changes her password, and the token from the login is presented
    again. *)
Module Scenario.
Import Http UserModel Collection AuthMiddleware AuthController Fixture.

Definition registered : Store * Outcome :=
  register cfg 1 "salt1" 1700000000000 1700000000000
           (mkRegisterBody "Ann" "a@b.com" "Secret@123" (Some "admin")) [].

Definition logged_in : Store * Outcome :=
  login cfg 1700000100000 1700000100000 (Some "a@b.com") (Some "Secret@123")
        (fst registered).

(** The token the login at 1700000100 s returns. *)
Definition login_token : string :=
  "development_secret_key_change_in_production.1.user.1700000100.1700086500".

Definition password_changed : Store * Outcome :=
  updatePassword cfg "salt2" 1700000200000 1700000200000 1
                 "Secret@123" "NewSecret@456" (fst logged_in).

Definition request_with_login_token : Request :=
  {| authorization := Some ("Bearer " ++ login_token); user := None |}.

Definition request_without_header : Request :=
  {| authorization := None; user := None |}.

Definition request_with_garbage : Request :=
  {| authorization := Some "Bearer garbage"; user := None |}.

(** Ann as stored after the password change. *)
Definition ann : User :=
  {| _id := 1; name := "Ann"; email := "a@b.com";
     password := Some "NewSecret@456$2a$12$salt2";
     role := Some "user"; isActive := true;
     lastLogin := Some 1700000100000;
     passwordResetToken := None; passwordResetExpires := None;
     passwordChangedAt := Some 1700000199000 |}.

(** Ann's document as [updatePassword] holds it before saving. *)
Definition ann_changing_password : Document :=
  {| this := with_password ann (Some "NewSecret@456");
     isNew := false; isModified_password := true |}.

(** A reset ticket is issued to Ann at 1700000400000 ms. *)
Definition ticket_issued : Store * Outcome :=
  forgotPassword "beef" 1700000400000 "a@b.com" (fst password_changed).

(** Ann as stored once the ticket has been issued. *)
Definition ann_with_ticket : User :=
  {| _id := 1; name := "Ann"; email := "a@b.com";
     password := Some "NewSecret@456$2a$12$salt2";
     role := Some "user"; isActive := true;
     lastLogin := Some 1700000100000;
     passwordResetToken := Some "sha256:beef";
     passwordResetExpires := Some 1700001000000;
     passwordChangedAt := Some 1700000199000 |}.

(** The ticket is redeemed within its window. *)
Definition ticket_redeemed : Store * Outcome :=
  resetPassword cfg "salt3" 1700000500000 1700000500000 1700000500000
                "beef" "Another@789" (fst ticket_issued).

End Scenario.

(** ** Vocabulary of the properties *)
Module Vocabulary.
Import Http UserModel Collection AuthMiddleware.

(** The request carries an identity whose role is a non-empty string
    of the required set. *)
Definition permitted (roles : list string) (req : Request) : Prop :=
  exists u r, user req = Some u /\ role u = Some r /\ r <> "" /\ In r roles.

(** The reasons for which [protect] turns a request down. *)
Inductive Rejection :=
| NoToken
| InvalidToken
| ExpiredToken
| VerificationError
| IdentityMissing
| Deactivated.

(** The message [protect] gives each of them. *)
Definition rejection_message (r : Rejection) : string :=
  match r with
  | NoToken => "Not authorized, no token provided"
  | InvalidToken => "Invalid token"
  | ExpiredToken => "Token expired"
  | VerificationError => "Not authorized"
  | IdentityMissing => "User not found"
  | Deactivated => "User account is deactivated"
  end.

(** The request presents the non-empty bearer token [token]. *)
Definition presents (req : Request) (token : string) : Prop :=
  bearer_token req = Some token /\ token <> "".

(** What each reason means for a request, given the signing secret, the
    collection and the instant. *)
Definition rejected_for {E : Externals} (cfg : Config.Config) (s : Store) (now : Z)
    (req : Request) (r : Rejection) : Prop :=
  let verified token := jwt_verify token (Config.secret (Config.jwt cfg)) now in
  match r with
  | NoToken => forall token, ~ presents req token
  | InvalidToken =>
      exists token, presents req token /\ verified token = VerifyThrew "JsonWebTokenError"
  | ExpiredToken =>
      exists token, presents req token /\ verified token = VerifyThrew "TokenExpiredError"
  | VerificationError =>
      exists token name, presents req token /\ verified token = VerifyThrew name /\
                         name <> "JsonWebTokenError" /\ name <> "TokenExpiredError"
  | IdentityMissing =>
      exists token claims, presents req token /\ verified token = Decoded claims /\
                           findById (claim_id claims) false s = None
  | Deactivated =>
      exists token claims d, presents req token /\ verified token = Decoded claims /\
                             findById (claim_id claims) false s = Some d /\
                             isActive (this d) = false
  end.

(** Object ids identify stored documents. *)
Definition distinct_ids (s : Store) : Prop := NoDup (map _id s).

(** At most one stored identity holds the reset digest [h]. *)
Definition digest_held_once (h : string) (s : Store) : Prop :=
  forall u1 u2, In u1 s -> In u2 s ->
                passwordResetToken u1 = Some h -> passwordResetToken u2 = Some h ->
                u1 = u2.

(** No stored identity holds the reset digest [h]. *)
Definition digest_fresh (h : string) (s : Store) : Prop :=
  forall u, In u s -> passwordResetToken u <> Some h.

(** The identity [u] once a ticket with digest [h] has been issued to
    it at [now]. *)
Definition issued (u : User) (h : string) (now : Z) : User :=
  with_passwordResetExpires (with_passwordResetToken u (Some h))
                            (Some (now + 10 * 60 * 1000)).

(** The identity [u] once its ticket has been redeemed for the new
    password [pw], hashed with a salt from [entropy], the save hook
    reading the clock at [tsave]. *)
Definition redeemed {E : Externals} (u : User) (entropy pw : string) (tsave : Z) : User :=
  {| _id := _id u; name := name u; email := email u;
     password := Some (bcrypt_hash pw (bcrypt_genSalt 12 entropy));
     role := role u; isActive := isActive u; lastLogin := lastLogin u;
     passwordResetToken := None; passwordResetExpires := None;
     passwordChangedAt := Some (tsave - 1000) |}.

End Vocabulary.

(** ** utils/cryptoUtils.js *)
Module CryptoUtils.
Import Http.

(** A value a caller may hand to [sanitizeInput]. *)
Inductive Value :=
| VUndefined
| VNull
| VBoolean (b : bool)
| VNumber (z : Z)
| VString (s : string).

(** [s.replace(/c/g, r)] for a pattern of one character. *)
Fixpoint replaceAll (c : ascii) (r : string) (s : string) : string :=
  match s with
  | EmptyString => EmptyString
  | String x rest =>
      if Ascii.eqb x c then r ++ replaceAll c r rest
      else String x (replaceAll c r rest)
  end.

(** The chain of five replacements, in the order of the source. *)
Definition sanitizeString (input : string) : string :=
  replaceAll "/" "&#x2F;"
    (replaceAll "'" "&#x27;"
       (replaceAll "034" "&quot;"
          (replaceAll ">" "&gt;"
             (replaceAll "<" "&lt;" input)))).

Definition sanitizeInput (input : Value) : Value :=
  match input with
  | VString s => VString (sanitizeString s)
  | other => other
  end.

(** [buffer.toString('hex')]: two lower-case digits per byte. *)
Definition hex_digit (n : N) : ascii :=
  match String.get (N.to_nat n) "0123456789abcdef" with
  | Some c => c
  | None => "0"%char
  end.

Definition hex_of_byte (b : Byte.byte) : string :=
  let n := Byte.to_N b in
  String (hex_digit (N.div n 16)) (String (hex_digit (N.modulo n 16)) "").

Fixpoint toString_hex (bytes : list Byte.byte) : string :=
  match bytes with
  | [] => ""
  | b :: rest => hex_of_byte b ++ toString_hex rest
  end.

(** [randomBytes] is what [crypto.randomBytes(length)] did: the bytes it
    returned, or the error it threw; [mathRandom] is
    [Math.random().toString(36)], read only in the fallback. *)
Definition generateRandomString
    (length : nat) (randomBytes : Result (list Byte.byte)) (mathRandom : string) : string :=
  match randomBytes with
  | Ok bytes => toString_hex bytes
  | Throw _ => String.substring 2 length mathRandom
  end.

(** [hashPassword(password, saltRounds = 12)]: any failure of bcrypt is
    rethrown as 'Password hashing failed'; in the model the two bcrypt
    calls return. *)
Definition hashPassword {E : Externals} (entropy : string) (password : string)
    (saltRounds : option nat) : Result string :=
  let rounds := match saltRounds with Some r => r | None => 12%nat end in
  let salt := bcrypt_genSalt rounds entropy in
  Ok (bcrypt_hash password salt).

Definition comparePassword {E : Externals} (password hash : string) : Result bool :=
  Ok (bcrypt_compare password hash).

(** [hashData(data)]. *)
Definition hashData {E : Externals} (data : string) : Result string :=
  Ok (sha256_hex data).

Record ResetToken := mkResetToken {
  resetToken : string;
  hashedToken : string;
  resetExpires : Z
}.

(** [bytes] is [crypto.randomBytes(32)], [now] is [Date.now()]. *)
Definition generateResetToken {E : Externals} (bytes : list Byte.byte) (now : Z)
  : ResetToken :=
  let resetToken := toString_hex bytes in
  let hashedToken := sha256_hex resetToken in
  let resetExpires := now + 10 * 60 * 1000 in
  {| resetToken := resetToken; hashedToken := hashedToken; resetExpires := resetExpires |}.

End CryptoUtils.

(** ** utils/tokenUtils.js *)
Module TokenUtils.

(** [req.headers.authorization] is the only part of the request that is
    read; [null] and an undefined second piece are both [None]. *)
Definition extractTokenFromHeader (authorization : option string) : option string :=
  match authorization with
  | Some header =>
      if JS.truthy header && JS.startsWith header "Bearer"
      then nth_error (JS.split " " header) 1
      else None
  | None => None
  end.

End TokenUtils.

(** ** Vocabulary of the properties of the utilities *)
Module UtilityVocabulary.

(** The characters of a string. *)
Definition chars (s : string) : list ascii := list_ascii_of_string s.

(** The five characters [sanitizeInput] replaces. *)
Definition special (c : ascii) : bool :=
  Ascii.eqb c "<" || Ascii.eqb c ">" || Ascii.eqb c "034"
  || Ascii.eqb c "'" || Ascii.eqb c "/".

(** The entity that stands for a character, or the character itself. *)
Definition escape (c : ascii) : string :=
  if Ascii.eqb c "<" then "&lt;"
  else if Ascii.eqb c ">" then "&gt;"
  else if Ascii.eqb c "034" then "&quot;"
  else if Ascii.eqb c "'" then "&#x27;"
  else if Ascii.eqb c "/" then "&#x2F;"
  else String c "".

(** One pass over the input, character by character. *)
Fixpoint escapeAll (s : string) : string :=
  match s with
  | EmptyString => EmptyString
  | String c rest => escape c ++ escapeAll rest
  end.

(** A lower-case hexadecimal digit. *)
Definition is_hex (c : ascii) : bool :=
  let n := nat_of_ascii c in
  (Nat.leb 48 n && Nat.leb n 57) || (Nat.leb 97 n && Nat.leb n 102).

End UtilityVocabulary.

(** ** controllers/userController.js

    The handlers behind the user routes.  Listing the collection
    ([getUsers]) sorts on a creation date that the model of a user does
    not carry; it is left out. *)
Module UserController.
Import Http UserModel Collection.

Definition with_name (u : User) (n : string) : User :=
  mkUser (_id u) n (email u) (password u) (role u) (isActive u) (lastLogin u)
         (passwordResetToken u) (passwordResetExpires u) (passwordChangedAt u).

Definition with_email (u : User) (e : string) : User :=
  mkUser (_id u) (name u) e (password u) (role u) (isActive u) (lastLogin u)
         (passwordResetToken u) (passwordResetExpires u) (passwordChangedAt u).

Definition with_role (u : User) (r : option string) : User :=
  mkUser (_id u) (name u) (email u) (password u) r (isActive u) (lastLogin u)
         (passwordResetToken u) (passwordResetExpires u) (passwordChangedAt u).

Definition with_isActive (u : User) (b : bool) : User :=
  mkUser (_id u) (name u) (email u) (password u) (role u) b (lastLogin u)
         (passwordResetToken u) (passwordResetExpires u) (passwordChangedAt u).

(** A document under edition by these handlers: besides the password,
    the paths [name], [email] and [role] carry validators, so their
    modification marks are kept. *)
Record Edit := mkEdit {
  doc : Document;
  isModified_name : bool;
  isModified_email : bool;
  isModified_role : bool
}.

Definition edit (d : Document) : Edit :=
  {| doc := d; isModified_name := false; isModified_email := false;
     isModified_role := false |}.

(** [user.name = v]: the setter trims. *)
Definition set_name (e : Edit) (v : string) : Edit :=
  let v' := trim v in
  {| doc := assign (fun u => with_name u v') (doc e);
     isModified_name := isModified_name e || negb (String.eqb (name (this (doc e))) v');
     isModified_email := isModified_email e;
     isModified_role := isModified_role e |}.

(** [user.email = v]: the setters lower-case and trim. *)
Definition set_email (e : Edit) (v : string) : Edit :=
  let v' := cast_email v in
  {| doc := assign (fun u => with_email u v') (doc e);
     isModified_name := isModified_name e;
     isModified_email := isModified_email e || negb (String.eqb (email (this (doc e))) v');
     isModified_role := isModified_role e |}.

(** [user.role = v]. *)
Definition set_role (e : Edit) (v : string) : Edit :=
  {| doc := assign (fun u => with_role u (Some v)) (doc e);
     isModified_name := isModified_name e;
     isModified_email := isModified_email e;
     isModified_role :=
       isModified_role e || negb (opt_string_eqb (role (this (doc e))) (Some v)) |}.

(** [user.isActive = v]: the path has no validator. *)
Definition set_isActive (e : Edit) (v : bool) : Edit :=
  {| doc := assign (fun u => with_isActive u v) (doc e);
     isModified_name := isModified_name e;
     isModified_email := isModified_email e;
     isModified_role := isModified_role e |}.

(** The validators of the modified paths, in the order of the schema. *)
Definition validate_modified {E : Externals} (e : Edit) : list string :=
  let u := this (doc e) in
  ((if isModified_name e then validate_name (Some (name u)) else [])
   ++ (if isModified_email e then validate_email (Some (email u)) else [])
   ++ (if isModified_password (doc e) then validate_password (password u) else [])
   ++ (if isModified_role e then validate_role (role u) else []))%list.

(** The unique index on [email]: another stored document holds the
    value. *)
Definition email_taken (u : User) (s : Store) : bool :=
  existsb (fun x => String.eqb (email x) (email u) && negb (Nat.eqb (_id x) (_id u))) s.

(** [user.save()] on an edited document: validation of the modified
    paths, the two pre-save hooks, then the write, which the unique index
    refuses when a modified [email] is taken. *)
Definition save_edit {E : Externals} (entropy : string) (now : Z) (e : Edit) (s : Store)
  : Result (Store * Document) :=
  match validate_modified e with
  | _ :: _ as errors => Throw (ValidationError errors)
  | [] =>
      d1 <- hashPassword_hook entropy (doc e) ;;
      let d2 := passwordChangedAt_hook now d1 in
      if isModified_email e && email_taken (this d2) s
      then Throw (DuplicateKeyError "email")
      else Ok (write d2 s, d2)
  end.

(** The [data] of the success bodies of these handlers. *)
Inductive UserBody :=
| UserData (user : UserView)
| UserDataActive (user : UserView) (isActive : bool)
| UserDocument (user : User)
| NoData.

Inductive UserOutcome :=
| UNext (e : Err)
| UJson (status : Z) (body : UserBody).

Definition view (u : User) : UserView :=
  {| view_id := _id u; view_name := name u; view_email := email u; view_role := role u |}.

Definition getUserById (id : nat) (s : Store) : UserOutcome :=
  match findById id false s with
  | None => UNext (ApiError 404 "User not found")
  | Some user => UJson 200 (UserDocument (this user))
  end.

(** [req.body] of the creation route. *)
Record CreateBody := mkCreateBody {
  create_name : string;
  create_email : string;
  create_password : string;
  create_role : option string
}.

Definition createUser {E : Externals}
    (newId : nat) (entropy : string) (now : Z) (body : CreateBody) (s : Store)
  : Store * UserOutcome :=
  let name := create_name body in
  let email := create_email body in
  let password := create_password body in
  let role := create_role body in
  match findOne (by_email email) false s with
  | Some _ => (s, UNext (ApiError 409 "User with this email already exists"))
  | None =>
      match create newId entropy now
                   {| new_name := name; new_email := email;
                      new_password := password; new_role := role |} s with
      | Throw error => (s, UNext error)
      | Ok (s', user) => (s', UJson 201 (UserData (view user)))
      end
  end.

(** [req.body] of the update route: a property that is absent is
    [None]. *)
Record UpdateBody := mkUpdateBody {
  update_name : option string;
  update_email : option string;
  update_role : option string;
  update_isActive : option bool
}.

(** [if (v) user.path = v]. *)
Definition set_if_truthy (set : Edit -> string -> Edit) (v : option string) (e : Edit)
  : Edit :=
  match v with
  | Some x => if JS.truthy x then set e x else e
  | None => e
  end.

(** The password path is not touched: the hooks draw no salt; [now] is
    the clock they would read. *)
Definition updateUser {E : Externals}
    (now : Z) (id : nat) (body : UpdateBody) (s : Store) : Store * UserOutcome :=
  match findById id false s with
  | None => (s, UNext (ApiError 404 "User not found"))
  | Some user =>
      let user := edit user in
      let user := set_if_truthy set_name (update_name body) user in
      let user := set_if_truthy set_email (update_email body) user in
      let user := set_if_truthy set_role (update_role body) user in
      let user := match update_isActive body with
                  | Some isActive => set_isActive user isActive
                  | None => user
                  end in
      match save_edit "" now user s with
      | Throw error => (s, UNext error)
      | Ok (s', user) =>
          (s', UJson 200 (UserDataActive (view (this user)) (isActive (this user))))
      end
  end.

(** [db.collection.deleteOne({ _id: id })]. *)
Fixpoint deleteOne (id : nat) (s : Store) : Store :=
  match s with
  | [] => []
  | u :: rest => if Nat.eqb (_id u) id then rest else u :: deleteOne id rest
  end.

(** [reqUser] is [req.user], attached by [protect]. *)
Definition deleteUser (reqUser : User) (id : nat) (s : Store) : Store * UserOutcome :=
  match findById id false s with
  | None => (s, UNext (ApiError 404 "User not found"))
  | Some user =>
      if Nat.eqb (_id (this user)) (_id reqUser)
      then (s, UNext (ApiError 400 "You cannot delete your own account"))
      else (deleteOne (_id (this user)) s, UJson 200 NoData)
  end.

(** [req.body] of the profile route. *)
Record ProfileBody := mkProfileBody {
  profile_name : option string;
  profile_email : option string
}.

(** [reqUserId] is [req.user.id].  When the identity has been deleted
    since [protect] ran, [user] is [null] and the first access to one of
    its properties throws. *)
Definition updateProfile {E : Externals}
    (now : Z) (reqUserId : nat) (body : ProfileBody) (s : Store) : Store * UserOutcome :=
  match findById reqUserId false s with
  | None =>
      let message :=
        if JS.truthy_opt (profile_name body)
        then "Cannot set properties of null (setting 'name')"
        else if JS.truthy_opt (profile_email body)
        then "Cannot read properties of null (reading 'email')"
        else "Cannot read properties of null (reading 'save')" in
      (s, UNext (LibraryError "TypeError" message))
  | Some user =>
      let user := edit user in
      let user := set_if_truthy set_name (profile_name body) user in
      let checked :=
        match profile_email body with
        | Some email =>
            if JS.truthy email && negb (String.eqb email (UserModel.email (this (doc user))))
            then
              match findOne (by_email email) false s with
              | Some _ => Throw (ApiError 409 "Email already in use")
              | None => Ok (set_email user email)
              end
            else Ok user
        | None => Ok user
        end in
      match checked with
      | Throw error => (s, UNext error)
      | Ok user =>
          match save_edit "" now user s with
          | Throw error => (s, UNext error)
          | Ok (s', user) => (s', UJson 200 (UserData (view (this user))))
          end
      end
  end.

End UserController.

(** ** routes/authRoutes.js, routes/userRoutes.js and their mounting in
    server.js

    A request path is the list of its segments.  A router tries its
    routes in the order of their declaration and runs the stack of the
    first whose method and path match; a handler of the stack ends the
    request or passes it to the next handler. *)
Module Routes.
Import Http UserModel Collection AuthMiddleware.

Inductive Method := GET | POST | PUT | DELETE.

(** A segment of a route path: a literal, or a named parameter. *)
Inductive Segment :=
| Lit (text : string)
| Param (name : string).

(** The validation rule sets of validators/authValidator.js and
    validators/userValidator.js, by name. *)
Module Validator.
Inductive t :=
| registerValidation
| loginValidation
| forgotPasswordValidation
| resetPasswordValidation
| updatePasswordValidation
| createUserValidation
| updateUserValidation
| updateProfileValidation
| getUserByIdValidation.
End Validator.

(** The controllers, by name. *)
Module Controller.
Inductive t :=
| register
| login
| getMe
| forgotPassword
| resetPassword
| updatePassword
| logout
| getUsers
| getUserById
| createUser
| updateUser
| deleteUser
| updateProfile.
End Controller.

Inductive Handler :=
| Protect
| Authorize (roles : list string)
| Validate (rules : Validator.t)
| Handle (controller : Controller.t).

Record Route := mkRoute {
  method : Method;
  path : list Segment;
  stack : list Handler
}.

Definition authRoutes : list Route :=
  [ mkRoute POST [Lit "register"]
            [Validate Validator.registerValidation; Handle Controller.register];
    mkRoute POST [Lit "login"]
            [Validate Validator.loginValidation; Handle Controller.login];
    mkRoute GET [Lit "me"]
            [Protect; Handle Controller.getMe];
    mkRoute POST [Lit "forgotpassword"]
            [Validate Validator.forgotPasswordValidation; Handle Controller.forgotPassword];
    mkRoute PUT [Lit "resetpassword"; Param "resettoken"]
            [Validate Validator.resetPasswordValidation; Handle Controller.resetPassword];
    mkRoute PUT [Lit "updatepassword"]
            [Protect; Validate Validator.updatePasswordValidation;
             Handle Controller.updatePassword];
    mkRoute GET [Lit "logout"]
            [Protect; Handle Controller.logout] ].

Definition userRoutes : list Route :=
  [ mkRoute GET []
            [Protect; Authorize ["admin"]; Handle Controller.getUsers];
    mkRoute GET [Param "id"]
            [Protect; Authorize ["admin"]; Validate Validator.getUserByIdValidation;
             Handle Controller.getUserById];
    mkRoute POST []
            [Protect; Authorize ["admin"]; Validate Validator.createUserValidation;
             Handle Controller.createUser];
    mkRoute PUT [Param "id"]
            [Protect; Authorize ["admin"]; Validate Validator.updateUserValidation;
             Handle Controller.updateUser];
    mkRoute DELETE [Param "id"]
            [Protect; Authorize ["admin"]; Validate Validator.getUserByIdValidation;
             Handle Controller.deleteUser];
    mkRoute PUT [Lit "profile"]
            [Protect; Validate Validator.updateProfileValidation;
             Handle Controller.updateProfile] ].

Definition method_eqb (a b : Method) : bool :=
  match a, b with
  | GET, GET | POST, POST | PUT, PUT | DELETE, DELETE => true
  | _, _ => false
  end.

(** Literals are compared without regard to case (routing is not case
    sensitive); a parameter takes any segment. *)
Definition segment_matches (p : Segment) (segment : string) : bool :=
  match p with
  | Lit text => String.eqb (lowercase text) (lowercase segment)
  | Param _ => true
  end.

Fixpoint path_matches (pattern : list Segment) (segments : list string) : bool :=
  match pattern, segments with
  | [], [] => true
  | p :: pattern', segment :: segments' =>
      segment_matches p segment && path_matches pattern' segments'
  | _, _ => false
  end.

Definition route_matches (m : Method) (segments : list string) (r : Route) : bool :=
  method_eqb (method r) m && path_matches (path r) segments.

(** Where a request ends up: the stack of a route, the health check of
    server.js, or its 404 handler. *)
Inductive Endpoint :=
| Stack (handlers : list Handler)
| Health
| NotFound.

Definition mounted (a b : string) (segments : list string) : option (list string) :=
  match segments with
  | x :: y :: rest =>
      if String.eqb (lowercase x) a && String.eqb (lowercase y) b then Some rest else None
  | _ => None
  end.

(** [app.use('/api/auth', authRoutes)], [app.use('/api/users',
    userRoutes)], [app.get('/health', ...)], then the 404 handler. *)
Definition dispatch (m : Method) (segments : list string) : Endpoint :=
  let routed (routes : list Route) (rest : list string) :=
    match find (route_matches m rest) routes with
    | Some r => Some (Stack (stack r))
    | None => None
    end in
  let auth := match mounted "api" "auth" segments with
              | Some rest => routed authRoutes rest
              | None => None
              end in
  let users := match mounted "api" "users" segments with
               | Some rest => routed userRoutes rest
               | None => None
               end in
  match auth, users with
  | Some endpoint, _ => endpoint
  | None, Some endpoint => endpoint
  | None, None =>
      if method_eqb m GET && path_matches [Lit "health"] segments then Health else NotFound
  end.

(** How the stack of a route ends for a request: [protect] or
    [authorize] forwarded an error, a validation middleware ended the
    request, or a controller was called with the request as the
    middleware left it. *)
Inductive Reach :=
| Rejected (e : Err)
| Invalid (rules : Validator.t)
| Reached (controller : Controller.t) (req : Request)
| Exhausted.

(** [accepts rules req] tells whether the validation middleware for
    [rules] passes the request on; the rule sets are not part of the
    sources. *)
Fixpoint run_stack {E : Externals} (accepts : Validator.t -> Request -> bool)
    (cfg : Config.Config) (s : Store) (now : Z)
    (handlers : list Handler) (req : Request) : Reach :=
  match handlers with
  | [] => Exhausted
  | Protect :: rest =>
      match protect cfg s now req with
      | NextOk req' => run_stack accepts cfg s now rest req'
      | NextErr e => Rejected e
      end
  | Authorize roles :: rest =>
      match authorize roles req with
      | NextOk req' => run_stack accepts cfg s now rest req'
      | NextErr e => Rejected e
      end
  | Validate rules :: rest =>
      if accepts rules req then run_stack accepts cfg s now rest req else Invalid rules
  | Handle controller :: _ => Reached controller req
  end.

(** The routes of the user router other than the last one. *)
Definition selectable_user_routes : list Route := firstn 5 userRoutes.

(** The routes that are declared without [protect]. *)
Definition public (c : Controller.t) : bool :=
  match c with
  | Controller.register | Controller.login
  | Controller.forgotPassword | Controller.resetPassword => true
  | _ => false
  end.

(** The controllers of the administration routes. *)
Definition administrative (c : Controller.t) : bool :=
  match c with
  | Controller.getUsers | Controller.getUserById | Controller.createUser
  | Controller.updateUser | Controller.deleteUser => true
  | _ => false
  end.

End Routes.

(** ** Vocabulary of the properties of the handlers *)
Module HandlerVocabulary.
Import Http UserModel Collection.

(** The identity [u] once its password has been changed to [pw], hashed
    with a salt from [entropy], the save hook reading the clock at
    [tsave]: the digest and the stamp change, nothing else. *)
Definition changed {E : Externals} (u : User) (entropy pw : string) (tsave : Z) : User :=
  with_passwordChangedAt
    (with_password u (Some (bcrypt_hash pw (bcrypt_genSalt 12 entropy))))
    (Some (tsave - 1000)).

End HandlerVocabulary.

(** ** Vocabulary of the properties of the user handlers *)
Module UserVocabulary.
Import Http UserModel Collection.

(** [u'] has the id, the credential, the login stamp and the reset
    ticket of [u]. *)
Definition same_credentials (u u' : User) : Prop :=
  _id u' = _id u /\
  password u' = password u /\
  lastLogin u' = lastLogin u /\
  passwordResetToken u' = passwordResetToken u /\
  passwordResetExpires u' = passwordResetExpires u /\
  passwordChangedAt u' = passwordChangedAt u.

(** [u'] has the role and the activity of [u]. *)
Definition same_privileges (u u' : User) : Prop :=
  role u' = role u /\ isActive u' = isActive u.

(** The value a path takes when the body carries [v] for it: a value
    that is absent or empty leaves the path as it is. *)
Definition updated (cast : string -> string) (v : option string) (current : string)
  : string :=
  match v with
  | Some x => if JS.truthy x then cast x else current
  | None => current
  end.

(** What the user handlers keep while they edit a document loaded from
    [u] without its password. *)
Definition editing (u : User) (e : UserController.Edit) : Prop :=
  isModified_password (UserController.doc e) = false /\
  isNew (UserController.doc e) = false /\
  same_credentials (with_password u None) (this (UserController.doc e)).

(** The role a body asks for, or the current one. *)
Definition updated_role (v : option string) (current : option string) : option string :=
  match v with
  | Some x => if JS.truthy x then Some x else current
  | None => current
  end.

End UserVocabulary.

(** ** controllers/userController.js: the listing *)
Module UserListing.
Import Http UserModel Collection.

(** [parseInt(value, 10) || fallback]: [None] is NaN, which is what an
    absent or non-numeric query parameter parses to. *)
Definition parsed_or (value : option Z) (fallback : Z) : Z :=
  match value with
  | Some 0 => fallback
  | Some n => n
  | None => fallback
  end.

(** [Math.ceil(a / b)], on integers below 2^53 with [b] not zero. *)
Definition ceil_div (a b : Z) : Z := - ((- a) / b).

(** [User.find().select('-password').sort({ createdAt: -1 }).skip(skip)
    .limit(limit)] on the stored documents, newest first.  What the
    driver and the server make of a negative [skip] or [limit] is not
    part of the sources: it is left to [otherwise]. *)
Definition find_page (otherwise : Z -> Z -> Result (list User))
    (newestFirst : list User) (skip limit : Z) : Result (list User) :=
  if (0 <=? skip) && (0 <? limit)
  then Ok (firstn (Z.to_nat limit)
                  (skipn (Z.to_nat skip)
                         (map (fun u => with_password u None) newestFirst)))
  else otherwise skip limit.

Record Pagination := mkPagination {
  total : Z;
  pages : Z;
  currentPage : Z;
  limit : Z
}.

Inductive ListOutcome :=
| LNext (e : Err)
| LJson (status : Z) (count : nat) (pagination : Pagination) (users : list User).

(** [queryPage] and [queryLimit] are [parseInt(req.query.page, 10)] and
    [parseInt(req.query.limit, 10)]. *)
Definition getUsers (otherwise : Z -> Z -> Result (list User))
    (newestFirst : list User) (queryPage queryLimit : option Z) : ListOutcome :=
  let page := parsed_or queryPage 1 in
  let limit := parsed_or queryLimit 10 in
  let startIndex := (page - 1) * limit in
  let total := Z.of_nat (List.length newestFirst) in
  match find_page otherwise newestFirst startIndex limit with
  | Throw error => LNext error
  | Ok users =>
      let pagination :=
        {| total := total; pages := ceil_div total limit;
           currentPage := page; limit := limit |} in
      LJson 200 (List.length users) pagination users
  end.

End UserListing.

(** ** Vocabulary of the properties of the listing *)
Module ListingVocabulary.
Import Http UserModel UserListing.


(** The number of pages a listing response announces. *)
Definition announced (outcome : ListOutcome) : Z :=
  match outcome with
  | LJson _ _ pagination _ => pages pagination
  | LNext _ => 0
  end.

(** A driver that refuses what is left to it. *)
Definition refusing (skip limit : Z) : Result (list User) :=
  Throw (LibraryError "MongoServerError" "BadValue").

End ListingVocabulary.

(** ** A second run: an administrator beside Ann

    The collection holds Ann, as stored after her password change, and
    an administrator; both present the tokens of a login at
    1700000100 s. *)
Module Staff.
Import Http UserModel Collection AuthMiddleware Fixture.

Definition root : User :=
  {| _id := 2; name := "Root"; email := "root@b.com";
     password := Some "Admin@12345$2a$12$salt0";
     role := Some "admin"; isActive := true;
     lastLogin := Some 1700000100000;
     passwordResetToken := None; passwordResetExpires := None;
     passwordChangedAt := None |}.

Definition users : Store := [Scenario.ann; root].

Definition root_token : string :=
  "development_secret_key_change_in_production.2.admin.1700000100.1700086500".

Definition request_with_root_token : Request :=
  {| authorization := Some ("Bearer " ++ root_token); user := None |}.

(** What the two tokens decode to. *)
Definition ann_claims : JwtClaims :=
  {| claim_id := 1; claim_role := Some "user";
     claim_iat := 1700000100; claim_exp := 1700086500 |}.

Definition root_claims : JwtClaims :=
  {| claim_id := 2; claim_role := Some "admin";
     claim_iat := 1700000100; claim_exp := 1700086500 |}.

(** The requests as [protect] passes them on. *)
Definition ann_authenticated : Request :=
  {| authorization := Some ("Bearer " ++ Scenario.login_token);
     user := Some (with_password Scenario.ann None) |}.

Definition root_authenticated : Request :=
  {| authorization := Some ("Bearer " ++ root_token);
     user := Some (with_password root None) |}.

(** Validation middleware that lets every request through. *)
Definition lenient (rules : Routes.Validator.t) (req : Request) : bool := true.

(** Thirty-two bytes as [crypto.randomBytes(32)] may return them. *)
Definition drawn : list Byte.byte := List.repeat Byte.xab 32.

(** Ben registers in the empty collection. *)
Definition ben_body : AuthController.RegisterBody :=
  AuthController.mkRegisterBody "Ben" "ben@b.com" "Secret@123" None.

Definition ben : User :=
  {| _id := 7; name := "Ben"; email := "ben@b.com";
     password := Some "Secret@123$2a$12$salt7";
     role := Some "user"; isActive := true;
     lastLogin := None;
     passwordResetToken := None; passwordResetExpires := None;
     passwordChangedAt := None |}.

Definition ben_token : string :=
  "development_secret_key_change_in_production.7.user.1700000000.1700086400".

Definition ben_claims : JwtClaims :=
  {| claim_id := 7; claim_role := Some "user";
     claim_iat := 1700000000; claim_exp := 1700086400 |}.

Definition ben_view : UserView :=
  {| view_id := 7; view_name := "Ben"; view_email := "ben@b.com";
     view_role := Some "user" |}.

(** The administrator deactivates Ann. *)
Definition deactivation : UserController.UpdateBody :=
  UserController.mkUpdateBody None None None (Some false).

Definition ann_deactivated : User :=
  {| _id := 1; name := "Ann"; email := "a@b.com";
     password := Some "NewSecret@456$2a$12$salt2";
     role := Some "user"; isActive := false;
     lastLogin := Some 1700000100000;
     passwordResetToken := None; passwordResetExpires := None;
     passwordChangedAt := Some 1700000199000 |}.

(** The collection once Ann has been deactivated, and what the handler
    answers. *)
Definition users_after_deactivation : Store := [ann_deactivated; root].

Definition deactivation_answer : UserController.UserBody :=
  UserController.UserDataActive
    {| view_id := 1; view_name := "Ann"; view_email := "a@b.com";
       view_role := Some "user" |} false.

(** Ann renames herself. *)
Definition renaming : UserController.ProfileBody :=
  UserController.mkProfileBody (Some " Ann B ") None.

(** The administrator creates a second administrator. *)
Definition eve_body : UserController.CreateBody :=
  UserController.mkCreateBody "Eve" "Eve@B.com" "Secret@123" (Some "admin").

Definition eve : User :=
  {| _id := 3; name := "Eve"; email := "eve@b.com";
     password := Some "Secret@123$2a$12$salt5";
     role := Some "admin"; isActive := true;
     lastLogin := None;
     passwordResetToken := None; passwordResetExpires := None;
     passwordChangedAt := None |}.

(** The stored documents, newest first. *)
Definition newest_first : list User := [root; Scenario.ann].

End Staff.

(* ================================================================== *)
(** * Part II: properties                                              *)
(* ================================================================== *)

(** Closed statements about concrete runs are settled by evaluating the
    model, one conjunct at a time. *)
Ltac by_evaluation :=
  cbv zeta;
  repeat match goal with |- _ /\ _ => split end;
  vm_compute; solve [reflexivity | discriminate].

(** ** Configuration validation *)
Section ConfigFacts.
Import Config.

Lemma truthy_opt_false (v : option string) :
  JS.truthy_opt v = false <-> v = None \/ v = Some "".
Proof.
  destruct v as [s|]; cbn.
  - unfold JS.truthy. destruct (String.eqb_spec s "") as [->|Hne]; cbn.
    + split; auto.
    + split; [discriminate|]. intros [H|H]; [discriminate|].
      injection H as ->. now elim Hne.
  - split; auto.
Qed.

Lemma nodeEnv_production (env : ProcessEnv) :
  nodeEnv (config env) = "production" <-> getenv env "NODE_ENV" = Some "production".
Proof.
  cbn. destruct (getenv env "NODE_ENV") as [s|]; cbn.
  - unfold JS.truthy. destruct (String.eqb_spec s "") as [->|Hne]; cbn.
    + split; discriminate.
    + split; congruence.
  - split; discriminate.
Qed.

(** C3, as the code has it: validation throws exactly when the process
    runs with [nodeEnv] 'production' and [JWT_SECRET] is unset or empty;
    a secret equal to the development default is a set, non-empty value
    and never makes validation throw. *)
Theorem validateConfig_throws_iff_secret_missing_in_production (env : ProcessEnv) :
  ((exists message, validateConfig env = Throws message) <->
   nodeEnv (config env) = "production" /\
   (getenv env "JWT_SECRET" = None \/ getenv env "JWT_SECRET" = Some ""))
  /\ (getenv env "JWT_SECRET" = Some development_secret ->
      exists warnings, validateConfig env = Returns warnings).
Proof.
  unfold validateConfig, requiredEnvVars, check_required.
  split.
  - rewrite <- truthy_opt_false.
    destruct (JS.truthy_opt (getenv env "JWT_SECRET")); cbn [negb andb].
    + split.
      * intros [m Hm].
        destruct (_ && _) in Hm; discriminate.
      * intros [_ H]; discriminate.
    + destruct (String.eqb_spec (nodeEnv (config env)) "production") as [Hp|Hp].
      * split; eauto.
      * split.
        -- intros [m Hm]. destruct (_ && _) in Hm; discriminate.
        -- intros [H _]; contradiction.
  - intros ->. cbn [JS.truthy_opt]. 
    replace (JS.truthy development_secret) with true by reflexivity.
    cbn [negb andb]. destruct (_ && _); eauto.
Qed.

(** C3, counterexample: under production with [JWT_SECRET] set to the
    development default, validation returns without throwing (and
    without a warning), and the default becomes the signing secret. *)
Lemma validateConfig_accepts_development_secret_in_production :
  let env := [("NODE_ENV", "production");
              ("JWT_SECRET", "development_secret_key_change_in_production")] in
  nodeEnv (config env) = "production" /\
  secret (jwt (config env)) = development_secret /\
  validateConfig env = Returns [].
Proof. by_evaluation. Qed.

End ConfigFacts.

(** ** The authorization gate *)
Section AuthorizeFacts.
Import Http UserModel AuthMiddleware Vocabulary.

Lemma includes_In (roles : list string) (r : string) :
  includes roles r = true <-> In r roles.
Proof.
  unfold includes. rewrite existsb_exists. split.
  - intros [x [Hin Heq]]. apply String.eqb_eq in Heq. now subst.
  - intros Hin. exists r. split; [assumption | apply String.eqb_refl].
Qed.

(** C7: [authorize] calls [next()] with the request untouched exactly
    when an identity with a role of the required set is attached; in
    every other case (no identity, no role, role outside the set) it
    forwards an [ApiError] with status 403, which the error handler sends
    as 403. *)
Theorem authorize_fails_closed (cfg : Config.Config) (roles : list string) (req : Request) :
  match authorize roles req with
  | NextOk req' => req' = req /\ permitted roles req
  | NextErr e =>
      err_statusCode e = Some 403 /\
      ErrorHandler.status (ErrorHandler.errorHandler cfg e) = 403 /\
      ~ permitted roles req
  end.
Proof.
  unfold authorize, permitted.
  destruct (user req) as [u|] eqn:Hu.
  - destruct (role u) as [r|] eqn:Hr.
    + unfold JS.truthy.
      destruct (String.eqb_spec r "") as [He|He]; cbn [negb].
      * repeat split; try reflexivity.
        intros (u' & r' & Hu' & Hr' & Hne & _). congruence.
      * destruct (includes roles r) eqn:Hi; cbn [negb].
        -- apply includes_In in Hi. split; [reflexivity|]. now exists u, r.
        -- repeat split; try reflexivity.
           intros (u' & r' & Hu' & Hr' & _ & Hin).
           assert (u' = u) by congruence; subst u'.
           assert (r' = r) by congruence; subst r'.
           apply includes_In in Hin. congruence.
    + repeat split; try reflexivity.
      intros (u' & r' & Hu' & Hr' & _). congruence.
  - repeat split; try reflexivity.
    intros (u' & r' & Hu' & _). congruence.
Qed.

End AuthorizeFacts.

(** ** The authentication gate *)
Section ProtectFacts.
Import Http UserModel Collection AuthMiddleware Vocabulary.
Context {E : Externals}.
Variable cfg : Config.Config.

Lemma truthy_true (s : string) : JS.truthy s = true <-> s <> "".
Proof.
  unfold JS.truthy. destruct (String.eqb_spec s ""); cbn; split; congruence.
Qed.

(** [protect] lets a request through exactly as follows: the token
    verifies, the identity it names is stored and active.  Nothing else
    is consulted; in particular [passwordChangedAt] is not. *)
Lemma protect_accepts (s : Store) (now : Z) (req : Request)
      (token : string) (claims : JwtClaims) (d : Document) :
  presents req token ->
  jwt_verify token (Config.secret (Config.jwt cfg)) now = Decoded claims ->
  findById (claim_id claims) false s = Some d ->
  isActive (this d) = true ->
  protect cfg s now req
  = NextOk {| authorization := authorization req; user := Some (this d) |}.
Proof.
  intros [Hb Hne] Hv Hf Ha. unfold protect.
  rewrite Hb. apply truthy_true in Hne. rewrite Hne. cbn [negb].
  now rewrite Hv, Hf, Ha.
Qed.

Lemma rejection_message_injective (r1 r2 : Rejection) :
  rejection_message r1 = rejection_message r2 -> r1 = r2.
Proof. destruct r1, r2; cbn; intros H; try reflexivity; discriminate. Qed.

(** Each reason, when it holds, is what [protect] answers. *)
Lemma protect_rejects (s : Store) (now : Z) (req : Request) (r : Rejection) :
  rejected_for cfg s now req r ->
  protect cfg s now req = NextErr (ApiError 401 (rejection_message r)).
Proof.
  unfold protect.
  destruct r; cbn [rejected_for rejection_message].
  - intros Hno. destruct (bearer_token req) as [token|] eqn:Hb; [|reflexivity].
    destruct (JS.truthy token) eqn:Ht; [|reflexivity].
    elim (Hno token). split; [assumption | now apply truthy_true].
  - intros (token & [Hb Hne] & Hv). apply truthy_true in Hne.
    now rewrite Hb, Hne, Hv.
  - intros (token & [Hb Hne] & Hv). apply truthy_true in Hne.
    now rewrite Hb, Hne, Hv.
  - intros (token & name & [Hb Hne] & Hv & Hn1 & Hn2). apply truthy_true in Hne.
    rewrite Hb, Hne, Hv. cbn [negb].
    apply String.eqb_neq in Hn1, Hn2. now rewrite Hn1, Hn2.
  - intros (token & claims & [Hb Hne] & Hv & Hf). apply truthy_true in Hne.
    now rewrite Hb, Hne, Hv, Hf.
  - intros (token & claims & d & [Hb Hne] & Hv & Hf & Ha). apply truthy_true in Hne.
    now rewrite Hb, Hne, Hv, Hf, Ha.
Qed.

(** Conversely a rejection by [protect] has one of the reasons, which
    holds, and carries its message. *)
Lemma protect_rejected_inv (s : Store) (now : Z) (req : Request) (e : Err) :
  protect cfg s now req = NextErr e ->
  exists r : Rejection,
    rejected_for cfg s now req r /\ e = ApiError 401 (rejection_message r).
Proof.
  intros H. unfold protect in H.
  destruct (bearer_token req) as [token|] eqn:Hb.
  - destruct (JS.truthy token) eqn:Ht; cbn [negb] in H.
    + assert (Hp : presents req token).
      { split; [assumption | now apply truthy_true]. }
      destruct (jwt_verify token _ now) as [claims|name] eqn:Hv.
      * destruct (findById (claim_id claims) false s) as [d|] eqn:Hf.
        -- destruct (isActive (this d)) eqn:Ha; cbn [negb] in H; [discriminate|].
           injection H as <-. exists Deactivated.
           split; [now exists token, claims, d | reflexivity].
        -- injection H as <-. exists IdentityMissing.
           split; [now exists token, claims | reflexivity].
      * destruct (String.eqb_spec name "JsonWebTokenError") as [->|Hn1].
        -- injection H as <-. exists InvalidToken.
           split; [now exists token | reflexivity].
        -- destruct (String.eqb_spec name "TokenExpiredError") as [->|Hn2].
           ++ injection H as <-. exists ExpiredToken.
              split; [now exists token | reflexivity].
           ++ injection H as <-. exists VerificationError.
              split; [now exists token, name | reflexivity].
    + injection H as <-. exists NoToken. split; [|reflexivity].
      intros t [Hb' Hne]. apply truthy_true in Hne. congruence.
  - injection H as <-. exists NoToken. split; [|reflexivity].
    intros t [Hb' _]. congruence.
Qed.

(** The error handler sends an authentication failure as it is. *)
Lemma errorHandler_rejection (cfg' : Config.Config) (r : Rejection) :
  let response := ErrorHandler.errorHandler cfg' (ApiError 401 (rejection_message r)) in
  ErrorHandler.status response = 401 /\
  ErrorHandler.success response = false /\
  ErrorHandler.message response = rejection_message r /\
  ErrorHandler.details response = None.
Proof. destruct r; repeat split. Qed.

(** C6, as the code has it: a request is rejected by [protect] exactly
    for one of the listed reasons, as an [ApiError] with status 401
    whose message is the one of the check that failed; the error handler
    sends status 401, [success: false] and that message unchanged,
    whatever the posture; and the messages of different reasons
    differ. *)
Theorem protect_rejection_names_the_failed_check
    (cfg' : Config.Config) (s : Store) (now : Z) (req : Request) :
  (forall r, rejected_for cfg s now req r ->
             protect cfg s now req = NextErr (ApiError 401 (rejection_message r)))
  /\ (forall e, protect cfg s now req = NextErr e ->
       exists r : Rejection,
         rejected_for cfg s now req r /\
         e = ApiError 401 (rejection_message r) /\
         ErrorHandler.status (ErrorHandler.errorHandler cfg' e) = 401 /\
         ErrorHandler.success (ErrorHandler.errorHandler cfg' e) = false /\
         ErrorHandler.message (ErrorHandler.errorHandler cfg' e) = rejection_message r /\
         ErrorHandler.details (ErrorHandler.errorHandler cfg' e) = None)
  /\ (forall r1 r2, rejection_message r1 = rejection_message r2 -> r1 = r2).
Proof.
  split; [|split].
  - intros r. apply protect_rejects.
  - intros e H. destruct (protect_rejected_inv _ _ _ _ H) as (r & Hr & ->).
    exists r. split; [assumption|]. split; [reflexivity|].
    apply errorHandler_rejection.
  - exact rejection_message_injective.
Qed.

End ProtectFacts.

(** ** The gate on the recorded run *)
Section ProtectOnScenario.
Import Http UserModel Collection AuthMiddleware AuthController Scenario.
#[local] Existing Instance Fixture.externals.

(** C6, counterexample: a request without a header and a request with
    a token that does not verify are both turned down with status 401,
    and the client reads two different messages. *)
Lemma authentication_failures_read_differently :
  let no_token := protect Fixture.cfg [] 0 request_without_header in
  let bad_token := protect Fixture.cfg [] 0 request_with_garbage in
  no_token = NextErr (ApiError 401 "Not authorized, no token provided") /\
  bad_token = NextErr (ApiError 401 "Invalid token") /\
  ErrorHandler.message
    (ErrorHandler.errorHandler Fixture.cfg
       (ApiError 401 "Not authorized, no token provided"))
  <> ErrorHandler.message
       (ErrorHandler.errorHandler Fixture.cfg (ApiError 401 "Invalid token")).
Proof. by_evaluation. Qed.

(** C1, on the code: the token issued by the login at 1700000100 s is
    presented after the password change stamped 1700000199 s.  The
    model's own [passwordChangedAfter] reports the change, the token
    still verifies, and [protect] attaches the identity and calls
    [next()]. *)
Theorem protect_accepts_token_issued_before_password_change :
  snd logged_in = Json 200 (AuthBody (mkUserView 1 "Ann" "a@b.com" (Some "user"))
                                     login_token) /\
  fst password_changed = [ann] /\
  jwt_verify login_token (Config.secret (Config.jwt Fixture.cfg)) 1700000300000
  = Decoded {| claim_id := 1; claim_role := Some "user";
               claim_iat := 1700000100; claim_exp := 1700086500 |} /\
  passwordChangedAfter ann 1700000100 = true /\
  protect Fixture.cfg (fst password_changed) 1700000300000 request_with_login_token
  = NextOk {| authorization := authorization request_with_login_token;
              user := Some (with_password ann None) |}.
Proof. by_evaluation. Qed.

End ProtectOnScenario.

(** ** The pre-save hooks *)
Section HookFacts.
Import Http UserModel Collection.
Context {E : Externals}.

(** Truncation towards zero never exceeds the floor of a later instant:
    a token stamped at or after [now] is not older than the second-wide
    stamp of [now - 1000]. *)
Lemma issuedAt_not_before_skewed_stamp (now tsign : Z) :
  now <= tsign -> (issuedAt tsign <? JS.parseInt_div1000 (now - 1000)) = false.
Proof.
  intros Hle. apply Z.ltb_ge. unfold issuedAt, JS.parseInt_div1000.
  Z.to_euclidean_division_equations. lia.
Qed.

Lemma passwordChangedAt_hook_stamps (d : Document) (now : Z) :
  isModified_password d = true -> isNew d = false ->
  passwordChangedAt (this (passwordChangedAt_hook now d)) = Some (now - 1000).
Proof.
  intros Hm Hn. unfold passwordChangedAt_hook. now rewrite Hm, Hn.
Qed.

Lemma hashPassword_hook_keeps_flags (entropy : string) (d d1 : Document) :
  hashPassword_hook entropy d = Ok d1 ->
  isModified_password d1 = isModified_password d /\ isNew d1 = isNew d.
Proof.
  unfold hashPassword_hook.
  destruct (isModified_password d) eqn:Hm; cbn [negb].
  - destruct (password (this d)); [|discriminate].
    intros H. injection H as <-. cbn. now rewrite Hm.
  - intros H. injection H as <-. now rewrite Hm.
Qed.

Lemma validate_keeps (d d0 : Document) : validate d = Ok d0 -> d0 = d.
Proof.
  unfold validate.
  destruct (if isModified_password d then _ else _); [|discriminate].
  now intros H; injection H as <-.
Qed.

(** C2, as the code has it: when a loaded (not new) document whose
    password was modified is saved, the second hook stamps
    [passwordChangedAt] with exactly [now - 1000], one second before
    now; with that skew a token issued at the instant of the change, or
    at any later instant, is not reported by [passwordChangedAfter] as
    older than the change.  Every [save] that succeeds on such a
    document leaves the stamp on the document it returns. *)
Theorem passwordChangedAt_skew_keeps_new_tokens_fresh (d : Document) (now : Z) :
  isModified_password d = true ->
  isNew d = false ->
  let d' := passwordChangedAt_hook now d in
  passwordChangedAt (this d') = Some (now - 1000) /\
  now - 1000 < now /\
  (forall tsign, now <= tsign ->
                 passwordChangedAfter (this d') (issuedAt tsign) = false) /\
  (forall validateBeforeSave entropy s s' saved,
      save validateBeforeSave entropy now d s = Ok (s', saved) ->
      passwordChangedAt (this saved) = Some (now - 1000) /\
      forall tsign, now <= tsign ->
                    passwordChangedAfter (this saved) (issuedAt tsign) = false).
Proof.
  intros Hm Hn d'.
  assert (Hstamp : passwordChangedAt (this d') = Some (now - 1000))
    by now apply passwordChangedAt_hook_stamps.
  split; [assumption|]. split; [lia|]. split.
  - intros tsign Hle. unfold passwordChangedAfter. rewrite Hstamp.
    now apply issuedAt_not_before_skewed_stamp.
  - intros v entropy s s' saved Hsave. unfold save in Hsave.
    destruct (if v then validate d else Ok d) as [d0|] eqn:Hv; [|discriminate].
    assert (d0 = d) as ->.
    { destruct v; [now apply validate_keeps | congruence]. }
    cbn [bind] in Hsave.
    destruct (hashPassword_hook entropy d) as [d1|] eqn:Hh; [|discriminate].
    cbn [bind] in Hsave. injection Hsave as _ <-.
    destruct (hashPassword_hook_keeps_flags _ _ _ Hh) as [Hm1 Hn1].
    assert (Hs : passwordChangedAt (this (passwordChangedAt_hook now d1))
                 = Some (now - 1000)).
    { apply passwordChangedAt_hook_stamps; congruence. }
    split; [assumption|].
    intros tsign Hle. unfold passwordChangedAfter. rewrite Hs.
    now apply issuedAt_not_before_skewed_stamp.
Qed.

(** On creation and on a save that leaves the password alone the
    second hook changes nothing. *)
Lemma passwordChangedAt_hook_skips (d : Document) (now : Z) :
  isModified_password d = false \/ isNew d = true ->
  passwordChangedAt_hook now d = d.
Proof.
  intros [H|H]; unfold passwordChangedAt_hook; rewrite H; cbn;
    [reflexivity | now rewrite orb_true_r].
Qed.

End HookFacts.

Section HookOnScenario.
Import Http UserModel Collection Scenario.
#[local] Existing Instance Fixture.externals.

(** The theorem on Ann's change of password at 1700000200000 ms. *)
Lemma passwordChangedAt_skew_keeps_new_tokens_fresh_witness :
  let d' := passwordChangedAt_hook 1700000200000 ann_changing_password in
  passwordChangedAt (this d') = Some (1700000200000 - 1000) /\
  1700000200000 - 1000 < 1700000200000 /\
  (forall tsign, 1700000200000 <= tsign ->
                 passwordChangedAfter (this d') (issuedAt tsign) = false) /\
  (forall validateBeforeSave entropy s s' saved,
      save validateBeforeSave entropy 1700000200000 ann_changing_password s
      = Ok (s', saved) ->
      passwordChangedAt (this saved) = Some (1700000200000 - 1000) /\
      forall tsign, 1700000200000 <= tsign ->
                    passwordChangedAfter (this saved) (issuedAt tsign) = false).
Proof.
  apply (passwordChangedAt_skew_keeps_new_tokens_fresh
           ann_changing_password 1700000200000); reflexivity.
Defined.

(** C2, counterexample: the password is changed at 1700000200000 ms and a
    token is issued at that same instant; the stamp is 1700000199 s, the
    token's [iat] is 1700000200 s, and the freshness check does not
    report the token as stale. *)
Lemma token_issued_at_the_change_is_not_stale :
  let now := 1700000200000 in
  let d' := passwordChangedAt_hook now ann_changing_password in
  passwordChangedAt (this d') = Some 1700000199000 /\
  issuedAt now = 1700000200 /\
  passwordChangedAfter (this d') (issuedAt now) = false.
Proof. by_evaluation. Qed.

End HookOnScenario.

(** ** Password hashing and verification *)
Section PasswordFacts.
Import Http UserModel Collection.
Context {E : Externals} {B : BcryptContract E}.

Lemma hashPassword_hook_hashes (entropy : string) (d : Document) (P : string) :
  password (this d) = Some P ->
  isModified_password d = true ->
  exists d1,
    hashPassword_hook entropy d = Ok d1 /\
    password (this d1) = Some (bcrypt_hash P (bcrypt_genSalt 12 entropy)).
Proof.
  intros HP Hm. unfold hashPassword_hook. rewrite Hm, HP. cbn [negb].
  eexists. split; reflexivity.
Qed.

Lemma passwordChangedAt_hook_keeps_password (now : Z) (d : Document) :
  password (this (passwordChangedAt_hook now d)) = password (this d).
Proof.
  unfold passwordChangedAt_hook. now destruct (negb _ || _).
Qed.

(** C8: when a document whose password path was set to the plaintext
    [P] is saved, the first hook replaces the field with
    [bcrypt.hash(P, salt)] for a salt of cost factor 12 drawn from fresh
    random bytes, and [matchPassword(P)] on the result is true; the
    document that a successful [save] returns verifies [P] as well.  Two
    runs that draw different random bytes store different digests, and
    both digests verify [P].  (Rests on bcrypt's contract: a digest
    verifies its password and embeds its salt.) *)
Theorem hashed_password_verifies_and_is_salted
    (d : Document) (P entropy1 entropy2 : string) :
  password (this d) = Some P ->
  isModified_password d = true ->
  exists d1 d2,
    hashPassword_hook entropy1 d = Ok d1 /\
    hashPassword_hook entropy2 d = Ok d2 /\
    password (this d1) = Some (bcrypt_hash P (bcrypt_genSalt 12 entropy1)) /\
    password (this d2) = Some (bcrypt_hash P (bcrypt_genSalt 12 entropy2)) /\
    matchPassword (this d1) P = Ok true /\
    matchPassword (this d2) P = Ok true /\
    (entropy1 <> entropy2 -> password (this d1) <> password (this d2)) /\
    (forall validateBeforeSave now s s' saved,
        save validateBeforeSave entropy1 now d s = Ok (s', saved) ->
        matchPassword (this saved) P = Ok true).
Proof.
  intros HP Hm.
  destruct (hashPassword_hook_hashes entropy1 d P HP Hm) as (d1 & H1 & Hp1).
  destruct (hashPassword_hook_hashes entropy2 d P HP Hm) as (d2 & H2 & Hp2).
  assert (Hm1 : matchPassword (this d1) P = Ok true).
  { unfold matchPassword. rewrite Hp1. now rewrite compare_hash. }
  exists d1, d2. repeat split; try assumption.
  - unfold matchPassword. rewrite Hp2. now rewrite compare_hash.
  - intros Hne Heq. rewrite Hp1, Hp2 in Heq. injection Heq as Heq.
    apply hash_embeds_salt in Heq. apply genSalt_injective in Heq.
    contradiction.
  - intros v now s s' saved Hsave. unfold save in Hsave.
    destruct (if v then validate d else Ok d) as [d0|] eqn:Hv; [|discriminate].
    assert (d0 = d) as ->.
    { destruct v; [now apply validate_keeps | congruence]. }
    cbn [bind] in Hsave. rewrite H1 in Hsave. cbn [bind] in Hsave.
    injection Hsave as _ <-.
    unfold matchPassword in *.
    now rewrite passwordChangedAt_hook_keeps_password.
Qed.

End PasswordFacts.

Section FixtureFacts.

Lemma prefix_append (a b : string) : String.prefix a (a ++ b) = true.
Proof.
  induction a as [|c a IH]; cbn.
  - now destruct b.
  - destruct (ascii_dec c c); [assumption | contradiction].
Qed.

Lemma append_cancel_l (a b c : string) : a ++ b = a ++ c -> b = c.
Proof.
  induction a as [|x a IH]; cbn; intros H; [assumption|].
  injection H as H. now apply IH.
Qed.

Lemma append_assoc (a b c : string) : (a ++ b) ++ c = a ++ b ++ c.
Proof. induction a as [|x a IH]; cbn; [reflexivity | now rewrite IH]. Qed.

(** The stand-in honours bcrypt's contract. *)
Lemma fixture_bcrypt : BcryptContract Fixture.externals.
Proof.
  constructor; cbn -[append String.prefix].
  - intros password salt. rewrite <- append_assoc. apply prefix_append.
  - intros password salt1 salt2 H.
    apply append_cancel_l in H. now injection H.
  - intros _ e1 e2 H. now injection H.
Qed.

End FixtureFacts.

Section PasswordOnScenario.
Import Http UserModel Collection Scenario.

(** The theorem on Ann's change of password, with two draws of random
    bytes. *)
Lemma hashed_password_verifies_and_is_salted_witness :
  exists d1 d2,
    hashPassword_hook (E := Fixture.externals) "salt2" ann_changing_password = Ok d1 /\
    hashPassword_hook (E := Fixture.externals) "salt3" ann_changing_password = Ok d2 /\
    password (this d1)
    = Some (bcrypt_hash (Externals := Fixture.externals) "NewSecret@456"
                        (bcrypt_genSalt (Externals := Fixture.externals) 12 "salt2")) /\
    password (this d2)
    = Some (bcrypt_hash (Externals := Fixture.externals) "NewSecret@456"
                        (bcrypt_genSalt (Externals := Fixture.externals) 12 "salt3")) /\
    matchPassword (E := Fixture.externals) (this d1) "NewSecret@456" = Ok true /\
    matchPassword (E := Fixture.externals) (this d2) "NewSecret@456" = Ok true /\
    ("salt2" <> "salt3" -> password (this d1) <> password (this d2)) /\
    (forall validateBeforeSave now s s' saved,
        save (E := Fixture.externals) validateBeforeSave "salt2" now
             ann_changing_password s = Ok (s', saved) ->
        matchPassword (E := Fixture.externals) (this saved) "NewSecret@456" = Ok true).
Proof.
  apply (hashed_password_verifies_and_is_salted (B := fixture_bcrypt)
           ann_changing_password "NewSecret@456" "salt2" "salt3"); reflexivity.
Defined.

End PasswordOnScenario.

(** ** Registration *)
Section RegisterFacts.
Import Http UserModel Collection AuthController.
Context {E : Externals}.
Variable cfg : Config.Config.

(** [User.create] with no [role] listed stores the schema default. *)
Lemma create_default_role
    (newId : nat) (entropy : string) (now : Z)
    (n e p : string) (s s' : Store) (u : User) :
  create newId entropy now
         {| new_name := n; new_email := e; new_password := p; new_role := None |} s
  = Ok (s', u) ->
  s' = (s ++ [u])%list /\ _id u = newId /\ role u = Some "user" /\
  isActive u = true /\ passwordChangedAt u = None.
Proof.
  unfold create. cbn [new_name new_email new_password new_role].
  destruct (_ ++ _)%list; [|discriminate].
  cbn [hashPassword_hook isModified_password negb this password bind].
  destruct (existsb _ s); [discriminate|].
  intros H. injection H as <- <-. repeat split.
Qed.

(** C9: whatever the registration body contains, [register] either
    forwards an error and leaves the collection as it was, or appends
    exactly one identity, whose role is 'user', and answers 201 with that
    identity's view (role 'user') and a token; and its result does not
    depend on a [role] property of the body. *)
Theorem register_creates_role_user
    (newId : nat) (entropy : string) (now tsign : Z)
    (body : RegisterBody) (s : Store) :
  ((exists e, register cfg newId entropy now tsign body s = (s, Next e)) \/
   (exists u token,
       register cfg newId entropy now tsign body s
       = ((s ++ [u])%list, Json 201 (AuthBody (view u) token)) /\
       _id u = newId /\
       role u = Some "user" /\
       view_role (view u) = Some "user"))
  /\ (forall r,
       register cfg newId entropy now tsign
                (mkRegisterBody (body_name body) (body_email body)
                                (body_password body) r) s
       = register cfg newId entropy now tsign body s).
Proof.
  split; [|reflexivity].
  unfold register.
  destruct (findOne _ false s); [left; eauto|].
  destruct (create _ _ _ _ s) as [[s' u]|err] eqn:Hc; [|left; eauto].
  apply create_default_role in Hc. destruct Hc as (-> & Hid & Hr & _).
  right. exists u. eexists. repeat split; assumption.
Qed.

End RegisterFacts.

Section RegisterOnScenario.
Import Http UserModel Collection AuthController Scenario.

(** A registration that asks for role 'admin' succeeds and stores role
    'user'. *)
Example register_asking_for_admin :
  registered
  = ([ {| _id := 1; name := "Ann"; email := "a@b.com";
          password := Some "Secret@123$2a$12$salt1";
          role := Some "user"; isActive := true; lastLogin := None;
          passwordResetToken := None; passwordResetExpires := None;
          passwordChangedAt := None |} ],
     Json 201
       (AuthBody (mkUserView 1 "Ann" "a@b.com" (Some "user"))
          "development_secret_key_change_in_production.1.user.1700000000.1700086400")).
Proof. by_evaluation. Qed.

End RegisterOnScenario.

(** ** The collection *)
Section CollectionFacts.
Import Http UserModel Collection Vocabulary.

Lemma find_none_iff {A : Type} (p : A -> bool) (l : list A) :
  find p l = None <-> forall x, In x l -> p x = false.
Proof.
  split; [apply find_none|].
  induction l as [|a l IH]; cbn; intros H; [reflexivity|].
  rewrite (H a) by now left. apply IH. intros x Hx. apply H. now right.
Qed.

Lemma id_in_map (u : User) (s : Store) : In u s -> In (_id u) (map _id s).
Proof. apply in_map. Qed.

(** With distinct ids, [updateOne] on the id of a stored document
    rewrites that document. *)
Lemma updateOne_at (f g : User -> User) (u : User) (s : Store) :
  distinct_ids s -> In u s -> f u = g u ->
  updateOne (_id u) f s = updateOne (_id u) g s.
Proof.
  unfold distinct_ids. intros Hnd Hin Hfg.
  induction s as [|a s IH]; [reflexivity|].
  cbn in Hnd. inversion Hnd as [|? ? Hnotin Hnd']; subst.
  cbn [updateOne]. destruct (Nat.eqb_spec (_id a) (_id u)) as [Heq|Hne].
  - destruct Hin as [->|Hin]; [now rewrite Hfg|].
    elim Hnotin. rewrite Heq. now apply id_in_map.
  - destruct Hin as [->|Hin]; [now elim Hne|].
    f_equal. now apply IH.
Qed.

(** With distinct ids, a document of the updated collection is the
    rewritten one or an untouched one with another id. *)
Lemma in_updateOne (f : User -> User) (id : nat) (s : Store) (x : User) :
  distinct_ids s -> In x (updateOne id f s) ->
  (exists y, In y s /\ _id y = id /\ x = f y) \/ (In x s /\ _id x <> id).
Proof.
  unfold distinct_ids. intros Hnd.
  induction s as [|a s IH]; cbn [updateOne]; [contradiction|].
  cbn in Hnd. inversion Hnd as [|? ? Hnotin Hnd']; subst.
  destruct (Nat.eqb_spec (_id a) id) as [Heq|Hne].
  - intros [<-|Hin].
    + left. exists a. repeat split; [now left | assumption].
    + right. split; [now right|].
      intros Hx. elim Hnotin. rewrite Heq, <- Hx. now apply id_in_map.
  - intros [<-|Hin].
    + right. split; [now left | assumption].
    + destruct (IH Hnd' Hin) as [(y & Hy & Hid & ->)|[Hx Hid]].
      * left. exists y. repeat split; [now right | assumption].
      * right. split; [now right | assumption].
Qed.

(** The rewritten document is in the updated collection. *)
Lemma updateOne_in (f : User -> User) (u : User) (s : Store) :
  distinct_ids s -> In u s -> In (f u) (updateOne (_id u) f s).
Proof.
  unfold distinct_ids. intros Hnd Hin.
  induction s as [|a s IH]; [contradiction|].
  cbn in Hnd. inversion Hnd as [|? ? Hnotin Hnd']; subst.
  cbn [updateOne]. destruct (Nat.eqb_spec (_id a) (_id u)) as [Heq|Hne].
  - destruct Hin as [->|Hin]; [now left|].
    elim Hnotin. rewrite Heq. now apply id_in_map.
  - destruct Hin as [->|Hin]; [now elim Hne|].
    right. now apply IH.
Qed.

(** Looking the rewritten document up by its id finds it, when the
    rewriting keeps the id. *)
Lemma findById_updateOne (f : User -> User) (u : User) (s : Store) :
  distinct_ids s -> In u s -> _id (f u) = _id u ->
  find (fun x => Nat.eqb (_id x) (_id u)) (updateOne (_id u) f s) = Some (f u).
Proof.
  unfold distinct_ids. intros Hnd Hin Hid.
  induction s as [|a s IH]; [contradiction|].
  cbn in Hnd. inversion Hnd as [|? ? Hnotin Hnd']; subst.
  cbn [updateOne]. destruct (Nat.eqb_spec (_id a) (_id u)) as [Heq|Hne].
  - destruct Hin as [->|Hin].
    + cbn [find]. rewrite Hid. now rewrite Nat.eqb_refl.
    + elim Hnotin. rewrite Heq. now apply id_in_map.
  - destruct Hin as [->|Hin]; [now elim Hne|].
    cbn [find]. apply Nat.eqb_neq in Hne. rewrite Hne. now apply IH.
Qed.

End CollectionFacts.

(** ** Login *)
Section LoginFacts.
Import Http UserModel Collection AuthController Vocabulary.
Context {E : Externals}.
Variable cfg : Config.Config.

(** Saving a loaded document whose password is untouched, without
    validation, writes it back and changes nothing else. *)
Lemma save_unmodified (entropy : string) (now : Z) (d : Document) (s : Store) :
  isModified_password d = false ->
  save false entropy now d s = Ok (write d s, d).
Proof.
  intros Hm. unfold save. cbn [bind].
  unfold hashPassword_hook. rewrite Hm. cbn [negb bind].
  unfold passwordChangedAt_hook. rewrite Hm. reflexivity.
Qed.

(** Writing back a document loaded with its password, after an
    assignment to another path, rewrites the stored document by that
    assignment. *)
Lemma write_assigned (f : User -> User) (u : User) (s : Store) :
  distinct_ids s -> In u s ->
  (forall v, _id (f v) = _id v) ->
  (forall v, with_password (f v) (password v) = f v) ->
  write (assign f (hydrate true u)) s = updateOne (_id u) f s.
Proof.
  intros Hnd Hin Hid Hpw. unfold write. cbn. rewrite Hid.
  apply updateOne_at; [assumption | assumption | apply Hpw].
Qed.

(** Whatever the body holds, a login either forwards an error, issues
    no token and leaves the collection as it was, or found the identity,
    verified its password and saw it active, and then only rewrote that
    identity's [lastLogin]. *)
Lemma login_changes_only_lastLogin
    (now tsign : Z) (email candidate : option string) (s s' : Store) (out : Outcome) :
  distinct_ids s ->
  login cfg now tsign email candidate s = (s', out) ->
  (s' = s /\ exists e, out = Next e)
  \/ (exists e c u digest token,
         email = Some e /\ candidate = Some c /\
         find (by_email e) s = Some u /\
         password u = Some digest /\
         bcrypt_compare c digest = true /\
         isActive u = true /\
         s' = updateOne (_id u) (fun stored => with_lastLogin stored (Some now)) s /\
         out = Json 200 (AuthBody (view u) token)).
Proof.
  intros Hnd. unfold login, findOne, matchPassword.
  destruct email as [e|]; [|intros H; injection H as <- <-; left; eauto].
  destruct candidate as [c|]; [|intros H; injection H as <- <-; left; eauto].
  destruct (negb (JS.truthy e) || negb (JS.truthy c));
    [intros H; injection H as <- <-; left; eauto|].
  destruct (find (by_email e) s) as [u|] eqn:Hf; cbn [option_map];
    [|intros H; injection H as <- <-; left; eauto].
  cbn [hydrate this].
  destruct (password u) as [digest|] eqn:Hp;
    [|intros H; injection H as <- <-; left; eauto].
  destruct (bcrypt_compare c digest) eqn:Hcmp;
    [|intros H; injection H as <- <-; left; eauto].
  destruct (isActive u) eqn:Ha; cbn [negb];
    [|intros H; injection H as <- <-; left; eauto].
  rewrite save_unmodified by reflexivity.
  intros H. injection H as <- <-. right.
  exists e, c, u, digest. eexists. repeat split; try eassumption.
  apply find_some in Hf. destruct Hf as [Hin _].
  apply write_assigned; try assumption; now destruct v.
Qed.

(** C10: (1) for a login request with a non-empty email and password,
    an email that no stored identity has and (2) an email of a stored
    identity with a password that does not verify end in the same way:
    [next] receives the [ApiError] 401 'Invalid credentials' and the
    collection is the one before; (3) for every login request, either the
    handler forwards an error, issues no token and the collection is
    unchanged, or the identity was found, its password verified and it is
    active, and then the only change is that identity's [lastLogin], set
    to now. *)
Theorem login_failures_are_uniform
    (now tsign : Z) (email candidate : string) (s : Store) :
  email <> "" -> candidate <> "" -> distinct_ids s ->
  (find (by_email email) s = None ->
   login cfg now tsign (Some email) (Some candidate) s
   = (s, Next (ApiError 401 "Invalid credentials")))
  /\ (forall u digest,
         find (by_email email) s = Some u ->
         password u = Some digest ->
         bcrypt_compare candidate digest = false ->
         login cfg now tsign (Some email) (Some candidate) s
         = (s, Next (ApiError 401 "Invalid credentials")))
  /\ (forall body_email body_password s' out,
         login cfg now tsign body_email body_password s = (s', out) ->
         (s' = s /\ exists e, out = Next e)
         \/ (exists e c u digest token,
                body_email = Some e /\ body_password = Some c /\
                find (by_email e) s = Some u /\
                password u = Some digest /\
                bcrypt_compare c digest = true /\
                isActive u = true /\
                s' = updateOne (_id u) (fun stored => with_lastLogin stored (Some now)) s /\
                out = Json 200 (AuthBody (view u) token))).
Proof.
  intros He Hc Hnd. split; [|split].
  - intros Hf. apply truthy_true in He. apply truthy_true in Hc.
    unfold login, findOne. now rewrite He, Hc, Hf.
  - intros u digest Hf Hp Hcmp. apply truthy_true in He. apply truthy_true in Hc.
    unfold login, findOne, matchPassword. rewrite He, Hc, Hf. cbn.
    now rewrite Hp, Hcmp.
  - intros body_email body_password s' out.
    now apply login_changes_only_lastLogin.
Qed.

End LoginFacts.

Section LoginOnScenario.
Import Http UserModel Collection AuthController Scenario Vocabulary.
#[local] Existing Instance Fixture.externals.

(** The theorem on a login with Ann's email and a wrong password, on
    the collection that holds Ann alone. *)
Lemma login_failures_are_uniform_witness :
  (find (by_email "a@b.com") (fst registered) = None ->
   login Fixture.cfg 1700000100000 1700000100000
         (Some "a@b.com") (Some "Secret@12") (fst registered)
   = (fst registered, Next (ApiError 401 "Invalid credentials")))
  /\ (forall u digest,
         find (by_email "a@b.com") (fst registered) = Some u ->
         password u = Some digest ->
         bcrypt_compare "Secret@12" digest = false ->
         login Fixture.cfg 1700000100000 1700000100000
               (Some "a@b.com") (Some "Secret@12") (fst registered)
         = (fst registered, Next (ApiError 401 "Invalid credentials")))
  /\ (forall body_email body_password s' out,
         login Fixture.cfg 1700000100000 1700000100000
               body_email body_password (fst registered) = (s', out) ->
         (s' = fst registered /\ exists e, out = Next e)
         \/ (exists e c u digest token,
                body_email = Some e /\ body_password = Some c /\
                find (by_email e) (fst registered) = Some u /\
                password u = Some digest /\
                bcrypt_compare c digest = true /\
                isActive u = true /\
                s' = updateOne (_id u)
                               (fun stored => with_lastLogin stored (Some 1700000100000))
                               (fst registered) /\
                out = Json 200 (AuthBody (view u) token))).
Proof.
  apply (login_failures_are_uniform Fixture.cfg 1700000100000 1700000100000
           "a@b.com" "Secret@12" (fst registered)).
  - discriminate.
  - discriminate.
  - repeat constructor. cbn. intros [].
Defined.

(** The two failures on the recorded run: an unknown email and a wrong
    password for Ann's email. *)
Example login_unknown_email_and_wrong_password :
  login Fixture.cfg 1700000100000 1700000100000
        (Some "nobody@b.com") (Some "Secret@123") (fst registered)
  = login Fixture.cfg 1700000100000 1700000100000
          (Some "a@b.com") (Some "Secret@12") (fst registered)
  /\ login Fixture.cfg 1700000100000 1700000100000
           (Some "a@b.com") (Some "Secret@12") (fst registered)
     = (fst registered, Next (ApiError 401 "Invalid credentials")).
Proof. by_evaluation. Qed.

End LoginOnScenario.

(** ** The reset ticket *)
Section ResetFacts.
Import Http UserModel Collection AuthController Vocabulary.
Context {E : Externals}.
Variable cfg : Config.Config.

Lemma valid_password (pw : string) :
  (8 <= String.length pw)%nat -> validate_password (Some pw) = [].
Proof.
  intros H. destruct pw as [|c pw]; [cbn in H; lia|].
  unfold validate_password. cbn [JS.truthy String.eqb negb].
  apply Nat.leb_le in H. now rewrite H.
Qed.

(** The filter of [resetPassword], read as a proposition. *)
Lemma by_reset_token_true (h : string) (now : Z) (u : User) :
  by_reset_token h now u = true <->
  passwordResetToken u = Some h /\
  exists expires, passwordResetExpires u = Some expires /\ now < expires.
Proof.
  unfold by_reset_token, opt_string_eqb.
  destruct (passwordResetToken u) as [h'|]; cbn.
  - destruct (String.eqb_spec h' h) as [->|Hne]; cbn.
    + destruct (passwordResetExpires u) as [expires|].
      * rewrite Z.ltb_lt. split.
        -- intros H. split; [reflexivity|]. now exists expires.
        -- intros [_ (x & Hx & Hlt)]. now injection Hx as ->.
      * split; [discriminate|]. now intros [_ (x & Hx & _)].
    + split; [discriminate|]. intros [H _]. congruence.
  - split; [discriminate|]. now intros [H _].
Qed.

(** No candidate: the handler answers 400 and touches nothing. *)
Lemma resetPassword_no_candidate
    (entropy : string) (now tsave tsign : Z) (resettoken pw : string) (s : Store) :
  find (by_reset_token (sha256_hex resettoken) now) s = None ->
  resetPassword cfg entropy now tsave tsign resettoken pw s
  = (s, Next (ApiError 400 "Invalid or expired token")).
Proof. intros H. unfold resetPassword, findOne. now rewrite H. Qed.

(** A candidate and a password the schema accepts: the identity is
    rewritten and the handler answers 200 with a token. *)
Lemma resetPassword_redeems
    (entropy : string) (now tsave tsign : Z) (resettoken pw : string)
    (s : Store) (u : User) :
  find (by_reset_token (sha256_hex resettoken) now) s = Some u ->
  (8 <= String.length pw)%nat ->
  resetPassword cfg entropy now tsave tsign resettoken pw s
  = (updateOne (_id u) (fun _ => redeemed u entropy pw tsave) s,
     Json 200 (TokenBody "Password reset successful"
                 (generateAuthToken cfg tsign (redeemed u entropy pw tsave)))).
Proof.
  intros Hf Hpw. unfold resetPassword, findOne. rewrite Hf. cbn [option_map].
  unfold save, validate. cbn -[validate_password].
  rewrite (valid_password pw Hpw). reflexivity.
Qed.

(** Whatever the handler forwards to [next], the collection is the one
    before. *)
Lemma resetPassword_error_keeps_store
    (entropy : string) (now tsave tsign : Z) (resettoken pw : string)
    (s s' : Store) (e : Err) :
  resetPassword cfg entropy now tsave tsign resettoken pw s = (s', Next e) -> s' = s.
Proof.
  unfold resetPassword.
  destruct (findOne _ false s) as [d|]; [|now intros H; injection H as <-].
  destruct (save _ _ _ _ s) as [[s1 d1]|err]; [discriminate|].
  now intros H; injection H as <-.
Qed.

(** A success had a candidate and rewrote it as [redeemed]. *)
Lemma resetPassword_success_inv
    (entropy : string) (now tsave tsign : Z) (resettoken pw : string)
    (s s' : Store) (status : Z) (body : Body) :
  resetPassword cfg entropy now tsave tsign resettoken pw s = (s', Json status body) ->
  exists u,
    find (by_reset_token (sha256_hex resettoken) now) s = Some u /\
    s' = updateOne (_id u) (fun _ => redeemed u entropy pw tsave) s.
Proof.
  unfold resetPassword, findOne.
  destruct (find _ s) as [u|] eqn:Hf; cbn [option_map]; [|discriminate].
  unfold save, validate. cbn -[validate_password].
  destruct (validate_password (Some pw)); cbn; [|discriminate].
  intros H. injection H as <- _ _. now exists u.
Qed.

End ResetFacts.

Section TicketFacts.
Import Http UserModel Collection AuthController Vocabulary.
Context {E : Externals}.
Variable cfg : Config.Config.

Lemma find_exists {A : Type} (p : A -> bool) (l : list A) (x : A) :
  In x l -> p x = true -> exists y, find p l = Some y.
Proof.
  intros Hin Hp. destruct (find p l) as [y|] eqn:Hf; [now exists y|].
  rewrite (find_none _ _ Hf x Hin) in Hp. discriminate.
Qed.

(** Issuing a ticket rewrites the identity found by email as
    [issued]. *)
Lemma forgotPassword_issues
    (resetBytes : string) (now0 : Z) (email : string) (s : Store) (u : User) :
  distinct_ids s ->
  find (by_email email) s = Some u ->
  forgotPassword resetBytes now0 email s
  = (updateOne (_id u) (fun _ => issued u (sha256_hex resetBytes) now0) s,
     Json 200 (ResetTokenBody "Password reset token generated" resetBytes)).
Proof.
  intros Hnd Hf. unfold forgotPassword, findOne. rewrite Hf. cbn [option_map].
  cbn [generatePasswordResetToken]. rewrite save_unmodified by reflexivity.
  f_equal. unfold write. cbn.
  apply find_some in Hf. destruct Hf as [Hin _].
  apply (updateOne_at _ (fun _ => issued u (sha256_hex resetBytes) now0) u s Hnd Hin).
  now destruct u.
Qed.

(** After a redemption no stored identity answers to the ticket. *)
Lemma redeemed_ticket_has_no_candidate
    (h entropy pw : string) (now tsave now' : Z) (s : Store) (u : User) :
  distinct_ids s -> digest_held_once h s ->
  find (by_reset_token h now) s = Some u ->
  find (by_reset_token h now')
       (updateOne (_id u) (fun _ => redeemed u entropy pw tsave) s) = None.
Proof.
  intros Hnd Honce Hf. apply find_some in Hf. destruct Hf as [Hin Hu].
  apply by_reset_token_true in Hu. destruct Hu as [Hu _].
  apply find_none_iff. intros x Hx.
  destruct (in_updateOne _ _ _ _ Hnd Hx) as [(y & _ & _ & ->)|[Hxs Hid]].
  - reflexivity.
  - destruct (by_reset_token h now' x) eqn:Hbx; [|reflexivity].
    apply by_reset_token_true in Hbx. destruct Hbx as [Hxh _].
    elim Hid. now rewrite (Honce x u Hxs Hin Hxh Hu).
Qed.

(** C4: with distinct ids and the ticket's digest held by at most one
    identity, (1) an attempt that the handler turns down leaves the
    collection, hence the stored digest and expiry, as they were; (2) an
    attempt on an expired ticket is turned down with 400; (3) a
    successful redemption leaves the redeemed identity with neither
    digest nor expiry, and every later attempt with the same plaintext is
    turned down with 400 and changes nothing. *)
Theorem reset_ticket_is_single_use
    (entropy : string) (now tsave tsign : Z) (resettoken pw : string) (s : Store) :
  distinct_ids s ->
  digest_held_once (sha256_hex resettoken) s ->
  (forall s' e,
      resetPassword cfg entropy now tsave tsign resettoken pw s = (s', Next e) ->
      s' = s)
  /\ (forall u expires,
         In u s ->
         passwordResetToken u = Some (sha256_hex resettoken) ->
         passwordResetExpires u = Some expires ->
         expires <= now ->
         resetPassword cfg entropy now tsave tsign resettoken pw s
         = (s, Next (ApiError 400 "Invalid or expired token")))
  /\ (forall s' status body,
         resetPassword cfg entropy now tsave tsign resettoken pw s
         = (s', Json status body) ->
         exists u u',
           find (by_reset_token (sha256_hex resettoken) now) s = Some u /\
           find (fun x => Nat.eqb (_id x) (_id u)) s' = Some u' /\
           passwordResetToken u' = None /\
           passwordResetExpires u' = None /\
           forall entropy' now' tsave' tsign' pw',
             resetPassword cfg entropy' now' tsave' tsign' resettoken pw' s'
             = (s', Next (ApiError 400 "Invalid or expired token"))).
Proof.
  intros Hnd Honce. split; [|split].
  - intros s' e. apply resetPassword_error_keeps_store.
  - intros u expires Hin Hh Hexp Hle.
    apply resetPassword_no_candidate. apply find_none_iff. intros x Hx.
    destruct (by_reset_token _ now x) eqn:Hbx; [|reflexivity].
    apply by_reset_token_true in Hbx. destruct Hbx as [Hxh (e' & He' & Hlt)].
    rewrite (Honce x u Hx Hin Hxh Hh) in He'.
    rewrite Hexp in He'. injection He' as <-. lia.
  - intros s' status body H.
    destruct (resetPassword_success_inv cfg _ _ _ _ _ _ _ _ _ _ H) as (u & Hf & ->).
    exists u, (redeemed u entropy pw tsave).
    split; [assumption|].
    pose proof (find_some _ _ Hf) as [Hin _].
    split; [now apply (findById_updateOne (fun _ => redeemed u entropy pw tsave))|].
    split; [reflexivity|]. split; [reflexivity|].
    intros entropy' now' tsave' tsign' pw'.
    apply resetPassword_no_candidate.
    now apply (redeemed_ticket_has_no_candidate _ entropy pw now tsave now').
Qed.

(** C5: (1) a redemption succeeds only if some stored identity holds
    the SHA-256 digest of the presented plaintext with an expiry
    strictly after now; (2) when every holder of the digest has an expiry
    at or before now, the handler answers 400 and changes nothing;
    (3) a holder with a later expiry and a password the schema accepts
    give a success; (4) issuance stores the digest of the plaintext it
    returns and the expiry now + 600000 ms; (5) hence a ticket issued at
    [now0] to the identity found by email is turned down from
    [now0 + 600000] on, correct plaintext or not, and redeemable
    before. *)
Theorem reset_requires_digest_match_and_unexpired
    (entropy : string) (now tsave tsign : Z) (resettoken pw : string) (s : Store) :
  (forall s' status body,
      resetPassword cfg entropy now tsave tsign resettoken pw s
      = (s', Json status body) ->
      exists u expires,
        In u s /\
        passwordResetToken u = Some (sha256_hex resettoken) /\
        passwordResetExpires u = Some expires /\
        now < expires)
  /\ ((forall u expires,
          In u s ->
          passwordResetToken u = Some (sha256_hex resettoken) ->
          passwordResetExpires u = Some expires ->
          expires <= now) ->
      resetPassword cfg entropy now tsave tsign resettoken pw s
      = (s, Next (ApiError 400 "Invalid or expired token")))
  /\ (forall u expires,
         In u s ->
         passwordResetToken u = Some (sha256_hex resettoken) ->
         passwordResetExpires u = Some expires ->
         now < expires ->
         (8 <= String.length pw)%nat ->
         exists s' token,
           resetPassword cfg entropy now tsave tsign resettoken pw s
           = (s', Json 200 (TokenBody "Password reset successful" token)))
  /\ (forall now0 d,
         let (d', plaintext) := generatePasswordResetToken resettoken now0 d in
         plaintext = resettoken /\
         passwordResetToken (this d') = Some (sha256_hex resettoken) /\
         passwordResetExpires (this d') = Some (now0 + 600000))
  /\ (forall now0 email u,
         distinct_ids s ->
         digest_fresh (sha256_hex resettoken) s ->
         find (by_email email) s = Some u ->
         exists s1,
           forgotPassword resettoken now0 email s
           = (s1, Json 200 (ResetTokenBody "Password reset token generated" resettoken)) /\
           (now0 + 600000 <= now ->
            resetPassword cfg entropy now tsave tsign resettoken pw s1
            = (s1, Next (ApiError 400 "Invalid or expired token"))) /\
           (now < now0 + 600000 -> (8 <= String.length pw)%nat ->
            exists s2 token,
              resetPassword cfg entropy now tsave tsign resettoken pw s1
              = (s2, Json 200 (TokenBody "Password reset successful" token)))).
Proof.
  split; [|split; [|split; [|split]]].
  - intros s' status body H.
    destruct (resetPassword_success_inv cfg _ _ _ _ _ _ _ _ _ _ H) as (u & Hf & _).
    apply find_some in Hf. destruct Hf as [Hin Hu].
    apply by_reset_token_true in Hu. destruct Hu as [Hh (expires & He & Hlt)].
    now exists u, expires.
  - intros Hall. apply resetPassword_no_candidate. apply find_none_iff.
    intros x Hx. destruct (by_reset_token _ now x) eqn:Hbx; [|reflexivity].
    apply by_reset_token_true in Hbx. destruct Hbx as [Hh (expires & He & Hlt)].
    specialize (Hall x expires Hx Hh He). lia.
  - intros u expires Hin Hh He Hlt Hpw.
    assert (Hu : by_reset_token (sha256_hex resettoken) now u = true).
    { apply by_reset_token_true. split; [assumption|]. now exists expires. }
    destruct (find_exists _ _ _ Hin Hu) as (y & Hy).
    rewrite (resetPassword_redeems cfg _ _ _ _ _ _ _ _ Hy Hpw). eauto.
  - intros now0 d. cbn. repeat split.
  - intros now0 email u Hnd Hfresh Hf.
    exists (updateOne (_id u) (fun _ => issued u (sha256_hex resettoken) now0) s).
    split; [apply forgotPassword_issues; assumption|].
    pose proof (find_some _ _ Hf) as [Hin _].
    split.
    + intros Hle. apply resetPassword_no_candidate. apply find_none_iff.
      intros x Hx.
      destruct (in_updateOne _ _ _ _ Hnd Hx) as [(y & _ & _ & ->)|[Hxs _]].
      * unfold by_reset_token, issued. cbn.
        rewrite String.eqb_refl. cbn. apply Z.ltb_ge. lia.
      * destruct (by_reset_token _ now x) eqn:Hbx; [|reflexivity].
        apply by_reset_token_true in Hbx. destruct Hbx as [Hh _].
        now elim (Hfresh x Hxs).
    + intros Hlt Hpw.
      set (u1 := issued u (sha256_hex resettoken) now0).
      assert (Hin1 : In u1 (updateOne (_id u) (fun _ => u1) s)).
      { exact (updateOne_in (fun _ => u1) u s Hnd Hin). }
      assert (Hu1 : by_reset_token (sha256_hex resettoken) now u1 = true).
      { unfold by_reset_token, u1, issued. cbn.
        rewrite String.eqb_refl. cbn. apply Z.ltb_lt. lia. }
      destruct (find_exists _ _ _ Hin1 Hu1) as (y & Hy).
      rewrite (resetPassword_redeems cfg _ _ _ _ _ _ _ _ Hy Hpw). eauto.
Qed.

End TicketFacts.

Section TicketOnScenario.
Import Http UserModel Collection AuthController Scenario Vocabulary.
#[local] Existing Instance Fixture.externals.

(** The collection that holds Ann and her ticket meets the two
    conditions on collections. *)
Lemma scenario_distinct_ids : distinct_ids [ann_with_ticket].
Proof.
  unfold distinct_ids. cbn. constructor; [intros [] | constructor].
Defined.

Lemma scenario_digest_held_once :
  digest_held_once (sha256_hex "beef") [ann_with_ticket].
Proof.
  intros u1 u2 [<-|[]] [<-|[]] _ _. reflexivity.
Defined.

(** The theorem on the redemption of Ann's ticket at 1700000500000 ms. *)
Lemma reset_ticket_is_single_use_witness :
  (forall s' e,
      resetPassword Fixture.cfg "salt3" 1700000500000 1700000500000 1700000500000
                    "beef" "Another@789" [ann_with_ticket] = (s', Next e) ->
      s' = [ann_with_ticket])
  /\ (forall u expires,
         In u [ann_with_ticket] ->
         passwordResetToken u = Some (sha256_hex "beef") ->
         passwordResetExpires u = Some expires ->
         expires <= 1700000500000 ->
         resetPassword Fixture.cfg "salt3" 1700000500000 1700000500000 1700000500000
                       "beef" "Another@789" [ann_with_ticket]
         = ([ann_with_ticket], Next (ApiError 400 "Invalid or expired token")))
  /\ (forall s' status body,
         resetPassword Fixture.cfg "salt3" 1700000500000 1700000500000 1700000500000
                       "beef" "Another@789" [ann_with_ticket]
         = (s', Json status body) ->
         exists u u',
           find (by_reset_token (sha256_hex "beef") 1700000500000) [ann_with_ticket]
           = Some u /\
           find (fun x => Nat.eqb (_id x) (_id u)) s' = Some u' /\
           passwordResetToken u' = None /\
           passwordResetExpires u' = None /\
           forall entropy' now' tsave' tsign' pw',
             resetPassword Fixture.cfg entropy' now' tsave' tsign' "beef" pw' s'
             = (s', Next (ApiError 400 "Invalid or expired token"))).
Proof.
  exact (reset_ticket_is_single_use Fixture.cfg "salt3"
           1700000500000 1700000500000 1700000500000 "beef" "Another@789"
           [ann_with_ticket] scenario_distinct_ids scenario_digest_held_once).
Defined.

(** The recorded run: the ticket issued at 1700000400000 ms expires at
    1700001000000 ms; it is redeemed once at 1700000500000 ms; the same
    plaintext is then turned down, and so is the unredeemed ticket at its
    expiry, which leaves the stored digest and expiry in place. *)
Example ticket_redeemed_once :
  fst ticket_issued = [ann_with_ticket]
  /\ snd ticket_redeemed
     = Json 200 (TokenBody "Password reset successful"
         "development_secret_key_change_in_production.1.user.1700000500.1700086900")
  /\ option_map passwordResetToken (hd_error (fst ticket_redeemed)) = Some None
  /\ option_map passwordResetExpires (hd_error (fst ticket_redeemed)) = Some None
  /\ resetPassword Fixture.cfg "salt4" 1700000600000 1700000600000 1700000600000
                   "beef" "YetAnother@1" (fst ticket_redeemed)
     = (fst ticket_redeemed, Next (ApiError 400 "Invalid or expired token"))
  /\ resetPassword Fixture.cfg "salt3" 1700001000000 1700001000000 1700001000000
                   "beef" "Another@789" [ann_with_ticket]
     = ([ann_with_ticket], Next (ApiError 400 "Invalid or expired token")).
Proof. by_evaluation. Qed.

End TicketOnScenario.

(** ** Sanitizing *)
Section SanitizeFacts.
Import CryptoUtils UtilityVocabulary.

Lemma chars_append (a b : string) : chars (a ++ b) = (chars a ++ chars b)%list.
Proof.
  unfold chars. induction a as [|x a IH]; cbn; [reflexivity | now rewrite IH].
Qed.

Lemma replaceAll_append (c : ascii) (r a b : string) :
  replaceAll c r (a ++ b) = replaceAll c r a ++ replaceAll c r b.
Proof.
  induction a as [|x a IH]; cbn; [reflexivity|].
  rewrite IH. destruct (Ascii.eqb x c); [now rewrite append_assoc | reflexivity].
Qed.

Lemma sanitizeString_append (a b : string) :
  sanitizeString (a ++ b) = sanitizeString a ++ sanitizeString b.
Proof. unfold sanitizeString. now rewrite !replaceAll_append. Qed.

(** On one character the chain of replacements gives its entity. *)
Lemma sanitizeString_one (c : ascii) : sanitizeString (String c "") = escape c.
Proof.
  destruct c as [[] [] [] [] [] [] [] []]; reflexivity.
Qed.

Lemma escape_not_special (c : ascii) : forallb (fun x => negb (special x)) (chars (escape c)) = special c || true.
Proof.
  destruct c as [[] [] [] [] [] [] [] []]; reflexivity.
Qed.

Lemma escape_plain (c : ascii) : special c = false -> escape c = String c "".
Proof.
  destruct c as [[] [] [] [] [] [] [] []]; cbn; intros H;
    solve [reflexivity | discriminate].
Qed.

Lemma sanitizeString_escapeAll (s : string) : sanitizeString s = escapeAll s.
Proof.
  induction s as [|c s IH]; [reflexivity|].
  change (String c s) with (String c "" ++ s).
  now rewrite sanitizeString_append, sanitizeString_one, IH.
Qed.

(** X2: the five successive global replacements act as one pass that
    maps each character to its entity: the entities inserted by an
    earlier replacement are not touched by a later one, and sanitizing
    distributes over concatenation. *)
Theorem sanitizeString_is_one_pass (s a b : string) :
  sanitizeString s = escapeAll s
  /\ sanitizeString (a ++ b) = sanitizeString a ++ sanitizeString b.
Proof.
  split; [apply sanitizeString_escapeAll | apply sanitizeString_append].
Qed.

Lemma escapeAll_clean (s : string) :
  forallb (fun x => negb (special x)) (chars (escapeAll s)) = true.
Proof.
  induction s as [|c s IH]; [reflexivity|].
  cbn [escapeAll]. rewrite chars_append, forallb_app, IH, escape_not_special.
  now rewrite orb_true_r.
Qed.

Lemma escapeAll_plain (s : string) :
  forallb (fun x => negb (special x)) (chars s) = true -> escapeAll s = s.
Proof.
  induction s as [|c s IH]; [reflexivity|].
  cbn. intros H. apply andb_prop in H. destruct H as [Hc Hs].
  apply negb_true_iff in Hc. rewrite (escape_plain c Hc), (IH Hs). reflexivity.
Qed.

(** X1: the result of [sanitizeInput] on a string contains none of the
    characters <, >, double quote, single quote and slash; a string that
    contains none of them is returned as it is; hence sanitizing twice is
    sanitizing once; a value that is not a string is returned as it
    is. *)
Theorem sanitizeInput_removes_special_characters (v : Value) (s : string) :
  Forall (fun c => special c = false) (chars (sanitizeString s))
  /\ (Forall (fun c => special c = false) (chars s) -> sanitizeString s = s)
  /\ sanitizeInput (sanitizeInput v) = sanitizeInput v
  /\ ((forall t, v <> VString t) -> sanitizeInput v = v).
Proof.
  pose proof sanitizeString_escapeAll as Hone.
  assert (Hclean : forall t, forallb (fun x => negb (special x)) (chars t) = true <->
                             Forall (fun c => special c = false) (chars t)).
  { intros t. rewrite forallb_forall, Forall_forall.
    split; intros H x Hx; specialize (H x Hx);
      [now apply negb_true_iff | now apply negb_true_iff]. }
  split; [|split; [|split]].
  - apply Hclean. rewrite Hone. apply escapeAll_clean.
  - intros H. rewrite Hone. apply escapeAll_plain. now apply Hclean.
  - destruct v; cbn; try reflexivity.
    f_equal. rewrite !Hone. apply escapeAll_plain. apply escapeAll_clean.
  - intros H. destruct v; try reflexivity. now elim (H s0).
Qed.

End SanitizeFacts.

(** ** Random strings and header parsing *)
Section TokenShapeFacts.
Import Http CryptoUtils TokenUtils UtilityVocabulary.

Lemma length_append (a b : string) :
  String.length (a ++ b) = (String.length a + String.length b)%nat.
Proof. induction a as [|x a IH]; cbn; [reflexivity | now rewrite IH]. Qed.

Lemma hex_of_byte_shape (b : Byte.byte) :
  String.length (hex_of_byte b) = 2%nat /\ forallb is_hex (chars (hex_of_byte b)) = true.
Proof. destruct b; split; reflexivity. Qed.

Lemma toString_hex_shape (bytes : list Byte.byte) :
  String.length (toString_hex bytes) = (2 * List.length bytes)%nat
  /\ forallb is_hex (chars (toString_hex bytes)) = true.
Proof.
  induction bytes as [|b bytes [IHl IHh]]; [split; reflexivity|].
  destruct (hex_of_byte_shape b) as [Hl Hh].
  cbn [toString_hex]. split.
  - rewrite length_append, Hl, IHl. cbn [List.length]. lia.
  - now rewrite chars_append, forallb_app, Hh, IHh.
Qed.

Lemma substring_length_le (start n : nat) (s : string) :
  (String.length (String.substring start n s) <= n)%nat.
Proof.
  revert start n. induction s as [|c s IH]; intros start n.
  - destruct start, n; cbn; lia.
  - destruct start as [|start].
    + destruct n as [|n]; cbn; [lia|]. specialize (IH 0%nat n). lia.
    + cbn. apply IH.
Qed.

(** X3: when [crypto.randomBytes(length)] returns its [length] bytes,
    [generateRandomString(length)] is a string of 2 * [length] lower-case
    hexadecimal digits (twice the length asked for); when it throws, the
    fallback gives at most [length] characters.  [generateResetToken],
    from 32 random bytes, returns a 64-digit token, the SHA-256 digest of
    that token and the expiry now + 600000 ms. *)
Theorem random_strings_are_hex_of_twice_the_length
    {E : Externals} (length : nat) (bytes : list Byte.byte) (error : Err)
    (mathRandom : string) (now : Z) :
  List.length bytes = length ->
  (String.length (generateRandomString length (Ok bytes) mathRandom) = (2 * length)%nat
   /\ forallb is_hex (chars (generateRandomString length (Ok bytes) mathRandom)) = true)
  /\ (String.length (generateRandomString length (Throw error) mathRandom) <= length)%nat
  /\ (length = 32%nat ->
      String.length (resetToken (generateResetToken bytes now)) = 64%nat
      /\ forallb is_hex (chars (resetToken (generateResetToken bytes now))) = true
      /\ hashedToken (generateResetToken bytes now)
         = sha256_hex (resetToken (generateResetToken bytes now))
      /\ resetExpires (generateResetToken bytes now) = now + 600000).
Proof.
  intros Hlen. destruct (toString_hex_shape bytes) as [Hl Hh].
  split; [|split].
  - cbn [generateRandomString]. rewrite Hl, Hlen. now split.
  - apply substring_length_le.
  - intros H32. cbn [generateResetToken resetToken hashedToken resetExpires].
    rewrite Hl, Hlen, H32. repeat split; solve [assumption | lia].
Qed.

Lemma append_empty_r (s : string) : s ++ "" = s.
Proof. induction s as [|x s IH]; cbn; [reflexivity | now rewrite IH]. Qed.

(** The pieces of a split, when the first has no separator. *)
Lemma split_acc_no_sep (sep : ascii) (a rest cur : string) :
  ~ In sep (chars a) ->
  JS.split_acc sep (a ++ String sep rest) cur = (cur ++ a) :: JS.split_acc sep rest "".
Proof.
  revert cur. induction a as [|x a IH]; intros cur Hno.
  - cbn. rewrite Ascii.eqb_refl. now rewrite append_empty_r.
  - cbn. destruct (Ascii.eqb_spec x sep) as [->|Hne].
    + elim Hno. now left.
    + rewrite IH by (intros H; apply Hno; now right).
      now rewrite append_assoc.
Qed.

(** A string without the separator is one piece. *)
Lemma split_acc_whole (sep : ascii) (s : string) :
  ~ In sep (chars s) -> JS.split_acc sep s "" = [s].
Proof.
  assert (H : forall cur, ~ In sep (chars s) -> JS.split_acc sep s cur = [cur ++ s]).
  { induction s as [|x s IH]; intros cur Hno; cbn.
    - now rewrite append_empty_r.
    - destruct (Ascii.eqb_spec x sep) as [->|Hne]; [elim Hno; now left|].
      rewrite IH by (intros H; apply Hno; now right).
      now rewrite append_assoc. }
  intros Hno. now rewrite H.
Qed.

Lemma split_acc_head (sep : ascii) (s cur : string) :
  exists piece pieces, JS.split_acc sep s cur = piece :: pieces.
Proof.
  revert cur. induction s as [|x s IH]; intros cur; cbn; [eauto|].
  destruct (Ascii.eqb x sep); [eauto | apply IH].
Qed.

(** Every piece of a split is free of the separator (given that the
    piece under construction is). *)
Lemma split_acc_pieces (sep : ascii) (s cur : string) :
  ~ In sep (chars cur) ->
  Forall (fun piece => ~ In sep (chars piece)) (JS.split_acc sep s cur).
Proof.
  revert cur. induction s as [|x s IH]; intros cur Hcur; cbn.
  - now constructor.
  - destruct (Ascii.eqb_spec x sep) as [->|Hne].
    + constructor; [assumption|]. apply IH. cbn. tauto.
    + apply IH. rewrite chars_append. intros H. apply in_app_or in H.
      destruct H as [H|[H|[]]]; [now apply Hcur | congruence].
Qed.

Lemma prefix_of_append (p a b : string) :
  String.prefix p a = true -> String.prefix p (a ++ b) = true.
Proof.
  revert a. induction p as [|x p IH]; intros a; [now destruct (a ++ b)|].
  destruct a as [|y a]; cbn; [discriminate|].
  destruct (ascii_dec x y); [apply IH | discriminate].
Qed.

(** X4: [extractTokenFromHeader] (and the same lines in [protect])
    return what stands between the first and the second space of a header
    that starts with 'Bearer': for a first word [scheme] that starts with
    'Bearer' and a token without a space, the header
    [scheme ++ " " ++ token], with or without further words, gives back
    [token]; the scheme need not be the word 'Bearer' itself; and whatever
    is returned contains no space. *)
Theorem extractTokenFromHeader_round_trip
    (scheme token more : string) (header : option string) (found : string) :
  (JS.startsWith scheme "Bearer" = true ->
   ~ In " "%char (chars scheme) ->
   ~ In " "%char (chars token) ->
   extractTokenFromHeader (Some (scheme ++ " " ++ token)) = Some token
   /\ extractTokenFromHeader (Some (scheme ++ " " ++ token ++ " " ++ more)) = Some token)
  /\ (extractTokenFromHeader header = Some found -> ~ In " "%char (chars found))
  /\ (forall req, AuthMiddleware.bearer_token req
                  = extractTokenFromHeader (AuthMiddleware.authorization req)).
Proof.
  split; [|split].
  - intros Hb Hs Ht.
    assert (Htruthy : forall rest, JS.truthy (scheme ++ rest) = true).
    { intros rest. destruct scheme; [discriminate Hb | reflexivity]. }
    assert (Hstart : forall rest, JS.startsWith (scheme ++ rest) "Bearer" = true).
    { intros rest. now apply prefix_of_append. }
    unfold extractTokenFromHeader. rewrite !Htruthy, !Hstart. cbn [andb].
    unfold JS.split. change (" " ++ ?x) with (String " " x).
    split.
    + rewrite (split_acc_no_sep " " scheme token "" Hs).
      cbn [nth_error]. now rewrite (split_acc_whole " " token Ht).
    + rewrite (split_acc_no_sep " " scheme _ "" Hs).
      change (token ++ " " ++ more) with (token ++ String " " more).
      rewrite (split_acc_no_sep " " token more "" Ht). reflexivity.
  - unfold extractTokenFromHeader. destruct header as [h|]; [|discriminate].
    destruct (_ && _); [|discriminate].
    intros Hn. unfold JS.split in Hn.
    pose proof (split_acc_pieces " " h "" (fun H => H)) as Hall.
    rewrite Forall_forall in Hall. apply Hall. eapply nth_error_In. exact Hn.
  - reflexivity.
Qed.

End TokenShapeFacts.

(** ** The authorization gate, again *)
Section AuthorizeCore.
Import Http UserModel AuthMiddleware Vocabulary.

(** What [authorize] passes is permitted. *)
Lemma authorize_fails_closed_core (roles : list string) (req : Request) :
  match authorize roles req with
  | NextOk req' => permitted roles req
  | NextErr e => True
  end.
Proof.
  unfold authorize, permitted.
  destruct (user req) as [u|] eqn:Hu; [|exact I].
  destruct (role u) as [r|] eqn:Hr; [|exact I].
  destruct (JS.truthy r) eqn:Ht; cbn [negb]; [|exact I].
  destruct (includes roles r) eqn:Hi; cbn [negb]; [|exact I].
  exists u, r. repeat split; try assumption.
  - now apply truthy_true.
  - now apply includes_In.
Qed.

(** [authorize] passes the request on as it received it. *)
Lemma authorize_passes_unchanged (roles : list string) (req req' : Request) :
  authorize roles req = NextOk req' -> req' = req.
Proof.
  unfold authorize.
  destruct (user req) as [u|]; [|discriminate].
  destruct (role u) as [r|]; [|discriminate].
  destruct (negb (JS.truthy r)); [discriminate|].
  destruct (negb (includes roles r)); [discriminate|].
  now intros H; injection H as <-.
Qed.

End AuthorizeCore.

(** ** What passing the gates means *)
Section PipelineFacts.
Import Http UserModel Collection AuthMiddleware Vocabulary.
Context {E : Externals}.
Variable cfg : Config.Config.

(** A request that [protect] lets through presented a token that
    verified and named a stored, active identity; the request goes on with
    that identity attached, stripped of its password. *)
Lemma protect_passed_inv (s : Store) (now : Z) (req req' : Request) :
  protect cfg s now req = NextOk req' ->
  exists token claims u,
    presents req token /\
    jwt_verify token (Config.secret (Config.jwt cfg)) now = Decoded claims /\
    find (fun x => Nat.eqb (_id x) (claim_id claims)) s = Some u /\
    isActive u = true /\
    req' = {| authorization := authorization req; user := Some (with_password u None) |}.
Proof.
  unfold protect. destruct (bearer_token req) as [token|] eqn:Hb; [|discriminate].
  destruct (JS.truthy token) eqn:Ht; cbn [negb]; [|discriminate].
  destruct (jwt_verify token _ now) as [claims|name] eqn:Hv.
  - unfold findById, findOne.
    destruct (find _ s) as [u|] eqn:Hf; cbn [option_map]; [|discriminate].
    cbn [hydrate this]. replace (isActive (with_password u None)) with (isActive u) by reflexivity.
    destruct (isActive u) eqn:Ha; cbn [negb]; [|discriminate].
    intros H. injection H as <-. exists token, claims, u.
    repeat split; try assumption. now apply truthy_true.
  - destruct (String.eqb name "JsonWebTokenError"); [discriminate|].
    destruct (String.eqb name "TokenExpiredError"); discriminate.
Qed.

(** X5: [protect] calls [next()] exactly when the request presents a
    non-empty bearer token that verifies and whose [id] names a stored
    identity that is active.  The identity it attaches is the stored one
    without its password digest; the header is left as it was; the
    [role] claim of the token is not read. *)
Theorem protect_attaches_the_stored_identity
    (s : Store) (now : Z) (req : Request) :
  (forall req', protect cfg s now req = NextOk req' ->
     exists token claims u,
       presents req token /\
       jwt_verify token (Config.secret (Config.jwt cfg)) now = Decoded claims /\
       find (fun x => Nat.eqb (_id x) (claim_id claims)) s = Some u /\
       isActive u = true /\
       authorization req' = authorization req /\
       user req' = Some (with_password u None) /\
       password (with_password u None) = None /\
       role (with_password u None) = role u)
  /\ (forall token claims u,
        presents req token ->
        jwt_verify token (Config.secret (Config.jwt cfg)) now = Decoded claims ->
        find (fun x => Nat.eqb (_id x) (claim_id claims)) s = Some u ->
        isActive u = true ->
        protect cfg s now req
        = NextOk {| authorization := authorization req;
                    user := Some (with_password u None) |}).
Proof.
  split.
  - intros req' H.
    destruct (protect_passed_inv s now req req' H) as (token & claims & u & Hp & Hv & Hf & Ha & ->).
    exists token, claims, u.
    repeat (split; [solve [assumption | reflexivity]|]). reflexivity.
  - intros token claims u Hp Hv Hf Ha.
    apply (protect_accepts cfg s now req token claims (hydrate false u)); try assumption.
    unfold findById, findOne. now rewrite Hf.
Qed.

(** X6: the two gates in sequence, as the administration routes chain
    them: a request passes [protect] and then [authorize(...roles)]
    exactly when its token verifies and names a stored active identity
    whose stored role is a non-empty member of [roles].  The decision
    rests on the role stored at the time of the request, whatever role
    the token was issued with. *)
Theorem protect_then_authorize
    (roles : list string) (s : Store) (now : Z) (req : Request) :
  (exists req', protect cfg s now req = NextOk req' /\ authorize roles req' = NextOk req')
  <-> (exists token claims u r,
          presents req token /\
          jwt_verify token (Config.secret (Config.jwt cfg)) now = Decoded claims /\
          find (fun x => Nat.eqb (_id x) (claim_id claims)) s = Some u /\
          isActive u = true /\
          role u = Some r /\ r <> "" /\ In r roles).
Proof.
  split.
  - intros (req' & Hp & Ha).
    destruct (protect_passed_inv s now req req' Hp)
      as (token & claims & u & Hpr & Hv & Hf & Hact & ->).
    pose proof (authorize_fails_closed_core roles
                  {| authorization := authorization req;
                     user := Some (with_password u None) |}) as Hc.
    rewrite Ha in Hc. destruct Hc as (u' & r & Hu & Hr & Hne & Hin).
    cbn in Hu. injection Hu as <-. exists token, claims, u, r.
    repeat (split; [assumption|]). assumption.
  - intros (token & claims & u & r & Hpr & Hv & Hf & Hact & Hr & Hne & Hin).
    eexists. split.
    + apply (protect_accepts cfg s now req token claims (hydrate false u));
        try assumption. unfold findById, findOne. now rewrite Hf.
    + cbn [hydrate this]. unfold authorize. cbn [user role with_password].
      rewrite Hr. apply truthy_true in Hne. rewrite Hne. cbn [negb].
      apply includes_In in Hin. now rewrite Hin.
Qed.

End PipelineFacts.

(** ** Routing *)
Section RouteFacts.
Import Http UserModel Collection AuthMiddleware Vocabulary Routes.
Context {E : Externals}.
Variable accepts : Validator.t -> Request -> bool.
Variable cfg : Config.Config.

(** Whatever matches PUT /profile matches PUT /:id, declared before
    it. *)
Lemma profile_is_shadowed (m : Method) (segments : list string) :
  route_matches m segments (mkRoute PUT [Lit "profile"] []) = true ->
  route_matches m segments (mkRoute PUT [Param "id"] []) = true.
Proof.
  unfold route_matches. cbn [method path].
  destruct (method_eqb PUT m); [|discriminate]. cbn [andb].
  destruct segments as [|x [|y rest]]; cbn; intros H.
  - discriminate.
  - reflexivity.
  - rewrite andb_false_r in H. discriminate.
Qed.

Lemma find_user_route (m : Method) (segments : list string) (r : Route) :
  find (route_matches m segments) userRoutes = Some r ->
  In r selectable_user_routes.
Proof.
  unfold selectable_user_routes, userRoutes. cbn [find firstn].
  do 5 (match goal with
        | |- (if ?b then _ else _) = _ -> _ =>
            destruct b eqn:?; [intros Hr; injection Hr as <-; cbn; tauto|]
        end).
  match goal with
  | |- (if ?b then _ else _) = _ -> _ => destruct b eqn:H6; [|discriminate]
  end.
  exfalso.
  match goal with
  | H4 : route_matches m segments (mkRoute PUT [Param "id"] _) = false |- _ =>
      assert (Hs : route_matches m segments (mkRoute PUT [Param "id"] []) = false)
        by exact H4
  end.
  apply (profile_is_shadowed m segments) in H6.
  congruence.
Qed.

(** The stack a request is dispatched to is the stack of a route of the
    authentication router or of a selectable route of the user router. *)
Lemma dispatch_stack (m : Method) (segments : list string) (hs : list Handler) :
  dispatch m segments = Stack hs ->
  exists r, In r (authRoutes ++ selectable_user_routes) /\ hs = stack r.
Proof.
  unfold dispatch.
  destruct (mounted "api" "auth" segments) as [rest|].
  - destruct (find (route_matches m rest) authRoutes) as [r|] eqn:Hf.
    + intros H. injection H as <-. exists r. split; [|reflexivity].
      apply in_or_app. left. apply (find_some _ _ Hf).
    + destruct (mounted "api" "users" segments) as [rest'|].
      * destruct (find (route_matches m rest') userRoutes) as [r|] eqn:Hu.
        -- intros H. injection H as <-. exists r. split; [|reflexivity].
           apply in_or_app. right. apply (find_user_route _ _ _ Hu).
        -- destruct (_ && _); discriminate.
      * destruct (_ && _); discriminate.
  - destruct (mounted "api" "users" segments) as [rest'|].
    + destruct (find (route_matches m rest') userRoutes) as [r|] eqn:Hu.
      * intros H. injection H as <-. exists r. split; [|reflexivity].
        apply in_or_app. right. apply (find_user_route _ _ _ Hu).
      * destruct (_ && _); discriminate.
    + destruct (_ && _); discriminate.
Qed.

(** How a controller is reached: directly for the public ones; through
    [protect] for the others, and also through [authorize('admin')] for
    the administrative ones.  [updateProfile] is not reached. *)
Lemma reached_inv (s : Store) (now : Z) (m : Method) (segments : list string)
      (hs : list Handler) (req req' : Request) (c : Controller.t) :
  dispatch m segments = Stack hs ->
  run_stack accepts cfg s now hs req = Reached c req' ->
  c <> Controller.updateProfile /\
  (if public c then req' = req
   else protect cfg s now req = NextOk req' /\
        (if administrative c then authorize ["admin"] req' = NextOk req' else True)).
Proof.
  intros Hd Hr. destruct (dispatch_stack m segments hs Hd) as (r & Hin & ->).
  unfold authRoutes, selectable_user_routes, userRoutes in Hin.
  cbn [firstn app In] in Hin.
  repeat (destruct Hin as [<-|Hin]); try contradiction;
    cbn [stack run_stack] in Hr;
    repeat match type of Hr with
           | (if ?b then _ else _) = _ => destruct b; [|discriminate]
           | match protect ?c ?s ?n ?q with _ => _ end = _ =>
               let Hp := fresh "Hp" in
               destruct (protect c s n q) as [?req1|?] eqn:Hp; [|discriminate]
           | match authorize ?roles ?q with _ => _ end = _ =>
               let Ha := fresh "Ha" in
               destruct (authorize roles q) as [?req2|?] eqn:Ha; [|discriminate]
           end;
    injection Hr as <- <-; (split; [discriminate|]); cbn [public administrative];
    try reflexivity; try (split; [assumption | exact I]).
  all: try (split; [reflexivity | exact I]).
  all: match goal with
       | Ha : authorize _ _ = NextOk _ |- _ =>
           pose proof (authorize_passes_unchanged _ _ _ Ha); subst
       end; split; [reflexivity | assumption].
Qed.

End RouteFacts.

Section RouteTheorems.
Import Http UserModel Collection AuthMiddleware Vocabulary Routes.
Context {E : Externals}.
Variable accepts : Validator.t -> Request -> bool.
Variable cfg : Config.Config.

(** X7: whatever the method and the path, a controller other than
    [register], [login], [forgotPassword] and [resetPassword] is called
    only for a request that [protect] let through: it presented a token
    that verified and named a stored active identity, and that identity,
    without its password, is the [req.user] the controller finds. *)
Theorem controllers_run_behind_protect
    (s : Store) (now : Z) (m : Method) (segments : list string)
    (hs : list Handler) (req req' : Request) (c : Controller.t) :
  dispatch m segments = Stack hs ->
  run_stack accepts cfg s now hs req = Reached c req' ->
  public c = false ->
  exists token claims u,
    presents req token /\
    jwt_verify token (Config.secret (Config.jwt cfg)) now = Decoded claims /\
    find (fun x => Nat.eqb (_id x) (claim_id claims)) s = Some u /\
    isActive u = true /\
    user req' = Some (with_password u None).
Proof.
  intros Hd Hr Hpub.
  destruct (reached_inv accepts cfg s now m segments hs req req' c Hd Hr) as [_ H].
  rewrite Hpub in H. destruct H as [Hp _].
  destruct (protect_passed_inv cfg s now req req' Hp)
    as (token & claims & u & Hpr & Hv & Hf & Ha & ->).
  exists token, claims, u. repeat (split; [assumption|]). reflexivity.
Qed.

(** X8: whatever the method and the path, [getUsers], [getUserById],
    [createUser], [updateUser] and [deleteUser] are called only for a
    request whose token names a stored active identity with the stored
    role 'admin'. *)
Theorem administration_requires_stored_admin_role
    (s : Store) (now : Z) (m : Method) (segments : list string)
    (hs : list Handler) (req req' : Request) (c : Controller.t) :
  dispatch m segments = Stack hs ->
  run_stack accepts cfg s now hs req = Reached c req' ->
  administrative c = true ->
  exists token claims u,
    presents req token /\
    jwt_verify token (Config.secret (Config.jwt cfg)) now = Decoded claims /\
    find (fun x => Nat.eqb (_id x) (claim_id claims)) s = Some u /\
    isActive u = true /\
    role u = Some "admin" /\
    user req' = Some (with_password u None).
Proof.
  intros Hd Hr Hadm.
  destruct (reached_inv accepts cfg s now m segments hs req req' c Hd Hr) as [_ H].
  assert (Hpub : public c = false) by (destruct c; try discriminate; reflexivity).
  rewrite Hpub, Hadm in H. destruct H as [Hp Ha].
  destruct (protect_passed_inv cfg s now req req' Hp)
    as (token & claims & u & Hpr & Hv & Hf & Hact & ->).
  pose proof (authorize_fails_closed_core ["admin"]
                {| authorization := authorization req;
                   user := Some (with_password u None) |}) as Hc.
  rewrite Ha in Hc. destruct Hc as (u' & r & Hu & Hrole & _ & Hin).
  cbn in Hu. injection Hu as <-. cbn in Hrole.
  destruct Hin as [<-|[]].
  exists token, claims, u. repeat (split; [assumption|]). reflexivity.
Qed.

(** X9: the route PUT /profile of the user router is declared after PUT
    /:id, which matches the same requests: no request is dispatched to a
    stack that holds [updateProfile]; PUT /api/users/profile runs the
    stack of PUT /:id; and there a request that [protect] lets through
    with a stored role other than 'admin' is turned down by
    [authorize('admin')] with 403. *)
Theorem profile_route_is_shadowed :
  (forall m segments hs,
      dispatch m segments = Stack hs -> ~ In (Handle Controller.updateProfile) hs)
  /\ dispatch PUT ["api"; "users"; "profile"]
     = Stack [Protect; Authorize ["admin"];
              Validate Validator.updateUserValidation; Handle Controller.updateUser]
  /\ (forall s now req req1 u r,
         protect cfg s now req = NextOk req1 ->
         user req1 = Some u -> role u = Some r -> r <> "" -> r <> "admin" ->
         run_stack accepts cfg s now
                   [Protect; Authorize ["admin"];
                    Validate Validator.updateUserValidation; Handle Controller.updateUser]
                   req
         = Rejected (ApiError 403 ("Role " ++ r ++ " is not authorized to access this resource"))).
Proof.
  split; [|split].
  - intros m segments hs Hd Hin.
    destruct (dispatch_stack m segments hs Hd) as (r & Hr & ->).
    unfold authRoutes, selectable_user_routes, userRoutes in Hr.
    cbn [firstn app In] in Hr.
    repeat (destruct Hr as [<-|Hr]); try contradiction;
      cbn in Hin; intuition discriminate.
  - reflexivity.
  - intros s now req req1 u r Hp Hu Hr Hne Hna.
    cbn [run_stack]. rewrite Hp. unfold authorize. rewrite Hu, Hr.
    apply truthy_true in Hne. rewrite Hne. cbn [negb].
    assert (Hi : includes ["admin"] r = false).
    { unfold includes. cbn. apply String.eqb_neq in Hna. now rewrite Hna. }
    now rewrite Hi.
Qed.

End RouteTheorems.

(** ** The collection, continued *)
Section CollectionFacts2.
Import Http UserModel Collection Vocabulary.

(** With distinct ids a stored document is the one its id finds. *)
Lemma find_by_id (u : User) (s : Store) :
  distinct_ids s -> In u s ->
  find (fun x => Nat.eqb (_id x) (_id u)) s = Some u.
Proof.
  unfold distinct_ids. intros Hnd Hin.
  induction s as [|a s IH]; [contradiction|].
  cbn in Hnd. inversion Hnd as [|? ? Hnotin Hnd']; subst.
  cbn [find]. destruct (Nat.eqb_spec (_id a) (_id u)) as [Heq|Hne].
  - destruct Hin as [->|Hin]; [reflexivity|].
    elim Hnotin. rewrite Heq. now apply id_in_map.
  - destruct Hin as [->|Hin]; [now elim Hne|]. now apply IH.
Qed.

Lemma find_by_id_inv (id : nat) (u : User) (s : Store) :
  find (fun x => Nat.eqb (_id x) id) s = Some u -> In u s /\ _id u = id.
Proof.
  intros H. apply find_some in H. destruct H as [Hin Hid].
  split; [assumption | now apply Nat.eqb_eq].
Qed.

(** A projection that the rewriting keeps is kept on the collection. *)
Lemma map_updateOne {A : Type} (h : User -> A) (f : User -> User) (id : nat) (s : Store) :
  (forall x, In x s -> _id x = id -> h (f x) = h x) ->
  map h (updateOne id f s) = map h s.
Proof.
  induction s as [|a s IH]; intros H; [reflexivity|].
  cbn [updateOne]. destruct (Nat.eqb_spec (_id a) id) as [Heq|Hne]; cbn [map].
  - f_equal. apply H; [now left | assumption].
  - f_equal. apply IH. intros x Hx. apply H. now right.
Qed.

Lemma distinct_ids_updateOne (f : User -> User) (id : nat) (s : Store) :
  (forall x, _id (f x) = _id x) ->
  distinct_ids s -> distinct_ids (updateOne id f s).
Proof.
  unfold distinct_ids. intros Hf Hnd.
  now rewrite (map_updateOne _id f id s) by (intros; apply Hf).
Qed.

(** A member of the updated collection, without any assumption on
    ids. *)
Lemma in_updateOne_weak (f : User -> User) (id : nat) (s : Store) (x : User) :
  In x (updateOne id f s) ->
  In x s \/ exists y, In y s /\ _id y = id /\ x = f y.
Proof.
  induction s as [|a s IH]; cbn [updateOne]; [contradiction|].
  destruct (Nat.eqb_spec (_id a) id) as [Heq|Hne].
  - intros [<-|Hin].
    + right. exists a. repeat split; [now left | assumption].
    + left. now right.
  - intros [<-|Hin].
    + left. now left.
    + destruct (IH Hin) as [Hx|(y & Hy & Hid & ->)].
      * left. now right.
      * right. exists y. repeat split; [now right | assumption].
Qed.

(** A lookup by a filter that the rewriting respects finds the rewritten
    document. *)
Lemma find_updateOne (p : User -> bool) (u u' : User) (s : Store) :
  distinct_ids s ->
  find p s = Some u ->
  p u' = true ->
  find p (updateOne (_id u) (fun _ => u') s) = Some u'.
Proof.
  unfold distinct_ids. intros Hnd Hf Hp.
  induction s as [|a s IH]; [discriminate|].
  cbn in Hnd. inversion Hnd as [|? ? Hnotin Hnd']; subst.
  cbn [find] in Hf. cbn [updateOne].
  destruct (p a) eqn:Hpa.
  - injection Hf as ->. rewrite Nat.eqb_refl. cbn [find]. now rewrite Hp.
  - pose proof (find_some _ _ Hf) as [Hin _].
    destruct (Nat.eqb_spec (_id a) (_id u)) as [Heq|Hne].
    + elim Hnotin. rewrite Heq. now apply id_in_map.
    + cbn [find]. rewrite Hpa. now apply IH.
Qed.

(** Replacing a document by one with the same id keeps ids distinct. *)
Lemma distinct_ids_updateOne_at (u u' : User) (s : Store) :
  distinct_ids s -> _id u' = _id u ->
  distinct_ids (updateOne (_id u) (fun _ => u') s).
Proof.
  unfold distinct_ids. intros Hnd Hid.
  rewrite (map_updateOne _id (fun _ => u') (_id u) s); [assumption|].
  intros x _ Hx. congruence.
Qed.

End CollectionFacts2.

(** ** Changing the password *)
Section UpdatePasswordFacts.
Import Http UserModel Collection AuthController Vocabulary HandlerVocabulary.
Context {E : Externals}.
Variable cfg : Config.Config.

(** The current password verifies and the new one passes the schema:
    the identity is rewritten as [changed]. *)
Lemma updatePassword_changes
    (entropy : string) (tsave tsign : Z) (current new digest : string)
    (u : User) (s : Store) :
  distinct_ids s -> In u s ->
  password u = Some digest ->
  bcrypt_compare current digest = true ->
  (8 <= String.length new)%nat ->
  new <> digest ->
  updatePassword cfg entropy tsave tsign (_id u) current new s
  = (updateOne (_id u) (fun _ => changed u entropy new tsave) s,
     Json 200 (TokenBody "Password updated successfully"
                 (generateAuthToken cfg tsign (changed u entropy new tsave)))).
Proof.
  intros Hnd Hin Hp Hcmp Hlen Hne.
  unfold updatePassword, findById, findOne. rewrite (find_by_id u s Hnd Hin).
  cbn [option_map].
  change (hydrate true u) with (mkDocument u false false).
  cbn [this]. unfold matchPassword. rewrite Hp, Hcmp.
  unfold set_password. cbn [this isNew isModified_password orb].
  rewrite Hp. cbn [opt_string_eqb].
  assert (Hd : String.eqb digest new = false) by (apply String.eqb_neq; congruence).
  rewrite Hd. cbn [negb].
  unfold save, validate. cbn [isModified_password this password with_password].
  rewrite (valid_password new Hlen). cbn [bind].
  unfold hashPassword_hook. cbn [isModified_password negb this password with_password bind].
  unfold passwordChangedAt_hook. cbn [assign isModified_password isNew negb orb].
  unfold write. cbn [assign this isModified_password _id with_password with_passwordChangedAt].
  unfold changed. destruct u; reflexivity.
Qed.

End UpdatePasswordFacts.

Section UpdatePasswordTheorems.
Import Http UserModel Collection AuthController Vocabulary HandlerVocabulary.
Context {E : Externals}.
Variable cfg : Config.Config.

(** A login that finds an active identity whose password verifies
    succeeds and stamps [lastLogin]. *)
Lemma login_succeeds
    (now tsign : Z) (e c digest : string) (u : User) (s : Store) :
  distinct_ids s -> e <> "" -> c <> "" ->
  find (by_email e) s = Some u ->
  password u = Some digest ->
  bcrypt_compare c digest = true ->
  isActive u = true ->
  login cfg now tsign (Some e) (Some c) s
  = (updateOne (_id u) (fun stored => with_lastLogin stored (Some now)) s,
     Json 200 (AuthBody (view u)
                 (generateAuthToken cfg tsign (with_lastLogin u (Some now))))).
Proof.
  intros Hnd He Hc Hf Hp Hcmp Ha.
  apply truthy_true in He. apply truthy_true in Hc.
  unfold login, findOne, matchPassword. rewrite He, Hc, Hf. cbn [negb orb option_map].
  change (hydrate true u) with (mkDocument u false false). cbn [this].
  rewrite Hp, Hcmp, Ha. cbn [negb].
  rewrite save_unmodified by reflexivity.
  f_equal. apply find_some in Hf. destruct Hf as [Hin _].
  apply (write_assigned (fun x => with_lastLogin x (Some now)) u s Hnd Hin);
    now destruct v.
Qed.


(** X11: after a successful [updatePassword] of an active identity, a
    login with its email and the new password succeeds, and a login with
    an old password that the new digest does not verify gets 401 'Invalid
    credentials'. *)
Theorem login_after_updatePassword
    {B : BcryptContract E}
    (entropy : string) (tsave tsign now tsign' : Z)
    (e current new digest : string) (u : User) (s : Store) :
  distinct_ids s -> e <> "" ->
  find (by_email e) s = Some u ->
  isActive u = true ->
  password u = Some digest ->
  bcrypt_compare current digest = true ->
  (8 <= String.length new)%nat -> new <> digest ->
  exists s1 token,
    updatePassword cfg entropy tsave tsign (_id u) current new s
    = (s1, Json 200 (TokenBody "Password updated successfully" token))
    /\ (exists s2 view token',
           login cfg now tsign' (Some e) (Some new) s1
           = (s2, Json 200 (AuthBody view token')))
    /\ (current <> "" ->
        bcrypt_compare current (bcrypt_hash new (bcrypt_genSalt 12 entropy)) = false ->
        login cfg now tsign' (Some e) (Some current) s1
        = (s1, Next (ApiError 401 "Invalid credentials"))).
Proof.
  intros Hnd He Hf Ha Hp Hcmp Hlen Hne.
  pose proof (find_some _ _ Hf) as [Hin Hmail].
  set (u' := changed u entropy new tsave).
  exists (updateOne (_id u) (fun _ => u') s). eexists.
  split; [now apply (updatePassword_changes cfg entropy tsave tsign current new digest)|].
  assert (Hnd' : distinct_ids (updateOne (_id u) (fun _ => u') s)).
  { now apply distinct_ids_updateOne_at. }
  assert (Hf' : find (by_email e) (updateOne (_id u) (fun _ => u') s) = Some u').
  { apply find_updateOne; assumption. }
  assert (Hnew : new <> "").
  { intros ->. cbn in Hlen. lia. }
  split.
  - do 3 eexists.
    apply (login_succeeds now tsign' e new
             (bcrypt_hash new (bcrypt_genSalt 12 entropy)) u'); try assumption.
    + reflexivity.
    + apply compare_hash.
  - intros Hcur Hold.
    apply truthy_true in He. apply truthy_true in Hcur.
    unfold login, findOne, matchPassword. rewrite He, Hcur, Hf'.
    cbn [negb orb option_map].
    change (hydrate true u') with (mkDocument u' false false). cbn [this].
    replace (password u') with (Some (bcrypt_hash new (bcrypt_genSalt 12 entropy)))
      by reflexivity.
    now rewrite Hold.
Qed.

End UpdatePasswordTheorems.

(** ** The life of a reset ticket *)
Section TicketLifecycle.
Import Http UserModel Collection AuthController Vocabulary HandlerVocabulary.
Context {E : Externals}.
Variable cfg : Config.Config.

(** When no stored document passes a filter, the first to pass it after
    a rewriting is the rewritten one. *)
Lemma find_updateOne_fresh (p : User -> bool) (u u' : User) (s : Store) :
  distinct_ids s -> In u s ->
  (forall x, In x s -> p x = false) ->
  p u' = true ->
  find p (updateOne (_id u) (fun _ => u') s) = Some u'.
Proof.
  unfold distinct_ids. intros Hnd Hin Hnone Hp.
  induction s as [|a s IH]; [contradiction|].
  cbn in Hnd. inversion Hnd as [|? ? Hnotin Hnd']; subst.
  cbn [updateOne]. destruct (Nat.eqb_spec (_id a) (_id u)) as [Heq|Hne].
  - cbn [find]. now rewrite Hp.
  - cbn [find]. rewrite (Hnone a) by now left.
    destruct Hin as [->|Hin]; [now elim Hne|].
    apply IH; try assumption. intros x Hx. apply Hnone. now right.
Qed.

Lemma by_reset_token_issued (h : string) (now0 now : Z) (u : User) :
  by_reset_token h now (issued u h now0) = (now <? now0 + 600000).
Proof.
  unfold by_reset_token, issued. cbn. now rewrite String.eqb_refl.
Qed.

Lemma fresh_not_candidate (h : string) (now : Z) (s : Store) :
  digest_fresh h s -> forall x, In x s -> by_reset_token h now x = false.
Proof.
  intros Hfresh x Hx. destruct (by_reset_token h now x) eqn:Hb; [|reflexivity].
  apply by_reset_token_true in Hb. destruct Hb as [Hh _]. now elim (Hfresh x Hx).
Qed.

(** X12: a second [forgotPassword] for the same email overwrites the
    first ticket: with tokens of different digests, the first plaintext is
    turned down from then on, whatever the instant, and the second one
    redeems within its own ten minutes. *)
Theorem newer_ticket_replaces_older
    (r1 r2 e : string) (t1 t2 : Z) (u : User) (s : Store) :
  distinct_ids s ->
  digest_fresh (sha256_hex r1) s ->
  find (by_email e) s = Some u ->
  sha256_hex r1 <> sha256_hex r2 ->
  exists s1 s2,
    forgotPassword r1 t1 e s
    = (s1, Json 200 (ResetTokenBody "Password reset token generated" r1))
    /\ forgotPassword r2 t2 e s1
       = (s2, Json 200 (ResetTokenBody "Password reset token generated" r2))
    /\ (forall entropy now tsave tsign pw,
           resetPassword cfg entropy now tsave tsign r1 pw s2
           = (s2, Next (ApiError 400 "Invalid or expired token")))
    /\ (forall entropy now tsave tsign pw,
           now < t2 + 600000 -> (8 <= String.length pw)%nat ->
           exists s3 token,
             resetPassword cfg entropy now tsave tsign r2 pw s2
             = (s3, Json 200 (TokenBody "Password reset successful" token))).
Proof.
  intros Hnd Hfresh Hf Hdiff.
  pose proof (find_some _ _ Hf) as [Hin Hmail].
  set (h1 := sha256_hex r1) in *. set (h2 := sha256_hex r2) in *.
  set (u1 := issued u h1 t1). set (s1 := updateOne (_id u) (fun _ => u1) s).
  set (u2 := issued u1 h2 t2). set (s2 := updateOne (_id u1) (fun _ => u2) s1).
  assert (Hnd1 : distinct_ids s1) by now apply distinct_ids_updateOne_at.
  assert (Hf1 : find (by_email e) s1 = Some u1) by now apply find_updateOne.
  pose proof (find_some _ _ Hf1) as [Hin1 _].
  exists s1, s2. split; [now apply forgotPassword_issues|].
  split; [now apply forgotPassword_issues|].
  split.
  - intros entropy now tsave tsign pw.
    apply resetPassword_no_candidate. apply find_none_iff. intros x Hx.
    destruct (in_updateOne _ _ _ _ Hnd1 Hx) as [(y & _ & _ & ->)|[Hx1 Hid1]].
    + destruct (by_reset_token h1 now u2) eqn:Hb; [|exact Hb].
      apply by_reset_token_true in Hb. destruct Hb as [Hh _].
      unfold u2, issued in Hh. cbn in Hh. injection Hh as Hh. congruence.
    + destruct (in_updateOne _ _ _ _ Hnd Hx1) as [(y & _ & _ & ->)|[Hxs _]].
      * now elim Hid1.
      * now apply (fresh_not_candidate h1 now s Hfresh).
  - intros entropy now tsave tsign pw Hlt Hpw.
    assert (Hin2 : In u2 s2) by exact (updateOne_in (fun _ => u2) u1 s1 Hnd1 Hin1).
    assert (Hu2 : by_reset_token h2 now u2 = true).
    { unfold u2. rewrite by_reset_token_issued. now apply Z.ltb_lt. }
    destruct (find_exists _ _ _ Hin2 Hu2) as (y & Hy).
    rewrite (resetPassword_redeems cfg _ _ _ _ _ _ _ _ Hy Hpw). eauto.
Qed.

(** X13: the plaintext that [forgotPassword] returns in its response
    redeems: for a stored active identity, requesting a ticket by email,
    redeeming it within ten minutes for a new password and logging in with
    that password all succeed, and no step asks for the previous
    password. *)
Theorem reset_round_trip_ends_in_login
    {B : BcryptContract E}
    (r e pw entropy : string) (t0 now tsave tsign now' tsign' : Z)
    (u : User) (s : Store) :
  distinct_ids s ->
  digest_fresh (sha256_hex r) s ->
  e <> "" ->
  find (by_email e) s = Some u ->
  isActive u = true ->
  now < t0 + 600000 ->
  (8 <= String.length pw)%nat ->
  exists s1 s2 s3 token view token',
    forgotPassword r t0 e s
    = (s1, Json 200 (ResetTokenBody "Password reset token generated" r))
    /\ resetPassword cfg entropy now tsave tsign r pw s1
       = (s2, Json 200 (TokenBody "Password reset successful" token))
    /\ login cfg now' tsign' (Some e) (Some pw) s2
       = (s3, Json 200 (AuthBody view token')).
Proof.
  intros Hnd Hfresh He Hf Ha Hlt Hpw.
  pose proof (find_some _ _ Hf) as [Hin Hmail].
  set (h := sha256_hex r) in *.
  set (u1 := issued u h t0). set (s1 := updateOne (_id u) (fun _ => u1) s).
  set (u2 := redeemed u1 entropy pw tsave).
  set (s2 := updateOne (_id u1) (fun _ => u2) s1).
  assert (Hnd1 : distinct_ids s1) by now apply distinct_ids_updateOne_at.
  assert (Hf1 : find (by_email e) s1 = Some u1) by now apply find_updateOne.
  assert (Hc1 : find (by_reset_token h now) s1 = Some u1).
  { apply find_updateOne_fresh; try assumption.
    - now apply fresh_not_candidate.
    - unfold u1. rewrite by_reset_token_issued. now apply Z.ltb_lt. }
  assert (Hnd2 : distinct_ids s2) by now apply distinct_ids_updateOne_at.
  assert (Hf2 : find (by_email e) s2 = Some u2) by now apply find_updateOne.
  assert (Hne : pw <> "") by (intros ->; cbn in Hpw; lia).
  exists s1, s2. do 4 eexists.
  split; [now apply forgotPassword_issues|].
  split; [exact (resetPassword_redeems cfg entropy now tsave tsign r pw s1 u1 Hc1 Hpw)|].
  apply (login_succeeds cfg now' tsign' e pw
           (bcrypt_hash pw (bcrypt_genSalt 12 entropy)) u2 s2); try assumption.
  - reflexivity.
  - apply compare_hash.
Qed.

(** X14: a redemption with a valid ticket and a new password shorter
    than 8 characters is refused by the schema: the handler forwards a
    [ValidationError], the error handler sends 400 'Validation Error' with
    the validator's messages, and the collection is unchanged, so the
    ticket is not consumed and still redeems. *)
Theorem weak_password_does_not_consume_the_ticket
    (cfg' : Config.Config) (entropy : string) (now tsave tsign : Z)
    (resettoken pw : string) (u : User) (s : Store) :
  find (by_reset_token (sha256_hex resettoken) now) s = Some u ->
  (String.length pw < 8)%nat ->
  exists messages,
    messages <> [] /\
    resetPassword cfg entropy now tsave tsign resettoken pw s
    = (s, Next (ValidationError messages))
    /\ ErrorHandler.status (ErrorHandler.errorHandler cfg' (ValidationError messages)) = 400
    /\ ErrorHandler.message (ErrorHandler.errorHandler cfg' (ValidationError messages))
       = "Validation Error"
    /\ ErrorHandler.details (ErrorHandler.errorHandler cfg' (ValidationError messages))
       = Some (ErrorHandler.DetailList messages)
    /\ (forall entropy' tsave' tsign' pw',
           (8 <= String.length pw')%nat ->
           exists s' token,
             resetPassword cfg entropy' now tsave' tsign' resettoken pw' s
             = (s', Json 200 (TokenBody "Password reset successful" token))).
Proof.
  intros Hf Hlen.
  assert (Hv : validate_password (Some pw) <> []).
  { unfold validate_password. destruct (JS.truthy pw); [|discriminate].
    assert (Hl : Nat.leb 8 (String.length pw) = false) by (apply Nat.leb_gt; lia).
    rewrite Hl. discriminate. }
  exists (validate_password (Some pw)).
  split; [assumption|]. split.
  - unfold resetPassword, findOne. rewrite Hf. cbn [option_map].
    unfold save, validate. cbn -[validate_password].
    destruct (validate_password (Some pw)); [now elim Hv | reflexivity].
  - repeat split.
    intros entropy' tsave' tsign' pw' Hpw'.
    rewrite (resetPassword_redeems cfg _ _ _ _ _ _ _ _ Hf Hpw'). eauto.
Qed.

End TicketLifecycle.

(** ** From registration to the gate *)
Section RegisterToProtect.
Import Http UserModel Collection AuthMiddleware AuthController Vocabulary UtilityVocabulary.
Context {E : Externals}.
Variable cfg : Config.Config.

(** A header made of 'Bearer', a space and a token without space
    presents that token. *)
Lemma bearer_header_presents (token : string) (attached : option User) :
  token <> "" -> ~ In " "%char (chars token) ->
  presents {| authorization := Some ("Bearer " ++ token); user := attached |} token.
Proof.
  intros Hne Hno. split; [|assumption].
  unfold bearer_token. cbn [authorization].
  replace (JS.truthy ("Bearer " ++ token)) with true by reflexivity.
  replace (JS.startsWith ("Bearer " ++ token) "Bearer") with true by reflexivity.
  cbn [andb]. unfold JS.split.
  change ("Bearer " ++ token) with ("Bearer" ++ String " " token).
  rewrite (split_acc_no_sep " " "Bearer" token "").
  - cbn [nth_error]. now rewrite (split_acc_whole " " token Hno).
  - cbn. intuition discriminate.
Qed.

Lemma find_app_fresh (id : nat) (u : User) (s : Store) :
  ~ In id (map _id s) -> _id u = id ->
  find (fun x => Nat.eqb (_id x) id) (s ++ [u]) = Some u.
Proof.
  intros Hfresh Hid. induction s as [|a s IH]; cbn.
  - rewrite Hid. now rewrite Nat.eqb_refl.
  - destruct (Nat.eqb_spec (_id a) id) as [Heq|Hne].
    + elim Hfresh. left. exact Heq.
    + apply IH. intros H. apply Hfresh. now right.
Qed.

(** X15: the token that [register] returns opens the gate for the
    identity it created: when the object id is fresh and the token (a
    non-empty string without space) verifies with that id, [protect] on a
    request carrying 'Bearer ' followed by the token attaches exactly the
    identity shown in the registration response, with role 'user'. *)
Theorem registered_token_authenticates
    (newId : nat) (entropy : string) (now tsign now' : Z)
    (body : RegisterBody) (s s' : Store) (shown : UserView) (token : string)
    (claims : JwtClaims) :
  ~ In newId (map _id s) ->
  register cfg newId entropy now tsign body s = (s', Json 201 (AuthBody shown token)) ->
  token <> "" -> ~ In " "%char (chars token) ->
  jwt_verify token (Config.secret (Config.jwt cfg)) now' = Decoded claims ->
  claim_id claims = newId ->
  exists u,
    In u s' /\
    protect cfg s' now' {| authorization := Some ("Bearer " ++ token); user := None |}
    = NextOk {| authorization := Some ("Bearer " ++ token);
                user := Some (with_password u None) |}
    /\ view (with_password u None) = shown
    /\ view_id shown = newId
    /\ view_role shown = Some "user".
Proof.
  intros Hfresh Hreg Hne Hno Hv Hid.
  unfold register in Hreg.
  destruct (findOne _ false s); [discriminate|].
  destruct (create _ _ _ _ s) as [[s1 u]|err] eqn:Hc; [|discriminate].
  injection Hreg as <- <- _.
  apply create_default_role in Hc. destruct Hc as (-> & Hu & Hr & Ha & _).
  exists u. split; [apply in_or_app; right; now left|].
  split.
  - assert (Hf : findById (claim_id claims) false (s ++ [u])%list
                 = Some (hydrate false u)).
    { unfold findById, findOne. rewrite Hid.
      now rewrite (find_app_fresh newId u s Hfresh Hu). }
    exact (protect_accepts cfg (s ++ [u])%list now'
             {| authorization := Some ("Bearer " ++ token); user := None |}
             token claims (hydrate false u)
             (bearer_header_presents token None Hne Hno) Hv Hf Ha).
  - repeat split; assumption.
Qed.

End RegisterToProtect.

(** ** The user handlers *)
Section UserControllerFacts.
Import Http UserModel Collection Vocabulary UserVocabulary UserController.
Context {E : Externals}.

Lemma editing_start (u : User) : editing u (edit (hydrate false u)).
Proof. repeat split. Qed.

Lemma editing_set_if_truthy (set : Edit -> string -> Edit) (v : option string)
      (u : User) (e : Edit) :
  (forall e x, editing u e -> editing u (set e x)) ->
  editing u e -> editing u (set_if_truthy set v e).
Proof.
  intros Hset He. unfold set_if_truthy.
  destruct v as [x|]; [|assumption]. destruct (JS.truthy x); auto.
Qed.

Lemma editing_set_name (u : User) (e : Edit) (x : string) :
  editing u e -> editing u (set_name e x).
Proof. intros (Hm & Hn & Hc). repeat split; try assumption; apply Hc. Qed.

Lemma editing_set_email (u : User) (e : Edit) (x : string) :
  editing u e -> editing u (set_email e x).
Proof. intros (Hm & Hn & Hc). repeat split; try assumption; apply Hc. Qed.

Lemma editing_set_role (u : User) (e : Edit) (x : string) :
  editing u e -> editing u (set_role e x).
Proof. intros (Hm & Hn & Hc). repeat split; try assumption; apply Hc. Qed.

Lemma editing_set_isActive (u : User) (e : Edit) (b : bool) :
  editing u e -> editing u (set_isActive e b).
Proof. intros (Hm & Hn & Hc). repeat split; try assumption; apply Hc. Qed.

(** Saving an edited document either throws and writes nothing, or
    rewrites the stored document as the edited one with the stored
    password. *)
Lemma save_edit_writes (entropy : string) (now : Z) (u : User) (e : Edit)
      (s s' : Store) (d' : Document) :
  distinct_ids s -> In u s -> editing u e ->
  save_edit entropy now e s = Ok (s', d') ->
  d' = doc e /\
  s' = updateOne (_id u) (fun _ => with_password (this (doc e)) (password u)) s /\
  same_credentials u (with_password (this (doc e)) (password u)) /\
  (isModified_role e = true -> validate_role (role (this (doc e))) = []) /\
  (isModified_email e = true -> email_taken (this (doc e)) s = false).
Proof.
  intros Hnd Hin (Hm & Hn & Hc) Hsave. unfold save_edit in Hsave.
  destruct (validate_modified e) as [|m ms] eqn:Hv; [|discriminate].
  unfold hashPassword_hook in Hsave. rewrite Hm in Hsave. cbn [negb bind] in Hsave.
  unfold passwordChangedAt_hook in Hsave. rewrite Hm in Hsave. cbn [negb orb] in Hsave.
  destruct (isModified_email e && email_taken (this (doc e)) s) eqn:Ht; [discriminate|].
  injection Hsave as <- <-.
  destruct Hc as (Hid & Hpw & Hll & Hrt & Hre & Hca). cbn in Hid.
  split; [reflexivity|]. split; [|split; [|split]].
  - unfold write. rewrite Hm, Hid.
    apply (updateOne_at _ (fun _ => with_password (this (doc e)) (password u)) u s Hnd Hin).
    reflexivity.
  - cbn in *. repeat split; assumption.
  - intros Hr. unfold validate_modified in Hv. rewrite Hr in Hv.
    apply app_eq_nil in Hv. destruct Hv as [_ Hv].
    apply app_eq_nil in Hv. destruct Hv as [_ Hv].
    apply app_eq_nil in Hv. now destruct Hv as [_ Hv].
  - intros He. now rewrite He in Ht.
Qed.

End UserControllerFacts.

Section UserControllerTheorems.
Import Http UserModel Collection AuthMiddleware Vocabulary UserVocabulary UserController.
Context {E : Externals}.

(** The edits of [updateUser], and what they leave in each path. *)
Lemma updateUser_edits (u : User) (body : UpdateBody) :
  let e0 := edit (hydrate false u) in
  let e1 := set_if_truthy set_name (update_name body) e0 in
  let e2 := set_if_truthy set_email (update_email body) e1 in
  let e3 := set_if_truthy set_role (update_role body) e2 in
  let e4 := match update_isActive body with
            | Some b => set_isActive e3 b
            | None => e3
            end in
  editing u e4 /\
  name (this (doc e4)) = updated trim (update_name body) (name u) /\
  email (this (doc e4)) = updated cast_email (update_email body) (email u) /\
  role (this (doc e4)) = updated_role (update_role body) (role u) /\
  isActive (this (doc e4))
  = match update_isActive body with Some b => b | None => isActive u end /\
  (isModified_role e4 = false -> role (this (doc e4)) = role u) /\
  (isModified_role e4 = true -> exists x, role (this (doc e4)) = Some x).
Proof.
  destruct body as [n m r a]. cbn [update_name update_email update_role update_isActive].
  unfold updated, updated_role, set_if_truthy.
  destruct n as [n|]; [destruct (JS.truthy n)|];
    (destruct m as [m|]; [destruct (JS.truthy m)|]);
    (destruct r as [r|]; [destruct (JS.truthy r)|]);
    destruct a as [a|]; cbn; repeat split; try reflexivity;
    try discriminate; try (intros _; eauto; fail);
    try (intros H; apply negb_false_iff in H;
         unfold opt_string_eqb in H; destruct (role u) as [x|]; [|discriminate];
         apply String.eqb_eq in H; now subst).
Qed.

(** How a successful [updateUser] rewrites the collection. *)
Lemma updateUser_inv (now : Z) (id : nat) (body : UpdateBody)
      (s s' : Store) (status : Z) (b : UserBody) :
  distinct_ids s ->
  updateUser now id body s = (s', UJson status b) ->
  exists u u',
    find (fun x => Nat.eqb (_id x) id) s = Some u /\
    s' = updateOne (_id u) (fun _ => u') s /\
    same_credentials u u' /\
    name u' = updated trim (update_name body) (name u) /\
    email u' = updated cast_email (update_email body) (email u) /\
    role u' = updated_role (update_role body) (role u) /\
    isActive u' = match update_isActive body with Some b => b | None => isActive u end /\
    (role u' = role u \/ role u' = Some "user" \/ role u' = Some "admin").
Proof.
  intros Hnd. unfold updateUser, findById, findOne.
  destruct (find _ s) as [u|] eqn:Hf; cbn [option_map]; [|discriminate].
  pose proof (updateUser_edits u body) as He. cbv zeta in He.
  destruct He as (Hed & Hn & Hm & Hr & Ha & Hrole & Hsome).
  destruct (save_edit "" now _ s) as [[s1 d1]|err] eqn:Hs; [|discriminate].
  intros H. injection H as <- _ _.
  pose proof (find_some _ _ Hf) as [Hin _].
  destruct (save_edit_writes "" now u _ s s1 d1 Hnd Hin Hed Hs)
    as (_ & -> & Hc & Hvr & _).
  eexists u, _. split; [reflexivity|]. split; [reflexivity|].
  split; [exact Hc|]. cbn [name email role isActive with_password].
  repeat (split; [assumption|]).
  match goal with
  | |- role (this (doc ?e)) = _ \/ _ => destruct (isModified_role e) eqn:Hmod
  end.
  - right. specialize (Hvr eq_refl). destruct (Hsome eq_refl) as (x & Hx).
    rewrite Hx in *. unfold validate_role, check in Hvr.
    destruct (String.eqb_spec x "user") as [->|_]; [now left|].
    destruct (String.eqb_spec x "admin") as [->|_]; [now right|].
    discriminate.
  - left. now apply Hrole.
Qed.

End UserControllerTheorems.

Section UserControllerTheorems2.
Import Http UserModel Collection AuthMiddleware Vocabulary UserVocabulary UserController.
Context {E : Externals}.

Lemma in_deleteOne (id : nat) (s : Store) (x : User) :
  distinct_ids s -> (In x (deleteOne id s) <-> In x s /\ _id x <> id).
Proof.
  unfold distinct_ids. intros Hnd.
  induction s as [|a s IH]; cbn [deleteOne]; [cbn; tauto|].
  cbn in Hnd. inversion Hnd as [|? ? Hnotin Hnd']; subst.
  destruct (Nat.eqb_spec (_id a) id) as [Heq|Hne].
  - split.
    + intros Hx. split; [now right|].
      intros Hid. elim Hnotin. rewrite Heq, <- Hid. now apply id_in_map.
    + intros [[->|Hx] Hid]; [now elim Hid | assumption].
  - cbn [In]. rewrite (IH Hnd'). split.
    + intros [<-|[Hx Hid]]; [split; [now left | assumption] | split; [now right | assumption]].
    + intros [[<-|Hx] Hid]; [now left | right; now split].
Qed.

(** X16: [deleteUser] never removes the identity of the acting
    administrator: asked for its own id it answers 400 (or 404 when that
    id is not stored) and changes nothing; on any error the collection is
    unchanged; on success exactly the identity with the requested id is
    gone and a lookup of that id finds nothing. *)
Theorem deleteUser_spares_the_acting_admin (reqUser : User) (id : nat) (s : Store) :
  distinct_ids s ->
  (forall x, In x s -> _id x = _id reqUser -> In x (fst (deleteUser reqUser id s)))
  /\ (forall s' e, deleteUser reqUser id s = (s', UNext e) -> s' = s)
  /\ (forall u, find (fun x => Nat.eqb (_id x) id) s = Some u -> _id u = _id reqUser ->
                deleteUser reqUser id s
                = (s, UNext (ApiError 400 "You cannot delete your own account")))
  /\ (find (fun x => Nat.eqb (_id x) id) s = None ->
      deleteUser reqUser id s = (s, UNext (ApiError 404 "User not found")))
  /\ (forall s' status b,
         deleteUser reqUser id s = (s', UJson status b) ->
         id <> _id reqUser /\
         (forall x, In x s' <-> In x s /\ _id x <> id) /\
         find (fun x => Nat.eqb (_id x) id) s' = None).
Proof.
  intros Hnd. unfold deleteUser, findById, findOne.
  destruct (find _ s) as [u|] eqn:Hf; cbn [option_map fst].
  - pose proof (find_by_id_inv id u s Hf) as [Hin Hid].
    change (_id (this (hydrate false u))) with (_id u).
    destruct (Nat.eqb_spec (_id u) (_id reqUser)) as [Heq|Hne]; cbn [fst].
    + repeat split; try (intros; congruence); try discriminate;
        try (now intros s' e H; injection H as <-).
    + split; [|split; [|split; [|split]]].
      * intros x Hx Hxid. apply in_deleteOne; [assumption|]. split; [assumption|].
        congruence.
      * discriminate.
      * intros u0 H0 Hu0. injection H0 as <-. contradiction.
      * discriminate.
      * intros s' status b H. injection H as <- _ _. rewrite Hid.
        split; [congruence|]. split; [intros x; now apply in_deleteOne|].
        apply find_none_iff. intros x Hx. apply in_deleteOne in Hx; [|assumption].
        destruct Hx as [_ Hx]. now apply Nat.eqb_neq.
  - repeat split; try (intros; congruence); try discriminate;
      try (now intros s' e H; injection H as <-).
Qed.



(** X19: what [updateUser] changes is in force at the next request,
    also for tokens issued before: once it has set [isActive] to false,
    [protect] turns down every token that names the identity with 401
    'User account is deactivated'; once it has set a role other than
    'admin', a request that passes [protect] with such a token is turned
    down by [authorize('admin')]. *)
Theorem updateUser_is_in_force_at_once
    (cfg : Config.Config) (now now' : Z) (id : nat) (body : UpdateBody)
    (s s' : Store) (status : Z) (b : UserBody)
    (req : Request) (token : string) (claims : JwtClaims) :
  distinct_ids s ->
  updateUser now id body s = (s', UJson status b) ->
  presents req token ->
  jwt_verify token (Config.secret (Config.jwt cfg)) now' = Decoded claims ->
  claim_id claims = id ->
  (update_isActive body = Some false ->
   protect cfg s' now' req = NextErr (ApiError 401 "User account is deactivated"))
  /\ (forall r req',
         update_role body = Some r -> r <> "" -> r <> "admin" ->
         protect cfg s' now' req = NextOk req' ->
         authorize ["admin"] req'
         = NextErr (ApiError 403 ("Role " ++ r ++ " is not authorized to access this resource"))).
Proof.
  intros Hnd Hup Hpr Hv Hid.
  destruct (updateUser_inv now id body s s' status b Hnd Hup)
    as (u & u' & Hf & -> & Hc & _ & _ & Hr & Ha & _).
  pose proof (find_by_id_inv id u s Hf) as [Hin Huid].
  assert (Hf' : find (fun x => Nat.eqb (_id x) (claim_id claims))
                     (updateOne (_id u) (fun _ => u') s) = Some u').
  { rewrite Hid, <- Huid.
    apply (findById_updateOne (fun _ => u') u s Hnd Hin). apply Hc. }
  split.
  - intros Hfalse. rewrite Hfalse in Ha.
    apply (protect_rejects cfg _ now' req Deactivated).
    exists token, claims, (hydrate false u').
    repeat (split; [assumption|]). split; [|exact Ha].
    unfold findById, findOne. now rewrite Hf'.
  - intros r req' Hbody Hne Hna Hp.
    rewrite Hbody in Hr. unfold updated_role in Hr.
    pose proof Hne as Ht. apply truthy_true in Ht. rewrite Ht in Hr.
    destruct (protect_passed_inv cfg _ now' req req' Hp)
      as (token' & claims' & u0 & Hpr' & Hv' & Hf0 & _ & ->).
    assert (token' = token) by (destruct Hpr, Hpr'; congruence). subst token'.
    assert (claims' = claims) by congruence. subst claims'.
    assert (u0 = u') by congruence. subst u0.
    unfold authorize. cbn [user role with_password]. rewrite Hr, Ht. cbn [negb].
    assert (Hi : includes ["admin"] r = false).
    { unfold includes. cbn. apply String.eqb_neq in Hna. now rewrite Hna. }
    now rewrite Hi.
Qed.

End UserControllerTheorems2.

Section UpdateProfileTheorems.
Import Http UserModel Collection Vocabulary UserVocabulary UserController.
Context {E : Externals}.

Lemma updateProfile_edits (u : User) (body : ProfileBody) (s : Store) (e : Edit) :
  match profile_email body with
  | Some email =>
      if JS.truthy email
         && negb (String.eqb email
                    (UserModel.email
                       (this (doc (set_if_truthy set_name (profile_name body)
                                                 (edit (hydrate false u)))))))
      then
        match findOne (by_email email) false s with
        | Some _ => Throw (ApiError 409 "Email already in use")
        | None => Ok (set_email (set_if_truthy set_name (profile_name body)
                                               (edit (hydrate false u))) email)
        end
      else Ok (set_if_truthy set_name (profile_name body) (edit (hydrate false u)))
  | None => Ok (set_if_truthy set_name (profile_name body) (edit (hydrate false u)))
  end = Ok e ->
  editing u e /\
  isModified_role e = false /\
  role (this (doc e)) = role u /\
  isActive (this (doc e)) = isActive u /\
  name (this (doc e)) = updated trim (profile_name body) (name u) /\
  (email (this (doc e)) = email u
   \/ exists x, profile_email body = Some x /\ x <> "" /\
                email (this (doc e)) = cast_email x).
Proof.
  destruct body as [n m]. cbn [profile_name profile_email].
  unfold updated, set_if_truthy.
  assert (Hbase : forall e0,
             e0 = match n with
                  | Some x => if JS.truthy x then set_name (edit (hydrate false u)) x
                              else edit (hydrate false u)
                  | None => edit (hydrate false u)
                  end ->
             editing u e0 /\ isModified_role e0 = false /\
             role (this (doc e0)) = role u /\ isActive (this (doc e0)) = isActive u /\
             name (this (doc e0))
             = match n with
               | Some x => if JS.truthy x then trim x else name u
               | None => name u
               end /\
             email (this (doc e0)) = email u).
  { intros e0 ->. destruct n as [x|]; [destruct (JS.truthy x)|];
      cbn; repeat split; reflexivity. }
  set (e0 := match n with
             | Some x => if JS.truthy x then set_name (edit (hydrate false u)) x
                         else edit (hydrate false u)
             | None => edit (hydrate false u)
             end) in *.
  destruct (Hbase e0 eq_refl) as (Hed & Hmr & Hr & Ha & Hn & Hm).
  destruct m as [x|].
  - destruct (JS.truthy x) eqn:Ht; cbn [andb].
    + destruct (negb _).
      * destruct (findOne _ false s); [discriminate|].
        intros H. injection H as <-.
        split; [now apply editing_set_email|].
        cbn [set_email isModified_role doc assign this role isActive name email
             with_email].
        repeat (split; [assumption|]). right. exists x.
        split; [reflexivity|]. split; [|reflexivity].
        intros ->. discriminate.
      * intros H. injection H as <-. repeat (split; [assumption|]). now left.
    + intros H. injection H as <-. repeat (split; [assumption|]). now left.
  - intros H. injection H as <-. repeat (split; [assumption|]). now left.
Qed.

(** X20: [updateProfile] cannot change what an identity may do: on
    success it rewrites only the identity of the caller, whose role,
    activity, id, password, login stamp, reset ticket and
    [passwordChangedAt] stay as stored, while [name] takes the trimmed
    value of a non-empty [name] of the body and [email] stays or takes the
    normalised [email] of the body; on any error the collection is
    unchanged. *)
Theorem updateProfile_keeps_privileges
    (now : Z) (reqUserId : nat) (body : ProfileBody) (s : Store) :
  distinct_ids s ->
  (forall s' e, updateProfile now reqUserId body s = (s', UNext e) -> s' = s)
  /\ (forall s' status b,
         updateProfile now reqUserId body s = (s', UJson status b) ->
         exists u u',
           find (fun x => Nat.eqb (_id x) reqUserId) s = Some u /\
           s' = updateOne (_id u) (fun _ => u') s /\
           same_credentials u u' /\
           same_privileges u u' /\
           name u' = updated trim (profile_name body) (name u) /\
           (email u' = email u
            \/ exists x, profile_email body = Some x /\ x <> "" /\
                         email u' = cast_email x) /\
           status = 200 /\
           b = UserData (view u')).
Proof.
  intros Hnd. unfold updateProfile, findById, findOne.
  destruct (find _ s) as [u|] eqn:Hf; cbn [option_map].
  - cbv zeta.
    match goal with
    | |- context [match ?c with Throw _ => _ | Ok _ => _ end] =>
        destruct c as [e|err] eqn:Hc
    end.
    + apply updateProfile_edits in Hc.
      destruct Hc as (Hed & Hmr & Hr & Ha & Hn & Hm).
      destruct (save_edit "" now e s) as [[s1 d1]|err] eqn:Hs.
      * split; [discriminate|]. intros s' status b H. injection H as <- <- <-.
        pose proof (find_some _ _ Hf) as [Hin _].
        destruct (save_edit_writes "" now u e s s1 d1 Hnd Hin Hed Hs)
          as (-> & -> & Hcred & _ & _).
        eexists u, _. split; [reflexivity|]. split; [reflexivity|].
        split; [exact Hcred|]. split; [split; assumption|].
        split; [assumption|]. split; [assumption|]. split; reflexivity.
      * split; [|discriminate]. now intros s' e' H; injection H as <-.
    + split; [|discriminate]. now intros s' e' H; injection H as <-.
  - split; [|discriminate]. now intros s' e' H; injection H as <-.
Qed.

End UpdateProfileTheorems.

(** ** The error handler and the configuration *)
Section ErrorExposure.
Import Http Config ErrorHandler.

Lemma errorHandler_stack (cfg : Config) (err : Err) :
  ErrorHandler.stack (errorHandler cfg err)
  = if String.eqb (nodeEnv cfg) "development" then Some (err_stack err) else None.
Proof.
  unfold errorHandler.
  destruct (String.eqb (err_name err) "ValidationError"); [reflexivity|].
  destruct (String.eqb (err_name err) "CastError"); [reflexivity|].
  destruct (match err_code err with Some c => Z.eqb c 11000 | None => false end);
    [reflexivity|].
  destruct (String.eqb (err_name err) "JsonWebTokenError"); [reflexivity|].
  destruct (String.eqb (err_name err) "TokenExpiredError"); reflexivity.
Qed.

(** X21: the error response carries [err.stack] unless NODE_ENV is set
    to a non-empty value other than 'development': with the variable
    unset or empty, [config.nodeEnv] falls back to 'development' and every
    error response exposes the stack of the error.  The status, message
    and details of the response do not depend on the configuration. *)
Theorem stack_is_exposed_unless_NODE_ENV_says_otherwise (env : ProcessEnv) (err : Err) :
  (ErrorHandler.stack (errorHandler (config env) err) = None
   <-> exists v, getenv env "NODE_ENV" = Some v /\ v <> "" /\ v <> "development")
  /\ (ErrorHandler.stack (errorHandler (config env) err) <> None ->
      ErrorHandler.stack (errorHandler (config env) err) = Some (err_stack err))
  /\ (forall cfg cfg',
         status (errorHandler cfg err) = status (errorHandler cfg' err)
         /\ message (errorHandler cfg err) = message (errorHandler cfg' err)
         /\ details (errorHandler cfg err) = details (errorHandler cfg' err)).
Proof.
  rewrite errorHandler_stack. cbn [config nodeEnv]. unfold JS.or_default.
  split; [|split].
  - destruct (getenv env "NODE_ENV") as [v|].
    + destruct (JS.truthy v) eqn:Ht.
      * destruct (String.eqb_spec v "development") as [->|Hne].
        -- split; [discriminate|]. intros (v & Hv & _ & Hd). congruence.
        -- split; [|reflexivity]. intros _. exists v.
           split; [reflexivity|]. split; [|assumption].
           intros ->. discriminate.
      * cbn. split; [discriminate|]. intros (w & Hw & Hn & _).
        injection Hw as <-. destruct v; [now elim Hn | discriminate].
    + cbn. split; [discriminate|]. intros (w & Hw & _). discriminate.
  - match goal with |- context [if ?b then _ else _] => destruct b end;
      [reflexivity | intros H; now elim H].
  - intros cfg cfg'. unfold errorHandler.
    destruct (String.eqb (err_name err) "ValidationError"); [repeat split|].
    destruct (String.eqb (err_name err) "CastError"); [repeat split|].
    destruct (match err_code err with Some c => Z.eqb c 11000 | None => false end);
      [repeat split|].
    destruct (String.eqb (err_name err) "JsonWebTokenError"); [repeat split|].
    destruct (String.eqb (err_name err) "TokenExpiredError"); repeat split.
Qed.

End ErrorExposure.

(** ** The password helpers of cryptoUtils.js and the model *)
Section PasswordHelpers.
Import Http UserModel CryptoUtils.
Context {E : Externals}.

(** X22: a digest from [hashPassword] of cryptoUtils.js verifies its
    password through [comparePassword] and through the model's
    [matchPassword]; a digest written by the model's pre-save hook
    verifies through [comparePassword]; and with the default cost factor
    the digest determines the random bytes the salt was drawn from, so
    that two calls that draw different bytes give different digests. *)
Theorem password_helpers_interoperate
    {B : BcryptContract E} (entropy password : string) (saltRounds : option nat) :
  exists digest,
    hashPassword entropy password saltRounds = Ok digest
    /\ comparePassword password digest = Ok true
    /\ (forall u, UserModel.password u = Some digest ->
                  matchPassword u password = Ok true)
    /\ (forall entropy' d d',
           isModified_password d = true ->
           UserModel.password (this d) = Some password ->
           hashPassword_hook entropy' d = Ok d' ->
           exists h, UserModel.password (this d') = Some h
                     /\ comparePassword password h = Ok true
                     /\ hashPassword entropy' password None = Ok h)
    /\ (forall entropy',
           hashPassword entropy' password saltRounds = Ok digest -> entropy' = entropy).
Proof.
  unfold hashPassword, comparePassword. eexists. split; [reflexivity|].
  split; [now rewrite compare_hash|]. split; [|split].
  - intros u Hu. unfold matchPassword. rewrite Hu. now rewrite compare_hash.
  - intros entropy' d d' Hm Hp. unfold hashPassword_hook. rewrite Hm, Hp. cbn [negb].
    intros H. injection H as <-. eexists. split; [reflexivity|].
    split; [now rewrite compare_hash | reflexivity].
  - intros entropy' H. injection H as H.
    apply hash_embeds_salt in H. now apply genSalt_injective in H.
Qed.

End PasswordHelpers.

(** ** Which identities a handler touches *)
Section StableIds.
Import Http UserModel Collection AuthController UserController Vocabulary UserVocabulary.
Context {E : Externals} (cfg : Config.Config).

Lemma write_ids (d : Document) (s : Store) : map _id (write d s) = map _id s.
Proof.
  unfold write. apply map_updateOne. intros x _ Hx.
  destruct (isModified_password d); cbn; congruence.
Qed.

Lemma save_ids (v : bool) (entropy : string) (now : Z) (d d' : Document) (s s' : Store) :
  save v entropy now d s = Ok (s', d') -> map _id s' = map _id s.
Proof.
  unfold save. destruct (if v then validate d else Ok d) as [d0|]; [|discriminate].
  cbn [bind]. destruct (hashPassword_hook entropy d0) as [d1|]; [|discriminate].
  cbn [bind]. intros H. injection H as <- _. apply write_ids.
Qed.

Lemma save_edit_ids (entropy : string) (now : Z) (e : Edit) (d' : Document)
      (s s' : Store) :
  save_edit entropy now e s = Ok (s', d') -> map _id s' = map _id s.
Proof.
  unfold save_edit. destruct (validate_modified e); [|discriminate].
  destruct (hashPassword_hook entropy (doc e)) as [d1|]; [|discriminate].
  cbn [bind]. destruct (_ && _); [discriminate|].
  intros H. injection H as <- _. apply write_ids.
Qed.

Lemma create_ids (newId : nat) (entropy : string) (now : Z) (fields : NewUser)
      (s s' : Store) (u : User) :
  create newId entropy now fields s = Ok (s', u) ->
  map _id s' = (map _id s ++ [newId])%list.
Proof.
  unfold create. destruct (_ ++ _)%list; [|discriminate].
  cbn [hashPassword_hook isModified_password negb this password bind].
  destruct (existsb _ s); [discriminate|].
  intros H. injection H as <- _. now rewrite map_app.
Qed.

Lemma deleteOne_ids (id : nat) (s : Store) :
  distinct_ids s -> distinct_ids (deleteOne id s).
Proof.
  unfold distinct_ids. induction s as [|a s IH]; cbn [deleteOne map]; [trivial|].
  intros Hnd. inversion Hnd as [|? ? Hnotin Hnd']; subst.
  destruct (Nat.eqb (_id a) id); [assumption|].
  cbn [map]. constructor; [|now apply IH].
  intros Hin. apply Hnotin. apply in_map_iff in Hin. destruct Hin as (x & <- & Hx).
  apply in_map. clear - Hx. induction s as [|b s IH]; cbn [deleteOne] in Hx; [easy|].
  destruct (Nat.eqb (_id b) id); [now right|].
  destruct Hx as [->|Hx]; [now left | right; now apply IH].
Qed.

(** X23: no handler re-keys, duplicates or drops a stored identity
    behind the caller's back.  [login], [forgotPassword],
    [resetPassword], [updatePassword], [updateUser] and [updateProfile]
    leave the sequence of stored ids as it is; [register] and [createUser]
    leave it as it is or append the new id; [deleteUser] keeps ids
    distinct.  Hence ids that are distinct stay distinct under every
    handler, as long as a new id is not in use. *)
Theorem handlers_keep_stored_ids (s : Store) :
  (forall now tsign email password,
      map _id (fst (login cfg now tsign email password s)) = map _id s)
  /\ (forall resetBytes now email,
         map _id (fst (forgotPassword resetBytes now email s)) = map _id s)
  /\ (forall entropy now tsave tsign resettoken password,
         map _id (fst (resetPassword cfg entropy now tsave tsign resettoken password s))
         = map _id s)
  /\ (forall entropy tsave tsign id current new,
         map _id (fst (updatePassword cfg entropy tsave tsign id current new s))
         = map _id s)
  /\ (forall now id body, map _id (fst (updateUser now id body s)) = map _id s)
  /\ (forall now id body, map _id (fst (updateProfile now id body s)) = map _id s)
  /\ (forall newId entropy now tsign body,
         map _id (fst (register cfg newId entropy now tsign body s)) = map _id s
         \/ map _id (fst (register cfg newId entropy now tsign body s))
            = (map _id s ++ [newId])%list)
  /\ (forall newId entropy now body,
         map _id (fst (createUser newId entropy now body s)) = map _id s
         \/ map _id (fst (createUser newId entropy now body s))
            = (map _id s ++ [newId])%list)
  /\ (distinct_ids s ->
      (forall reqUser id, distinct_ids (fst (deleteUser reqUser id s)))
      /\ (forall newId entropy now tsign body,
             ~ In newId (map _id s) ->
             distinct_ids (fst (register cfg newId entropy now tsign body s)))
      /\ (forall newId entropy now body,
             ~ In newId (map _id s) ->
             distinct_ids (fst (createUser newId entropy now body s)))).
Proof.
  assert (Hreg : forall newId entropy now tsign body,
             map _id (fst (register cfg newId entropy now tsign body s)) = map _id s
             \/ map _id (fst (register cfg newId entropy now tsign body s))
                = (map _id s ++ [newId])%list).
  { intros. unfold register. destruct (findOne _ false s); [now left|].
    destruct (create _ _ _ _ s) as [[s1 u]|] eqn:Hc; [|now left].
    right. cbn [fst]. now apply create_ids in Hc. }
  assert (Hcre : forall newId entropy now body,
             map _id (fst (createUser newId entropy now body s)) = map _id s
             \/ map _id (fst (createUser newId entropy now body s))
                = (map _id s ++ [newId])%list).
  { intros. unfold createUser. destruct (findOne _ false s); [now left|].
    destruct (create _ _ _ _ s) as [[s1 u]|] eqn:Hc; [|now left].
    right. cbn [fst]. now apply create_ids in Hc. }
  assert (Hfresh : forall newId, distinct_ids s -> ~ In newId (map _id s) ->
                                 NoDup (map _id s ++ [newId])%list).
  { intros newId Hnd Hn. unfold distinct_ids in Hnd.
    apply NoDup_app; [assumption | repeat constructor; easy |].
    intros x Hx [<-|[]]. contradiction. }
  split; [|split; [|split; [|split; [|split; [|split; [|split; [|split]]]]]]].
  - intros now tsign em pw. unfold login.
    destruct em as [e|]; [|reflexivity]. destruct pw as [p|]; [|reflexivity].
    destruct (_ || _); [reflexivity|].
    destruct (findOne _ true s) as [d|]; [|reflexivity].
    destruct (matchPassword (this d) p) as [[|]|]; try reflexivity.
    destruct (negb _); [reflexivity|].
    destruct (save false "" now _ s) as [[s1 d1]|] eqn:Hs; [|reflexivity].
    cbn [fst]. now apply save_ids in Hs.
  - intros. unfold forgotPassword.
    destruct (findOne _ false s) as [d|]; [|reflexivity].
    destruct (generatePasswordResetToken resetBytes now d) as [d1 tok].
    destruct (save false "" now d1 s) as [[s1 d2]|] eqn:Hs; [|reflexivity].
    cbn [fst]. now apply save_ids in Hs.
  - intros. unfold resetPassword. cbv zeta.
    destruct (findOne _ false s) as [d|]; [|reflexivity].
    destruct (save true entropy tsave _ s) as [[s1 d2]|] eqn:Hs; [|reflexivity].
    cbn [fst]. now apply save_ids in Hs.
  - intros. unfold updatePassword.
    destruct (findById id true s) as [d|]; [|reflexivity].
    destruct (matchPassword (this d) current) as [[|]|]; try reflexivity.
    destruct (save true entropy tsave _ s) as [[s1 d2]|] eqn:Hs; [|reflexivity].
    cbn [fst]. now apply save_ids in Hs.
  - intros. unfold updateUser.
    destruct (findById id false s) as [d|]; [|reflexivity].
    destruct (save_edit "" now _ s) as [[s1 d2]|] eqn:Hs; [|reflexivity].
    cbn [fst]. now apply save_edit_ids in Hs.
  - intros. unfold updateProfile.
    destruct (findById id false s) as [d|]; [|reflexivity]. cbv zeta.
    match goal with
    | |- context [match ?c with Throw _ => _ | Ok _ => _ end] => destruct c as [e|]
    end; [|reflexivity].
    destruct (save_edit "" now e s) as [[s1 d2]|] eqn:Hs; [|reflexivity].
    cbn [fst]. now apply save_edit_ids in Hs.
  - exact Hreg.
  - exact Hcre.
  - intros Hnd. split; [|split].
    + intros. unfold deleteUser. destruct (findById id false s) as [d|]; [|assumption].
      destruct (Nat.eqb _ _); [assumption|]. cbn [fst]. now apply deleteOne_ids.
    + intros newId entropy now tsign body Hn. unfold distinct_ids.
      destruct (Hreg newId entropy now tsign body) as [-> | ->]; [assumption | auto].
    + intros newId entropy now body Hn. unfold distinct_ids.
      destruct (Hcre newId entropy now body) as [-> | ->]; [assumption | auto].
Qed.

End StableIds.

(** ** Registration, reset requests and the login *)
Section LoginRoundTrips.
Import Http UserModel Collection AuthController Vocabulary.
Context {E : Externals} (cfg : Config.Config).

Lemma find_app_none {A : Type} (p : A -> bool) (s : list A) (u : A) :
  find p s = None -> p u = true -> find p (s ++ [u]) = Some u.
Proof.
  induction s as [|a s IH]; cbn; [now intros _ ->|].
  destruct (p a); [discriminate | assumption].
Qed.

(** X24: the credentials a registration was made with log in: after a
    successful [register] in a collection of distinct ids with a fresh
    id, [login] with the same email and password succeeds and shows the
    identity of the registration response. *)
Theorem login_after_register
    {B : BcryptContract E}
    (newId : nat) (entropy : string) (now tsign now' tsign' : Z)
    (body : RegisterBody) (s s' : Store) (shown : UserView) (token : string) :
  distinct_ids s -> ~ In newId (map _id s) ->
  register cfg newId entropy now tsign body s = (s', Json 201 (AuthBody shown token)) ->
  exists s2 token',
    login cfg now' tsign' (Some (body_email body)) (Some (body_password body)) s'
    = (s2, Json 200 (AuthBody shown token')).
Proof.
  intros Hnd Hfresh. unfold register, findOne.
  destruct (find (by_email (body_email body)) s) as [x|] eqn:Hf;
    cbn [option_map]; [discriminate|].
  destruct (create _ _ _ _ s) as [[s1 u]|] eqn:Hc; [|discriminate].
  intros H. injection H as <- <- <-.
  unfold create in Hc. cbn [new_name new_email new_password new_role] in Hc.
  destruct (_ ++ _)%list eqn:Herr in Hc; [|discriminate].
  cbn [hashPassword_hook isModified_password negb this password bind] in Hc.
  destruct (existsb _ s); [discriminate|].
  injection Hc as Hs1 Hu.
  assert (Hue : email u = cast_email (body_email body)) by now rewrite <- Hu.
  assert (Hup : password u
                = Some (bcrypt_hash (body_password body) (bcrypt_genSalt 12 entropy)))
    by now rewrite <- Hu.
  assert (Hua : isActive u = true) by now rewrite <- Hu.
  assert (Hui : _id u = newId) by now rewrite <- Hu.
  rewrite Hu in Hs1. subst s1. clear Hu.
  apply app_eq_nil in Herr. destruct Herr as [_ Herr].
  apply app_eq_nil in Herr. destruct Herr as [Hem Herr].
  apply app_eq_nil in Herr. destruct Herr as [Hpw _].
  cbn [this password] in Hpw. unfold validate_email in Hem. unfold validate_password in Hpw.
  assert (He : body_email body <> "").
  { intros Heq. rewrite Heq in Hem. discriminate. }
  assert (Hp : body_password body <> "").
  { intros Heq. rewrite Heq in Hpw. discriminate. }
  assert (Hnd' : distinct_ids (s ++ [u])%list).
  { unfold distinct_ids. rewrite map_app. apply NoDup_app; [assumption | |].
    - repeat constructor; easy.
    - intros y Hy [<-|[]]. cbn in Hfresh. rewrite Hui in Hy. now apply Hfresh. }
  assert (Hfu : find (by_email (body_email body)) (s ++ [u])%list = Some u).
  { apply find_app_none; [assumption|]. unfold by_email. rewrite Hue.
    apply String.eqb_refl. }
  eexists _, _.
  rewrite (login_succeeds cfg now' tsign' (body_email body) (body_password body)
             _ u (s ++ [u])%list Hnd' He Hp Hfu Hup (compare_hash _ _) Hua).
  reflexivity.
Qed.


End LoginRoundTrips.

(** ** The listing *)
Section ListingFacts.
Import Http UserModel Collection UserListing ListingVocabulary.








End ListingFacts.

(** ** The properties on recorded runs *)
Section RecordedRuns.
Import Http UserModel Collection AuthMiddleware AuthController UserController.
Import CryptoUtils UtilityVocabulary Routes Vocabulary HandlerVocabulary UserVocabulary.
Import UserListing ListingVocabulary Scenario Staff.
#[local] Existing Instance Fixture.externals.

Lemma not_in_chars (c : ascii) (l : list ascii) :
  existsb (Ascii.eqb c) l = false -> ~ In c l.
Proof.
  intros Hn Hin. assert (Ht : existsb (Ascii.eqb c) l = true).
  { apply existsb_exists. exists c. split; [assumption | apply Ascii.eqb_refl]. }
  congruence.
Defined.

Lemma ann_alone_distinct : distinct_ids [ann].
Proof. unfold distinct_ids. cbn. constructor; [intros [] | constructor]. Defined.

Lemma users_distinct : distinct_ids users.
Proof.
  unfold distinct_ids. cbn. constructor; [|constructor; [intros [] | constructor]].
  intros [H|[]]. discriminate.
Defined.

Lemma ann_presents_login_token : presents request_with_login_token login_token.
Proof. split; [vm_compute; reflexivity | discriminate]. Defined.

(** The theorem on thirty-two drawn bytes. *)
Lemma random_strings_are_hex_of_twice_the_length_witness :
  (String.length (generateRandomString 32 (Ok drawn) "0.4fzyo82mvyr") = (2 * 32)%nat
   /\ forallb is_hex (chars (generateRandomString 32 (Ok drawn) "0.4fzyo82mvyr")) = true)
  /\ (String.length
        (generateRandomString 32 (Throw (LibraryError "Error" "entropy")) "0.4fzyo82mvyr")
      <= 32)%nat
  /\ (32%nat = 32%nat ->
      String.length (resetToken (generateResetToken drawn 1700000400000)) = 64%nat
      /\ forallb is_hex (chars (resetToken (generateResetToken drawn 1700000400000))) = true
      /\ hashedToken (generateResetToken drawn 1700000400000)
         = sha256_hex (resetToken (generateResetToken drawn 1700000400000))
      /\ resetExpires (generateResetToken drawn 1700000400000) = 1700000400000 + 600000).
Proof.
  exact (random_strings_are_hex_of_twice_the_length
           32 drawn (LibraryError "Error" "entropy") "0.4fzyo82mvyr" 1700000400000
           eq_refl).
Defined.

(** The theorem on GET /api/auth/me with Ann's token. *)
Lemma controllers_run_behind_protect_witness :
  exists token claims u,
    presents request_with_login_token token /\
    jwt_verify token (Config.secret (Config.jwt Fixture.cfg)) 1700000300000
    = Decoded claims /\
    find (fun x => Nat.eqb (_id x) (claim_id claims)) users = Some u /\
    isActive u = true /\
    user ann_authenticated = Some (with_password u None).
Proof.
  apply (controllers_run_behind_protect lenient Fixture.cfg users 1700000300000
           GET ["api"; "auth"; "me"] [Protect; Handle Controller.getMe]
           request_with_login_token ann_authenticated Controller.getMe).
  - vm_compute; reflexivity.
  - vm_compute; reflexivity.
  - reflexivity.
Defined.

(** The theorem on DELETE /api/users/1 with the administrator's
    token. *)
Lemma administration_requires_stored_admin_role_witness :
  exists token claims u,
    presents request_with_root_token token /\
    jwt_verify token (Config.secret (Config.jwt Fixture.cfg)) 1700000300000
    = Decoded claims /\
    find (fun x => Nat.eqb (_id x) (claim_id claims)) users = Some u /\
    isActive u = true /\
    role u = Some "admin" /\
    user root_authenticated = Some (with_password u None).
Proof.
  apply (administration_requires_stored_admin_role lenient Fixture.cfg users
           1700000300000 DELETE ["api"; "users"; "1"]
           [Protect; Authorize ["admin"];
            Validate Validator.getUserByIdValidation; Handle Controller.deleteUser]
           request_with_root_token root_authenticated Controller.deleteUser).
  - vm_compute; reflexivity.
  - vm_compute; reflexivity.
  - reflexivity.
Defined.


(** The theorem on the same change, followed by a login at
    1700000700000 ms. *)
Lemma login_after_updatePassword_witness :
  exists s1 token,
    updatePassword Fixture.cfg "salt4" 1700000600000 1700000600000 (_id ann)
                   "NewSecret@456" "Third@7890" [ann]
    = (s1, Json 200 (TokenBody "Password updated successfully" token))
    /\ (exists s2 view token',
           login Fixture.cfg 1700000700000 1700000700000
                 (Some "a@b.com") (Some "Third@7890") s1
           = (s2, Json 200 (AuthBody view token')))
    /\ ("NewSecret@456" <> "" ->
        bcrypt_compare "NewSecret@456"
                       (bcrypt_hash "Third@7890" (bcrypt_genSalt 12 "salt4")) = false ->
        login Fixture.cfg 1700000700000 1700000700000
              (Some "a@b.com") (Some "NewSecret@456") s1
        = (s1, Next (ApiError 401 "Invalid credentials"))).
Proof.
  apply (login_after_updatePassword Fixture.cfg (B := fixture_bcrypt) "salt4"
           1700000600000 1700000600000 1700000700000 1700000700000
           "a@b.com" "NewSecret@456" "Third@7890" "NewSecret@456$2a$12$salt2"
           ann [ann]).
  - exact ann_alone_distinct.
  - discriminate.
  - vm_compute; reflexivity.
  - reflexivity.
  - reflexivity.
  - vm_compute; reflexivity.
  - cbn; lia.
  - discriminate.
Defined.

Lemma beef_is_fresh : digest_fresh (sha256_hex "beef") [ann].
Proof. intros u [<-|[]]. discriminate. Defined.

(** The theorem on two tickets issued to Ann, at 1700000400000 ms and at
    1700000450000 ms. *)
Lemma newer_ticket_replaces_older_witness :
  exists s1 s2,
    forgotPassword "beef" 1700000400000 "a@b.com" [ann]
    = (s1, Json 200 (ResetTokenBody "Password reset token generated" "beef"))
    /\ forgotPassword "cafe" 1700000450000 "a@b.com" s1
       = (s2, Json 200 (ResetTokenBody "Password reset token generated" "cafe"))
    /\ (forall entropy now tsave tsign pw,
           resetPassword Fixture.cfg entropy now tsave tsign "beef" pw s2
           = (s2, Next (ApiError 400 "Invalid or expired token")))
    /\ (forall entropy now tsave tsign pw,
           now < 1700000450000 + 600000 -> (8 <= String.length pw)%nat ->
           exists s3 token,
             resetPassword Fixture.cfg entropy now tsave tsign "cafe" pw s2
             = (s3, Json 200 (TokenBody "Password reset successful" token))).
Proof.
  apply (newer_ticket_replaces_older Fixture.cfg "beef" "cafe" "a@b.com"
           1700000400000 1700000450000 ann [ann]).
  - exact ann_alone_distinct.
  - exact beef_is_fresh.
  - vm_compute; reflexivity.
  - vm_compute; discriminate.
Defined.

(** The theorem on Ann's ticket of 1700000400000 ms, redeemed at
    1700000500000 ms, and a login at 1700000600000 ms. *)
Lemma reset_round_trip_ends_in_login_witness :
  exists s1 s2 s3 token view token',
    forgotPassword "beef" 1700000400000 "a@b.com" [ann]
    = (s1, Json 200 (ResetTokenBody "Password reset token generated" "beef"))
    /\ resetPassword Fixture.cfg "salt3" 1700000500000 1700000500000 1700000500000
                     "beef" "Another@789" s1
       = (s2, Json 200 (TokenBody "Password reset successful" token))
    /\ login Fixture.cfg 1700000600000 1700000600000
             (Some "a@b.com") (Some "Another@789") s2
       = (s3, Json 200 (AuthBody view token')).
Proof.
  apply (reset_round_trip_ends_in_login Fixture.cfg (B := fixture_bcrypt)
           "beef" "a@b.com" "Another@789" "salt3"
           1700000400000 1700000500000 1700000500000 1700000500000
           1700000600000 1700000600000 ann [ann]).
  - exact ann_alone_distinct.
  - exact beef_is_fresh.
  - discriminate.
  - vm_compute; reflexivity.
  - reflexivity.
  - lia.
  - cbn; lia.
Defined.

(** The theorem on Ann's ticket presented with the password 'short'. *)
Lemma weak_password_does_not_consume_the_ticket_witness :
  exists messages,
    messages <> [] /\
    resetPassword Fixture.cfg "salt3" 1700000500000 1700000500000 1700000500000
                  "beef" "short" [ann_with_ticket]
    = ([ann_with_ticket], Next (ValidationError messages))
    /\ ErrorHandler.status
         (ErrorHandler.errorHandler Fixture.cfg (ValidationError messages)) = 400
    /\ ErrorHandler.message
         (ErrorHandler.errorHandler Fixture.cfg (ValidationError messages))
       = "Validation Error"
    /\ ErrorHandler.details
         (ErrorHandler.errorHandler Fixture.cfg (ValidationError messages))
       = Some (ErrorHandler.DetailList messages)
    /\ (forall entropy' tsave' tsign' pw',
           (8 <= String.length pw')%nat ->
           exists s' token,
             resetPassword Fixture.cfg entropy' 1700000500000 tsave' tsign' "beef" pw'
                           [ann_with_ticket]
             = (s', Json 200 (TokenBody "Password reset successful" token))).
Proof.
  apply (weak_password_does_not_consume_the_ticket Fixture.cfg Fixture.cfg "salt3"
           1700000500000 1700000500000 1700000500000 "beef" "short"
           ann_with_ticket [ann_with_ticket]).
  - vm_compute; reflexivity.
  - cbn; lia.
Defined.

(** The theorem on Ben's registration in the empty collection and the
    token it returns. *)
Lemma registered_token_authenticates_witness :
  exists u,
    In u [ben] /\
    protect Fixture.cfg [ben] 1700000050000
            {| authorization := Some ("Bearer " ++ ben_token); user := None |}
    = NextOk {| authorization := Some ("Bearer " ++ ben_token);
                user := Some (with_password u None) |}
    /\ AuthController.view (with_password u None) = ben_view
    /\ view_id ben_view = 7%nat
    /\ view_role ben_view = Some "user".
Proof.
  apply (registered_token_authenticates Fixture.cfg 7 "salt7"
           1700000000000 1700000000000 1700000050000 ben_body [] [ben]
           ben_view ben_token ben_claims).
  - intros [].
  - vm_compute; reflexivity.
  - discriminate.
  - apply not_in_chars. vm_compute; reflexivity.
  - vm_compute; reflexivity.
  - reflexivity.
Defined.

(** The theorem on the administrator asking to delete Ann. *)
Lemma deleteUser_spares_the_acting_admin_witness :
  (forall x, In x users -> _id x = _id root -> In x (fst (deleteUser root 1 users)))
  /\ (forall s' e, deleteUser root 1 users = (s', UNext e) -> s' = users)
  /\ (forall u, find (fun x => Nat.eqb (_id x) 1) users = Some u -> _id u = _id root ->
                deleteUser root 1 users
                = (users, UNext (ApiError 400 "You cannot delete your own account")))
  /\ (find (fun x => Nat.eqb (_id x) 1) users = None ->
      deleteUser root 1 users = (users, UNext (ApiError 404 "User not found")))
  /\ (forall s' status b,
         deleteUser root 1 users = (s', UJson status b) ->
         1%nat <> _id root /\
         (forall x, In x s' <-> In x users /\ _id x <> 1%nat) /\
         find (fun x => Nat.eqb (_id x) 1) s' = None).
Proof.
  exact (deleteUser_spares_the_acting_admin root 1 users users_distinct).
Defined.


(** The theorem on Ann's token, presented at 1700000900000 ms, after
    the deactivation. *)
Lemma updateUser_is_in_force_at_once_witness :
  (update_isActive deactivation = Some false ->
   protect Fixture.cfg users_after_deactivation 1700000900000 request_with_login_token
   = NextErr (ApiError 401 "User account is deactivated"))
  /\ (forall r req',
         update_role deactivation = Some r -> r <> "" -> r <> "admin" ->
         protect Fixture.cfg users_after_deactivation 1700000900000
                 request_with_login_token = NextOk req' ->
         authorize ["admin"] req'
         = NextErr (ApiError 403
                      ("Role " ++ r ++ " is not authorized to access this resource"))).
Proof.
  apply (updateUser_is_in_force_at_once Fixture.cfg 1700000800000 1700000900000 1
           deactivation users users_after_deactivation 200 deactivation_answer
           request_with_login_token login_token ann_claims).
  - exact users_distinct.
  - vm_compute; reflexivity.
  - exact ann_presents_login_token.
  - vm_compute; reflexivity.
  - reflexivity.
Defined.

(** The theorem on Ann renaming herself. *)
Lemma updateProfile_keeps_privileges_witness :
  (forall s' e, updateProfile 1700000800000 1 renaming users = (s', UNext e) ->
                s' = users)
  /\ (forall s' status b,
         updateProfile 1700000800000 1 renaming users = (s', UJson status b) ->
         exists u u',
           find (fun x => Nat.eqb (_id x) 1) users = Some u /\
           s' = updateOne (_id u) (fun _ => u') users /\
           same_credentials u u' /\
           same_privileges u u' /\
           name u' = updated trim (profile_name renaming) (name u) /\
           (email u' = email u
            \/ exists x, profile_email renaming = Some x /\ x <> "" /\
                         email u' = cast_email x) /\
           status = 200 /\
           b = UserData (UserController.view u')).
Proof.
  exact (updateProfile_keeps_privileges 1700000800000 1 renaming users users_distinct).
Defined.

(** The theorem on the password 'Secret@123' and the default cost
    factor. *)
Lemma password_helpers_interoperate_witness :
  exists digest,
    hashPassword "salt9" "Secret@123" None = Ok digest
    /\ comparePassword "Secret@123" digest = Ok true
    /\ (forall u, UserModel.password u = Some digest ->
                  matchPassword u "Secret@123" = Ok true)
    /\ (forall entropy' d d',
           isModified_password d = true ->
           UserModel.password (this d) = Some "Secret@123" ->
           hashPassword_hook entropy' d = Ok d' ->
           exists h, UserModel.password (this d') = Some h
                     /\ comparePassword "Secret@123" h = Ok true
                     /\ hashPassword entropy' "Secret@123" None = Ok h)
    /\ (forall entropy',
           hashPassword entropy' "Secret@123" None = Ok digest -> entropy' = "salt9").
Proof.
  exact (password_helpers_interoperate (B := fixture_bcrypt) "salt9" "Secret@123" None).
Defined.

(** The theorem on Ben's registration, followed by his login at
    1700000050000 ms. *)
Lemma login_after_register_witness :
  exists s2 token',
    login Fixture.cfg 1700000050000 1700000050000
          (Some (body_email ben_body)) (Some (body_password ben_body)) [ben]
    = (s2, Json 200 (AuthBody ben_view token')).
Proof.
  apply (login_after_register Fixture.cfg (B := fixture_bcrypt) 7 "salt7"
           1700000000000 1700000000000 1700000050000 1700000050000
           ben_body [] [ben] ben_view ben_token).
  - constructor.
  - intros [].
  - vm_compute; reflexivity.
Defined.


(** The recorded run of the administration handlers: a second
    administrator is created, a role outside the enumeration is refused
    by the schema, the administrator cannot delete itself, and deleting
    Ann leaves the administrator alone. *)
Example administration_run :
  createUser 3 "salt5" 1700000800000 eve_body users
  = ((users ++ [eve])%list, UJson 201 (UserData (UserController.view eve)))
  /\ createUser 3 "salt5" 1700000800000
                (mkCreateBody "Eve" "eve@b.com" "Secret@123" (Some "root")) users
     = (users,
        UNext (ValidationError ["`root` is not a valid enum value for path `role`."]))
  /\ deleteUser root 2 users
     = (users, UNext (ApiError 400 "You cannot delete your own account"))
  /\ deleteUser root 1 users = ([root], UJson 200 NoData)
  /\ updateUser 1700000800000 1 deactivation users
     = (users_after_deactivation, UJson 200 deactivation_answer)
  /\ getUserById 1 users = UJson 200 (UserDocument (with_password ann None)).
Proof. by_evaluation. Qed.


(** The recorded listing: the second of two pages of one document holds
    Ann without her password; a third page is empty; without a query the
    page is 1 and the limit 10. *)
Example listing_run :
  getUsers refusing newest_first (Some 2) (Some 1)
  = LJson 200 1 {| total := 2; pages := 2; currentPage := 2; limit := 1 |}
          [with_password ann None]
  /\ getUsers refusing newest_first (Some 3) (Some 1)
     = LJson 200 0 {| total := 2; pages := 2; currentPage := 3; limit := 1 |} []
  /\ getUsers refusing newest_first None None
     = LJson 200 2 {| total := 2; pages := 1; currentPage := 1; limit := 10 |}
             [with_password root None; with_password ann None]
  /\ getUsers refusing newest_first (Some 0) (Some 0)
     = getUsers refusing newest_first None None.
Proof. by_evaluation. Qed.

End RecordedRuns.
